(** * OfferGo front end: evaluation normalizer, market comparison and session state

    A shallow embedding of the client-side logic of the OfferGo application
    (pages [Submission.tsx] and [Results.tsx], the profile hook and
    [lib/demo-users]) together with the properties its specification states.

    Conventions of the embedding:
    - a JavaScript [number] is [NaN] or a rational: [NaN] is kept because
      arithmetic on a missing field produces it. The normalizer multiplies
      numbers the backend sends and rounds the product to an integer, so
      there the product is the binary64 one, the exact product rounded to
      the nearest double ([Binary64.nearest]); arithmetic on integers below
      2^53, which binary64 performs exactly, and the arithmetic of the
      results page are written with the exact rational operations;
    - a JavaScript string is a [string] of bytes;
    - an object field that may be missing ([undefined]) is an [option];
    - code that can throw returns a [result];
    - [localStorage] and [sessionStorage] are finite maps from keys to the
      stored text;
    - what the browser and the backend supply ([JSON.parse] and
      [JSON.stringify] at the types the code declares, the HTTP endpoints,
      [Math.random], the text of engine-raised errors) is a parameter of the
      function that uses it. *)

From Stdlib Require Import ZArith QArith Qround Qabs Qpower String Ascii List Bool Lia Lqa.
From stdpp Require Import gmap strings list.
Import ListNotations.

(** ** Binary64 rounding *)

Module Binary64.

Definition pow2 (e : Z) : Q := Qpower 2 e.

(** The integer part of the base-2 logarithm of a positive rational. *)
Definition ilog2 (q : Q) : Z :=
  let l := (Z.log2 (Qnum q) - Z.log2 (Zpos (Qden q)))%Z in
  if Qle_bool (pow2 l) q then l else (l - 1)%Z.

(** The nearest integer, a tie going to the even one. *)
Definition nearestEven (q : Q) : Z :=
  let f := Qfloor q in
  match Qcompare (q - inject_Z f) (1 # 2) with
  | Lt => f
  | Gt => (f + 1)%Z
  | Eq => if Z.even f then f else (f + 1)%Z
  end.

(** The exponent of the last place of the doubles around [q]: 53
    significant bits, and the fixed spacing 2^-1074 of the subnormal
    range. *)
Definition ulpExponent (q : Q) : Z := Z.max (-1074) (ilog2 (Qabs q) - 52).

(** The double nearest to [q] (round to nearest, ties to even), in lowest
    terms. A result at or beyond 2^1024, which is [Infinity] in the
    engine, is left at its finite value: the only products that can be
    that large are passed to [Math.round] and clamped at once, and the
    clamp sends both to the same bound. *)
Definition nearest (q : Q) : Q :=
  let r := Qred q in
  if Qeq_bool r 0 then 0
  else Qred (inject_Z (nearestEven (r / pow2 (ulpExponent r))) * pow2 (ulpExponent r)).
Arguments nearest : simpl never.

End Binary64.

(** ** JavaScript values *)

Module JS.

Inductive number : Type :=
| NaN
| Num (q : Q).

(** An integer literal. *)
Definition lit (z : Z) : number := Num (inject_Z z).

Definition lift2 (f : Q -> Q -> Q) (a b : number) : number :=
  match a, b with
  | Num x, Num y => Num (f x y)
  | _, _ => NaN
  end.

Definition add : number -> number -> number := lift2 Qplus.
Definition sub : number -> number -> number := lift2 Qminus.
Definition mul : number -> number -> number := lift2 Qmult.
Definition div : number -> number -> number := lift2 Qdiv.

(** The binary64 product and sum: the exact result rounded to the nearest
    double. *)
Definition fmul : number -> number -> number :=
  lift2 (fun x y => Binary64.nearest (x * y)).
Definition fadd : number -> number -> number :=
  lift2 (fun x y => Binary64.nearest (x + y)).

(** A decimal literal of the program text that is not an integer: the
    double nearest to it. *)
Definition double (q : Q) : number := Num (Binary64.nearest q).

(** [Math.round]: the nearest integer, a half rounds towards +infinity. *)
Definition round_half_up (q : Q) : Z := Qfloor (q + (1 # 2)).

Definition Math_round (a : number) : number :=
  match a with
  | NaN => NaN
  | Num q => lit (round_half_up q)
  end.

Definition Math_min (a b : number) : number :=
  match a, b with
  | Num x, Num y => if Qle_bool x y then a else b
  | _, _ => NaN
  end.

Definition Math_max (a b : number) : number :=
  match a, b with
  | Num x, Num y => if Qle_bool x y then b else a
  | _, _ => NaN
  end.

Definition Math_floor (a : number) : number :=
  match a with
  | NaN => NaN
  | Num q => lit (Qfloor q)
  end.

(** Relational operators: every comparison with [NaN] is false. *)
Definition ge (a b : number) : bool :=
  match a, b with
  | Num x, Num y => Qle_bool y x
  | _, _ => false
  end.

Definition le (a b : number) : bool := ge b a.

Definition gt (a b : number) : bool :=
  match a, b with
  | Num x, Num y => negb (Qle_bool x y)
  | _, _ => false
  end.

(** Truthiness of a number: [0] and [NaN] are falsy. *)
Definition truthy (a : number) : bool :=
  match a with
  | NaN => false
  | Num q => negb (Qeq_bool q 0)
  end.

(** Conversion of a possibly missing numeric field in an arithmetic
    expression: [undefined] becomes [NaN]. *)
Definition ToNumber (o : option Q) : number :=
  match o with
  | Some q => Num q
  | None => NaN
  end.

(** Exceptions. The message of an engine-raised [TypeError] or
    [SyntaxError] is engine specific and not modelled. *)
Inductive exn : Type :=
| Error (message : string)
| TypeError
| SyntaxError.

Inductive result (A : Type) : Type :=
| Ok (a : A)
| Throw (e : exn).
Arguments Ok {A} a.
Arguments Throw {A} e.

Definition bind {A B : Type} (r : result A) (k : A -> result B) : result B :=
  match r with
  | Ok a => k a
  | Throw e => Throw e
  end.

(** Member access on a possibly missing object or array ([x.length],
    [x.filter(...)]): a [TypeError] when [x] is [undefined]. *)
Definition deref {A : Type} (o : option A) : result A :=
  match o with
  | Some a => Ok a
  | None => Throw TypeError
  end.

(** The sets of ASCII characters the code's patterns mention. *)
Definition is_digit (c : ascii) : bool :=
  let n := N_of_ascii c in (48 <=? n)%N && (n <=? 57)%N.

Definition to_lower (c : ascii) : ascii :=
  let n := N_of_ascii c in
  if (65 <=? n)%N && (n <=? 90)%N then ascii_of_N (n + 32) else c.

Fixpoint lower (s : string) : string :=
  match s with
  | EmptyString => EmptyString
  | String c s' => String (to_lower c) (lower s')
  end.

End JS.

Declare Scope js_scope.
Delimit Scope js_scope with js.
Bind Scope js_scope with JS.number.
Infix "+" := JS.add : js_scope.
Infix "-" := JS.sub : js_scope.
Infix "*" := JS.mul : js_scope.
Infix "/" := JS.div : js_scope.
Infix ">=" := JS.ge : js_scope.
Infix "<=" := JS.le : js_scope.
Infix ">" := JS.gt : js_scope.
Notation "'let*' x ':=' e 'in' k" := (JS.bind e (fun x => k))
  (at level 10, x name, e at level 100, k at level 200, only parsing).

(** ** [Submission.tsx] *)

Module Submission.
Import JS.

Record File := { name : string }.

Record UploadedOffer := {
  id : string;
  file : File;
  isCurrent : bool;
}.

Record Priorities := {
  financial : Z;
  career : Z;
  lifestyle : Z;
  alignment : Z;
}.

Record KeyDriver := { label : string; impact : string }.

Record NegotiationTarget := { item : string; ask : string; reason : string }.

(** The evaluation result as it arrives from the service: the response is
    cast to the type without validation, so every field may be missing. *)
Record WorkflowEvaluation := {
  score : option Q;
  recommendation : option string;
  confidence : option Q;
  key_drivers : option (list KeyDriver);
  negotiation_targets : option (list NegotiationTarget);
  risks : option (list string);
  followup_questions : option (list string);
  one_paragraph_summary : option string;
}.

Record CategoryScores := {
  cs_financial : number;
  cs_career : number;
  cs_lifestyle : number;
  cs_alignment : number;
  cs_risk : number;
}.

Record OfferComparison := {
  oc_name : string;
  oc_overall : number;
  oc_financial : number;
  oc_career : number;
  oc_risk : number;
}.

Record ResultsAnalysisData := {
  overallScore : number;
  categoryScores : CategoryScores;
  grade : string;
  strengths : list string;
  ra_risks : list string;
  financialProjection : option string;
  negotiationInsights : string;
  comparisonData : list OfferComparison;
  ra_confidence : number;
  ra_recommendation : option string;
}.

(** *** The offer list *)

(** [handleFileUpload]: [e.target.files?.[0]] is the chosen file if any,
    [uuid] the value [crypto.randomUUID()] returns. *)
Definition handleFileUpload (chosen : option File) (uuid : string)
    (offers : list UploadedOffer) : list UploadedOffer :=
  match chosen with
  | None => offers
  | Some f =>
      let newOffer :=
        {| id := uuid; file := f; isCurrent := Nat.eqb (length offers) 0 |} in
      offers ++ [newOffer]
  end.

Definition markCurrent (o : UploadedOffer) : UploadedOffer :=
  {| id := id o; file := file o; isCurrent := true |}.

(** [removeOffer]: the assignment [filtered[0].isCurrent = true] acts on the
    first element of the filtered array, which is the array returned. *)
Definition removeOffer (i : string) (prev : list UploadedOffer)
    : list UploadedOffer :=
  let filtered := List.filter (fun o => negb (String.eqb (id o) i)) prev in
  if Nat.ltb 0 (length filtered) && negb (existsb isCurrent filtered) then
    match filtered with
    | o :: rest => markCurrent o :: rest
    | [] => []
    end
  else filtered.

Definition selectCurrent (i : string) (prev : list UploadedOffer)
    : list UploadedOffer :=
  List.map
    (fun o => {| id := id o; file := file o; isCurrent := String.eqb (id o) i |})
    prev.

(** *** The normalizer *)

Definition toGrade (score100 : number) : string :=
  if (score100 >= lit 93)%js then "A"
  else if (score100 >= lit 85)%js then "A-"
  else if (score100 >= lit 78)%js then "B+"
  else if (score100 >= lit 70)%js then "B"
  else if (score100 >= lit 62)%js then "C"
  else "D".

Definition clamp (n low high : number) : number :=
  Math_max low (Math_min high n).

(** [s.replace(/\.(pdf|doc|docx)$/i, "")]: the pattern is anchored at the
    end, so the leftmost match is the first dot whose remainder is one of
    the three extensions. *)
Definition isOfferExt (rest : string) : bool :=
  let r := lower rest in
  String.eqb r "pdf" || String.eqb r "doc" || String.eqb r "docx".

Fixpoint stripOfferExt (s : string) : string :=
  match s with
  | EmptyString => EmptyString
  | String c s' =>
      if Ascii.eqb c "."%char && isOfferExt s' then EmptyString
      else String c (stripOfferExt s')
  end.

Definition isStrength (d : KeyDriver) : bool :=
  String.eqb (impact d) "positive" || String.eqb (impact d) "neutral".

Definition targetText (t : NegotiationTarget) : string :=
  item t +:+ ": " +:+ ask t +:+ " (" +:+ reason t +:+ ")".

Definition riskPenaltyOf (rec : option string) : number :=
  match rec with
  | Some r =>
      if String.eqb r "needs_more_info" then lit 18
      else if String.eqb r "renegotiate" then lit 8
      else lit 0
  | None => lit 0
  end.

(** [evalOut.score * 10] and [evalOut.confidence * 100] multiply a double
    of the backend, and [confidence * 0.1] multiplies by the double written
    [0.1]: these products, and the sum the last one enters, are the
    binary64 ones. The other operations act on integers (the length of an
    array, the penalties, the clamped scores, the ratings of the sliders,
    which run from 1 to 5 in steps of 1), where binary64 is exact. *)
Definition mapEvalToAnalysis (priorities : Priorities)
    (evalOut : WorkflowEvaluation) (currentFileName : string)
    : result ResultsAnalysisData :=
  let overallScore :=
    clamp (Math_round (fmul (ToNumber (score evalOut)) (lit 10))) (lit 0) (lit 100) in
  let confidence :=
    clamp (Math_round (fmul (ToNumber (confidence evalOut)) (lit 100)))
          (lit 0) (lit 100) in
  let riskPenalty := riskPenaltyOf (recommendation evalOut) in
  let* risks := deref (risks evalOut) in
  let riskScore :=
    clamp (Math_round (fadd (lit 76 - lit (Z.of_nat (length risks)) * lit 7
                             - riskPenalty)
                            (fmul confidence (double (1 # 10)))))
          (lit 12) (lit 95) in
  let categoryScores :=
    {| cs_financial :=
         clamp (Math_round (overallScore + (lit (financial priorities) - lit 3) * lit 6))
               (lit 8) (lit 98);
       cs_career :=
         clamp (Math_round (overallScore - lit 4 + (lit (career priorities) - lit 3) * lit 6))
               (lit 8) (lit 98);
       cs_lifestyle :=
         clamp (Math_round (overallScore - lit 8 + (lit (lifestyle priorities) - lit 3) * lit 6))
               (lit 8) (lit 95);
       cs_alignment :=
         clamp (Math_round (overallScore - lit 6 + (lit (alignment priorities) - lit 3) * lit 6))
               (lit 8) (lit 96);
       cs_risk := riskScore |} in
  let* drivers := deref (key_drivers evalOut) in
  let strengths := take 6 (List.map label (List.filter isStrength drivers)) in
  let* targets := deref (negotiation_targets evalOut) in
  let negotiationInsights :=
    if Nat.ltb 0 (length targets)
    then String.concat " " (List.map targetText targets)
    else "No negotiation targets were returned by the model." in
  Ok {| overallScore := overallScore;
        categoryScores := categoryScores;
        grade := toGrade overallScore;
        strengths :=
          if Nat.ltb 0 (length strengths) then strengths
          else ["Model did not return positive key drivers."];
        ra_risks := risks;
        financialProjection := one_paragraph_summary evalOut;
        negotiationInsights := negotiationInsights;
        comparisonData :=
          [ {| oc_name := stripOfferExt currentFileName;
               oc_overall := overallScore;
               oc_financial := cs_financial categoryScores;
               oc_career := cs_career categoryScores;
               oc_risk := cs_risk categoryScores |} ];
        ra_confidence := confidence;
        ra_recommendation := recommendation evalOut |}.

(** *** Submitting *)

Record IngestParsed := {
  base_salary : option Q;
  bonus_target : option Q;
  equity_amount : option Q;
}.

Record IngestResponse := {
  offer_id : option Q;
  parsed : option IngestParsed;
}.

Record MarketSnapshotResponse := {
  provider : string;
  databricks_table : option string;
  sample_size : Q;
  market_base_median : Q;
  market_bonus_avg : Q;
  market_signing_avg : Q;
  market_total_est : Q;
  offer_total_est : Q;
  offer_vs_market_ratio : Q;
}.

Record StoredOffer := { so_id : string; fileName : string; so_isCurrent : bool }.

(** The object written under "offergo-submission"; read back, any of its
    fields may be missing. *)
Record SubmissionSnapshot := {
  ss_offers : option (list StoredOffer);
  ss_priorities : option Priorities;
  backendOfferId : option Q;
}.

(** An HTTP response: [ok], the body as text, the body parsed as JSON. *)
Record Response (A : Type) := {
  ok : bool;
  text : string;
  json : result A;
}.
Arguments ok {A} _.
Arguments text {A} _.
Arguments json {A} _.

(** The three endpoints the page calls: what each request settles to. A
    rejected [fetch] is a [Throw]. A request that never settles leaves the
    caller at its [await] and has no value here. *)
Record Backend := {
  ingest_pdf : File -> Priorities -> result (Response IngestResponse);
  evaluate : Q -> result (Response WorkflowEvaluation);
  market_snapshot : Q -> result (Response MarketSnapshotResponse);
}.

(** [JSON.stringify] at the types the page serialises. *)
Record Stringify := {
  stringify_submission : SubmissionSnapshot -> string;
  stringify_analysis : ResultsAnalysisData -> string;
  stringify_eval : WorkflowEvaluation -> string;
  stringify_parsed : IngestParsed -> string;
  stringify_market : MarketSnapshotResponse -> string;
}.

Inductive ToastText :=
| Plain (s : string)
| MessageOf (e : exn).

Record Toast := { title : string; description : ToastText }.

(** What a call of [handleSubmit] leaves behind: the notification raised,
    the route navigated to, the session storage. The [isSubmitting] flag is
    set before the [try] and cleared in its [finally], whatever happens. *)
Record SubmitResult := {
  toast : option Toast;
  navigate : option string;
  session : gmap string string;
}.

(** The body of the [try] block runs in a state and exception monad over
    the session storage: a [throw] keeps the writes already made. *)
Definition Try (A : Type) : Type :=
  gmap string string -> result A * gmap string string.

Definition ret {A : Type} (a : A) : Try A := fun ss => (Ok a, ss).

Definition throw {A : Type} (e : exn) : Try A := fun ss => (Throw e, ss).

Definition await {A : Type} (r : result A) : Try A := fun ss => (r, ss).

Definition andThen {A B : Type} (m : Try A) (k : A -> Try B) : Try B :=
  fun ss =>
    match m ss with
    | (Ok a, ss') => k a ss'
    | (Throw e, ss') => (Throw e, ss')
    end.

Definition setItem (key value : string) : Try unit :=
  fun ss => (Ok tt, <[key := value]> ss).

Definition endsWith (s suffix : string) : bool :=
  let n := String.length s in
  let m := String.length suffix in
  Nat.leb m n && String.eqb (String.substring (n - m) m s) suffix.

Definition emptyParsed : IngestParsed :=
  {| base_salary := None; bonus_target := None; equity_amount := None |}.

Definition truthyId (o : option Q) : option Q :=
  match o with
  | Some q => if Qeq_bool q 0 then None else Some q
  | None => None
  end.

Section HandleSubmit.
Variable api : Backend.
Variable JSON : Stringify.
Variable offers : list UploadedOffer.
Variable priorities : Priorities.

Local Notation "'let!' x ':=' m 'in' k" := (andThen m (fun x => k))
  (at level 10, x name, m at level 100, k at level 200, only parsing).
Local Notation "'do!' m 'in' k" := (andThen m (fun _ => k))
  (at level 10, m at level 100, k at level 200, only parsing).

(** The [try] block, up to [navigate("/results")]. *)
Definition submitCurrent (currentOffer : UploadedOffer) : Try unit :=
  let! ingestResp := await (ingest_pdf api (file currentOffer) priorities) in
  do! (if negb (ok ingestResp) then throw (Error (text ingestResp)) else ret tt) in
  let! ingestJson := await (json ingestResp) in
  match truthyId (offer_id ingestJson) with
  | None => throw (Error "Ingest succeeded but no offer_id was returned.")
  | Some offerId =>
      let! evalResp := await (evaluate api offerId) in
      do! (if negb (ok evalResp) then throw (Error (text evalResp)) else ret tt) in
      let! evalJson := await (json evalResp) in
      let marketSnapshot :=
        match market_snapshot api offerId with
        | Ok marketResp =>
            if ok marketResp then
              match json marketResp with
              | Ok m => Some m
              | Throw _ => None
              end
            else None
        | Throw _ => None
        end in
      let submission :=
        {| ss_offers :=
             Some (List.map
                     (fun o => {| so_id := id o; fileName := name (file o);
                                  so_isCurrent := isCurrent o |})
                     offers);
           ss_priorities := Some priorities;
           backendOfferId := Some offerId |} in
      do! setItem "offergo-submission" (stringify_submission JSON submission) in
      let! analysis := await (mapEvalToAnalysis priorities evalJson
                           (name (file currentOffer))) in
      do! setItem "offergo-demo-analysis" (stringify_analysis JSON analysis) in
      do! setItem "offergo-workflow-eval" (stringify_eval JSON evalJson) in
      do! setItem "offergo-ingest-parsed"
        (stringify_parsed JSON
           (match parsed ingestJson with Some p => p | None => emptyParsed end)) in
      match marketSnapshot with
      | Some m => setItem "offergo-market-snapshot" (stringify_market JSON m)
      | None => ret tt
      end
  end.

Definition blocked (ttl msg : string) (ss : gmap string string) : SubmitResult :=
  {| toast := Some {| title := ttl; description := Plain msg |};
     navigate := None; session := ss |}.

Definition handleSubmit (ss : gmap string string) : SubmitResult :=
  if Nat.eqb (length offers) 0 then
    blocked "Upload required" "Please upload at least one offer letter." ss
  else if negb (existsb isCurrent offers) then
    blocked "Selection required" "Please select a current offer." ss
  else
    match List.find isCurrent offers with
    | None => {| toast := None; navigate := None; session := ss |}
    | Some currentOffer =>
        if negb (endsWith (lower (name (file currentOffer))) ".pdf") then
          blocked "PDF required" "Please upload a PDF offer letter." ss
        else
          match submitCurrent currentOffer ss with
          | (Ok _, ss') =>
              {| toast := None; navigate := Some "/results"; session := ss' |}
          | (Throw error, ss') =>
              {| toast := Some {| title := "Analysis failed";
                                  description := MessageOf error |};
                 navigate := None; session := ss' |}
          end
    end.

End HandleSubmit.

End Submission.

(** ** The profile hook *)

Module Profile.

Record ProfileData := {
  name : string;
  city : string;
  country : string;
  nationality : string;
  monthlyExpenses : string;
  ownedAsset : string;
  debts : string;
  resumeName : option string;
  completed : bool;
}.

Definition STORAGE_KEY : string := "offergo-profile".

Definition emptyProfile : ProfileData :=
  {| name := ""; city := ""; country := ""; nationality := "";
     monthlyExpenses := ""; ownedAsset := ""; debts := "";
     resumeName := None; completed := false |}.

(** [JSON_parse raw] is [None] when [JSON.parse] throws its [SyntaxError]. *)
Definition loadProfile (JSON_parse : string -> option ProfileData)
    (localStorage : gmap string string) : ProfileData :=
  match localStorage !! STORAGE_KEY with
  | Some raw =>
      if negb (String.eqb raw "") then
        match JSON_parse raw with
        | Some p => p
        | None => emptyProfile
        end
      else emptyProfile
  | None => emptyProfile
  end.

End Profile.

(** ** [lib/demo-users] *)

Module DemoUsers.

Record Storage := {
  localStorage : gmap string string;
  sessionStorage : gmap string string;
}.

Definition DEMO_SESSION_KEY : string := "offergo-demo-user".

Definition profileData : Profile.ProfileData :=
  {| Profile.name := "Bob Wang";
     Profile.city := "New York";
     Profile.country := "USA";
     Profile.nationality := "Chinese";
     Profile.monthlyExpenses := "3200";
     Profile.ownedAsset := "40000";
     Profile.debts := "10000 @ 5%";
     Profile.resumeName := Some "resume_bob_wang.pdf";
     Profile.completed := true |}.

Definition loginDemoUser (JSON_stringify : Profile.ProfileData -> string)
    (st : Storage) : Storage :=
  {| localStorage := <["offergo-profile" := JSON_stringify profileData]> (localStorage st);
     sessionStorage := <[DEMO_SESSION_KEY := "demo-bob"]> (sessionStorage st) |}.

(** [removeItem] deletes the key if present and does nothing otherwise. *)
Definition logoutDemoUser (st : Storage) : Storage :=
  {| localStorage := delete "offergo-profile" (localStorage st);
     sessionStorage :=
       delete DEMO_SESSION_KEY
         (delete "offergo-demo-analysis"
            (delete "offergo-submission" (sessionStorage st))) |}.

Definition getActiveDemoUserId (st : Storage) : option string :=
  sessionStorage st !! DEMO_SESSION_KEY.

End DemoUsers.

(** ** [Results.tsx]: reading numbers out of text *)

Module Extract.
Import JS.

(** [value.replace(/[^0-9.-]/g, "")] *)
Definition isNumeric (c : ascii) : bool :=
  is_digit c || Ascii.eqb c "." || Ascii.eqb c "-".

Fixpoint keepNumeric (s : string) : string :=
  match s with
  | EmptyString => EmptyString
  | String c s' =>
      if isNumeric c then String c (keepNumeric s') else keepNumeric s'
  end.

Fixpoint allDigits (s : string) : bool :=
  match s with
  | EmptyString => true
  | String c s' => is_digit c && allDigits s'
  end.

(** The value of a string of decimal digits, most significant first. *)
Fixpoint digitsValue (acc : Z) (s : string) : Z :=
  match s with
  | EmptyString => acc
  | String c s' => digitsValue (10 * acc + (Z.of_N (N_of_ascii c) - 48)) s'
  end.

(** The part of [s] before its first dot, and the part after it if there
    is a dot. *)
Fixpoint splitDot (s : string) : string * option string :=
  match s with
  | EmptyString => (EmptyString, None)
  | String c s' =>
      if Ascii.eqb c "." then (EmptyString, Some s')
      else let '(a, b) := splitDot s' in (String c a, b)
  end.

(** [Number(s)] for a string [s] over digits, dots and hyphens: an
    optional sign followed by digits, digits with a fraction, or a
    fraction alone; [NaN] for anything else. *)
Definition unsignedValue (s : string) : number :=
  match splitDot s with
  | (a, None) =>
      if allDigits a && negb (String.eqb a "") then Num (inject_Z (digitsValue 0 a))
      else NaN
  | (a, Some b) =>
      if allDigits a && allDigits b && negb (String.eqb a "" && String.eqb b "")
      then Num (inject_Z (digitsValue 0 a)
                + inject_Z (digitsValue 0 b) / inject_Z (10 ^ Z.of_nat (String.length b)))
      else NaN
  end.

Definition Number_ (s : string) : number :=
  match s with
  | String "-" s' => (lit 0 - unsignedValue s')%js
  | _ => unsignedValue s
  end.

(** [parseNumber]: [None] is the [null] result. With exact rationals every
    parsed number is finite. *)
Definition parseNumber (value : string) : option number :=
  let cleaned := keepNumeric value in
  if String.eqb cleaned "" then None
  else
    match Number_ cleaned with
    | Num q => Some (Num q)
    | NaN => None
    end.

(** *** The patterns

    [/KEYWORD[^0-9-]*([\d,]+(?:\.\d+)?)/i], with an optional [\$?] before
    the group in the two patterns that [extractOfferTotal] applies to the
    summary. The functions return the text of group 1 of the leftmost
    match, following the backtracking order of the pattern. *)

Definition isDigitOrComma (c : ascii) : bool := is_digit c || Ascii.eqb c ",".

Definition notDigitNorHyphen (c : ascii) : bool :=
  negb (is_digit c || Ascii.eqb c "-").

(** The longest prefix of [s] made of characters satisfying [p]. *)
Fixpoint takeWhile (p : ascii -> bool) (s : string) : string * string :=
  match s with
  | EmptyString => (EmptyString, EmptyString)
  | String c s' =>
      if p c then let '(a, b) := takeWhile p s' in (String c a, b)
      else (EmptyString, s)
  end.

(** [([\d,]+(?:\.\d+)?)] at the start of [s]: nothing follows the group, so
    each greedy choice stands. *)
Definition numberGroup (s : string) : option string :=
  let '(whole, rest) := takeWhile isDigitOrComma s in
  if String.eqb whole "" then None
  else
    match rest with
    | String "." rest' =>
        let '(frac, _) := takeWhile is_digit rest' in
        if String.eqb frac "" then Some whole
        else Some (whole +:+ "." +:+ frac)
    | _ => Some whole
    end.

(** [\$?] then the group. *)
Definition dollarGroup (dollar : bool) (s : string) : option string :=
  match s with
  | String "$" s' =>
      if dollar then
        match numberGroup s' with
        | Some g => Some g
        | None => numberGroup s
        end
      else numberGroup s
  | _ => numberGroup s
  end.

(** [[^0-9-]*] then the rest of the pattern: the star first tries to take
    one more character and gives it back when the rest fails. *)
Fixpoint skipToGroup (dollar : bool) (s : string) : option string :=
  match s with
  | String c s' =>
      if notDigitNorHyphen c then
        match skipToGroup dollar s' with
        | Some g => Some g
        | None => dollarGroup dollar s
        end
      else dollarGroup dollar s
  | EmptyString => dollarGroup dollar s
  end.

(** The literal [keyword] (given in lower case) at the start of [s],
    ignoring case; the result is what follows it. *)
Fixpoint afterKeyword (keyword s : string) : option string :=
  match keyword, s with
  | EmptyString, _ => Some s
  | String k keyword', String c s' =>
      if Ascii.eqb (to_lower c) k then afterKeyword keyword' s' else None
  | String _ _, EmptyString => None
  end.

Definition matchAt (keyword : string) (dollar : bool) (s : string) : option string :=
  match afterKeyword keyword s with
  | Some rest => skipToGroup dollar rest
  | None => None
  end.

(** [s.match(pattern)?.[1] ?? null]: the leftmost position that matches. *)
Fixpoint matchGroup (keyword : string) (dollar : bool) (s : string) : option string :=
  match matchAt keyword dollar s with
  | Some g => Some g
  | None =>
      match s with
      | String _ s' => matchGroup keyword dollar s'
      | EmptyString => None
      end
  end.

(** [array.find(Boolean)] on an array of matches: group 1 of a match is
    never the empty string, so the first match found is the result. *)
Fixpoint firstMatch (l : list (option string)) : option string :=
  match l with
  | [] => None
  | Some g :: _ => Some g
  | None :: l' => firstMatch l'
  end.

End Extract.

(** ** [Results.tsx]: the page *)

Module Results.
Import JS Extract.

Definition AnalysisData := Submission.ResultsAnalysisData.
Definition WorkflowEvaluation := Submission.WorkflowEvaluation.

Record ChatMessage := { role : string; content : string }.

Record OfferVsMarket := { offerTotal : number; marketTotal : number }.

(** [JSON.parse] followed by the cast to the declared type, at the types
    the page reads; [None] when [JSON.parse] throws its [SyntaxError]. *)
Record Parse := {
  parse_analysis : string -> option AnalysisData;
  parse_submission : string -> option Submission.SubmissionSnapshot;
  parse_eval : string -> option WorkflowEvaluation;
  parse_parsed : string -> option Submission.IngestParsed;
}.

Definition JSON_parse {A : Type} (p : string -> option A) (raw : string) : result A :=
  match p raw with
  | Some v => Ok v
  | None => Throw SyntaxError
  end.

(** [getItem] followed by a truthiness test: an absent key and the empty
    string both count as absent. *)
Definition getTruthy (ss : gmap string string) (key : string) : option string :=
  match ss !! key with
  | Some raw => if String.eqb raw "" then None else Some raw
  | None => None
  end.

(** *** The canned report *)

Definition demoRow (Math_random : nat -> Q) (i : nat) (nm : string)
    : Submission.OfferComparison :=
  let rnd (k : nat) (range : Z) : number :=
    Math_floor (Num (Math_random (4 * (i - 1) + k)%nat) * lit range) in
  {| Submission.oc_name := nm;
     Submission.oc_overall := if Nat.eqb i 0 then lit 87 else (lit 72 + rnd 0%nat 12%Z)%js;
     Submission.oc_financial := if Nat.eqb i 0 then lit 92 else (lit 65 + rnd 1%nat 20%Z)%js;
     Submission.oc_career := if Nat.eqb i 0 then lit 81 else (lit 60 + rnd 2%nat 25%Z)%js;
     Submission.oc_risk := if Nat.eqb i 0 then lit 68 else (lit 55 + rnd 3%nat 30%Z)%js |}.

Definition demoBase (comparison : list Submission.OfferComparison) : AnalysisData :=
  {| Submission.overallScore := lit 87;
     Submission.categoryScores :=
       {| Submission.cs_financial := lit 92;
          Submission.cs_career := lit 81;
          Submission.cs_lifestyle := lit 74;
          Submission.cs_alignment := lit 85;
          Submission.cs_risk := lit 68 |};
     Submission.grade := "A-";
     Submission.strengths :=
       [ "Total compensation is 18% above market median for this role and geography.";
         "Equity package includes accelerated vesting on acquisition — significant upside.";
         "Strong 401(k) match and health benefits reduce hidden cost exposure.";
         "Role scope aligns well with senior leadership trajectory within 2–3 years." ];
     Submission.ra_risks :=
       [ "Sign-on bonus has a 12-month clawback clause — cash-flow risk if you leave early.";
         "Equity valuation is based on latest 409A which may not reflect current market.";
         "No explicit remote-work guarantee in the offer letter — lifestyle risk.";
         "Non-compete clause could limit lateral moves for 12 months post-departure." ];
     Submission.financialProjection :=
       Some "Over a 4-year vesting period, total projected compensation ranges from $820K (bear) to $1.4M (bull), depending on equity appreciation. The base + bonus structure alone places you in the 78th percentile for comparable roles.";
     Submission.negotiationInsights :=
       "Consider negotiating the sign-on clawback down to 6 months and requesting a remote-work addendum. Equity refresh after Year 2 is common at this stage — worth raising upfront. PTO policy is below industry average; request 5 additional days.";
     Submission.comparisonData := comparison;
     Submission.ra_confidence := lit 82;
     Submission.ra_recommendation := Some "accept" |}.

(** [generateDemoData]: neither [JSON.parse] is inside a [try]. The i-th
    call of [Math.random()] returns [Math_random i]. *)
Definition generateDemoData (JSON : Parse) (Math_random : nat -> Q)
    (ss : gmap string string) : result AnalysisData :=
  match getTruthy ss "offergo-demo-analysis" with
  | Some demoAnalysis => JSON_parse (parse_analysis JSON) demoAnalysis
  | None =>
      let* parsed :=
        match getTruthy ss "offergo-submission" with
        | Some submission =>
            let* v := JSON_parse (parse_submission JSON) submission in Ok (Some v)
        | None => Ok None
        end in
      let offers :=
        match parsed with
        | Some v => Submission.ss_offers v
        | None => None
        end in
      let offerCount :=
        match offers with
        | Some os => length os
        | None => 1
        end in
      if Nat.ltb 1 offerCount then
        let names :=
          match offers with
          | Some os =>
              List.map (fun o => Submission.stripOfferExt (Submission.fileName o)) os
          | None => []
          end in
        Ok (demoBase (imap (demoRow Math_random) names))
      else Ok (demoBase [])
  end.

(** *** Totals found in the evaluation text *)

Definition extractMarketTotal (raw : option WorkflowEvaluation)
    : result (option number) :=
  match raw with
  | None => Ok None
  | Some raw =>
      let* drivers := deref (Submission.key_drivers raw) in
      match firstMatch
              (List.map (fun k => matchGroup "market" false (Submission.label k)) drivers)
      with
      | Some fromDrivers => Ok (parseNumber fromDrivers)
      | None =>
          let* summary := deref (Submission.one_paragraph_summary raw) in
          match matchGroup "market" false summary with
          | Some fromSummary => Ok (parseNumber fromSummary)
          | None => Ok None
          end
      end
  end.

Definition extractOfferTotal (raw : option WorkflowEvaluation)
    : result (option number) :=
  match raw with
  | None => Ok None
  | Some raw =>
      let* summary := deref (Submission.one_paragraph_summary raw) in
      let fromSummary :=
        match matchGroup "offered" true summary with
        | Some g => Some g
        | None => matchGroup "offer" true summary
        end in
      match fromSummary with
      | Some g => Ok (parseNumber g)
      | None =>
          let* drivers := deref (Submission.key_drivers raw) in
          match firstMatch
                  (List.map (fun k => matchGroup "offer" false (Submission.label k)) drivers)
          with
          | Some fromDrivers => Ok (parseNumber fromDrivers)
          | None => Ok None
          end
      end
  end.

(** *** The market comparison *)

(** [x ?? 0] for a number or [null]. *)
Definition orZero (o : option number) : number :=
  match o with
  | Some n => n
  | None => lit 0
  end.

(** [(rawEval?.recommendation ?? "needs_more_info") === "accept" ? 0.95 : 1.2] *)
Definition marketRatio (rawEval : option WorkflowEvaluation) : number :=
  let recommendation :=
    match rawEval with
    | Some e =>
        match Submission.recommendation e with
        | Some r => r
        | None => "needs_more_info"
        end
    | None => "needs_more_info"
    end in
  if String.eqb recommendation "accept" then Num (95 # 100) else Num (12 # 10).

(** The two totals before either is derived from the other, when the
    parsed ingestion fields are stored: the structured offer total, or
    the extracted one when the structured total is not positive. *)
Definition knownFromIngest (parsed : Submission.IngestParsed)
    (rawEval : option WorkflowEvaluation) : result (number * number) :=
  let base := orZero (option_map Num (Submission.base_salary parsed)) in
  let bonusPct := orZero (option_map Num (Submission.bonus_target parsed)) in
  let equity := orZero (option_map Num (Submission.equity_amount parsed)) in
  let offerTotal := (base + base * (bonusPct / lit 100) + equity)%js in
  let* extractedMarket := extractMarketTotal rawEval in
  let marketTotal := orZero extractedMarket in
  let* extractedOffer := extractOfferTotal rawEval in
  let offerTotal :=
    match extractedOffer with
    | Some x =>
        if (offerTotal <= lit 0)%js && truthy x && (x > lit 0)%js then x
        else offerTotal
    | None => offerTotal
    end in
  Ok (offerTotal, marketTotal).

(** With stored ingestion fields the market total is derived first. *)
Definition fillFromIngest (rawEval : option WorkflowEvaluation)
    (totals : number * number) : number * number :=
  let '(offerTotal, marketTotal) := totals in
  let marketTotal :=
    if (marketTotal <= lit 0)%js && (offerTotal > lit 0)%js
    then Math_round (offerTotal * marketRatio rawEval)
    else marketTotal in
  let offerTotal :=
    if (offerTotal <= lit 0)%js && (marketTotal > lit 0)%js
    then Math_round (marketTotal * Num (75 # 100))
    else offerTotal in
  (offerTotal, marketTotal).

(** Without stored ingestion fields both totals come from the text. *)
Definition knownFromText (rawEval : option WorkflowEvaluation)
    : result (number * number) :=
  let* extractedOffer := extractOfferTotal rawEval in
  let* extractedMarket := extractMarketTotal rawEval in
  Ok (orZero extractedOffer, orZero extractedMarket).

(** Without stored ingestion fields the offer total is derived first. *)
Definition fillFromText (rawEval : option WorkflowEvaluation)
    (totals : number * number) : number * number :=
  let '(offerTotal, marketTotal) := totals in
  let offerTotal :=
    if (offerTotal <= lit 0)%js && (marketTotal > lit 0)%js
    then Math_round (marketTotal * Num (75 # 100))
    else offerTotal in
  let marketTotal :=
    if (marketTotal <= lit 0)%js && (offerTotal > lit 0)%js
    then Math_round (offerTotal * marketRatio rawEval)
    else marketTotal in
  (offerTotal, marketTotal).

(** The values of [offerTotal] and [marketTotal] when the final test is
    reached; a [Throw] when an exception is raised before it. *)
Definition derivedTotals (JSON : Parse) (ss : gmap string string)
    (rawEval : option WorkflowEvaluation) : result (number * number) :=
  match getTruthy ss "offergo-ingest-parsed" with
  | Some rawParsed =>
      let* parsed := JSON_parse (parse_parsed JSON) rawParsed in
      let* known := knownFromIngest parsed rawEval in
      Ok (fillFromIngest rawEval known)
  | None =>
      let* known := knownFromText rawEval in
      Ok (fillFromText rawEval known)
  end.

(** The two totals at the point where one is derived from the other. *)
Definition knownTotals (JSON : Parse) (ss : gmap string string)
    (rawEval : option WorkflowEvaluation) : result (number * number) :=
  match getTruthy ss "offergo-ingest-parsed" with
  | Some rawParsed =>
      let* parsed := JSON_parse (parse_parsed JSON) rawParsed in
      knownFromIngest parsed rawEval
  | None => knownFromText rawEval
  end.

(** [if (offerTotal > 0 && marketTotal > 0) setOfferVsMarket(...)] *)
Definition comparisonOf (totals : number * number) : option OfferVsMarket :=
  let '(offerTotal, marketTotal) := totals in
  if (offerTotal > lit 0)%js && (marketTotal > lit 0)%js
  then Some {| offerTotal := offerTotal; marketTotal := marketTotal |}
  else None.

(** The market derivation of the effect: the branch that reads the stored
    ingestion fields is inside a [try] whose [catch] does nothing, the
    other branch is not. The result is the new value of the
    [offerVsMarket] state, initially [null]. *)
Definition deriveOfferVsMarket (JSON : Parse) (ss : gmap string string)
    (rawEval : option WorkflowEvaluation) : result (option OfferVsMarket) :=
  match getTruthy ss "offergo-ingest-parsed" with
  | Some _ =>
      match derivedTotals JSON ss rawEval with
      | Ok totals => Ok (comparisonOf totals)
      | Throw _ => Ok None
      end
  | None =>
      let* totals := derivedTotals JSON ss rawEval in
      Ok (comparisonOf totals)
  end.

(** *** The component state and the effect run on mount *)

Record State := {
  data : option AnalysisData;
  backendOfferId : option number;
  priorities : option Submission.Priorities;
  workflowEval : option WorkflowEvaluation;
  offerVsMarket : option OfferVsMarket;
  chat : list ChatMessage;
  input : string;
  typing : bool;
}.

Definition initialState : State :=
  {| data := None; backendOfferId := None; priorities := None;
     workflowEval := None; offerVsMarket := None;
     chat := []; input := ""; typing := false |}.

(** The submission snapshot, read inside a [try] whose [catch] does
    nothing: the priorities and the offer id, each left [null] unless the
    snapshot has it. *)
Definition loadSubmission (JSON : Parse) (ss : gmap string string)
    : option Submission.Priorities * option number :=
  match getTruthy ss "offergo-submission" with
  | Some rawSubmission =>
      match JSON_parse (parse_submission JSON) rawSubmission with
      | Ok parsed =>
          (Submission.ss_priorities parsed,
           option_map Num (Submission.backendOfferId parsed))
      | Throw _ => (None, None)
      end
  | None => (None, None)
  end.

(** The workflow evaluation, read inside a [try] whose [catch] does
    nothing. *)
Definition loadWorkflowEval (JSON : Parse) (ss : gmap string string)
    : option WorkflowEvaluation :=
  match getTruthy ss "offergo-workflow-eval" with
  | Some rawWorkflowEval =>
      match JSON_parse (parse_eval JSON) rawWorkflowEval with
      | Ok rawEval => Some rawEval
      | Throw _ => None
      end
  | None => None
  end.

(** The effect: a [Throw] is an exception that escapes the effect. *)
Definition mountEffect (JSON : Parse) (Math_random : nat -> Q)
    (ss : gmap string string) : result State :=
  let* d := generateDemoData JSON Math_random ss in
  let '(prio, offerId) := loadSubmission JSON ss in
  let rawEval := loadWorkflowEval JSON ss in
  let* comparison := deriveOfferVsMarket JSON ss rawEval in
  Ok {| data := Some d;
        backendOfferId := offerId;
        priorities := prio;
        workflowEval := rawEval;
        offerVsMarket := comparison;
        chat := []; input := ""; typing := false |}.


(** *** The chat *)

(** The UTF-8 encodings of the characters [trim] removes: the white space
    and line terminator characters of the language. *)
Definition ofBytes (l : list N) : string :=
  string_of_list_ascii (List.map ascii_of_N l).

Definition whiteSpace : list string :=
  List.map ofBytes
    [ [9]; [10]; [11]; [12]; [13]; [32];
      [194; 160]; [225; 154; 128];
      [226; 128; 128]; [226; 128; 129]; [226; 128; 130]; [226; 128; 131];
      [226; 128; 132]; [226; 128; 133]; [226; 128; 134]; [226; 128; 135];
      [226; 128; 136]; [226; 128; 137]; [226; 128; 138];
      [226; 128; 168]; [226; 128; 169]; [226; 128; 175];
      [226; 129; 159]; [227; 128; 128]; [239; 187; 191] ]%N.

Fixpoint dropPrefix (p s : string) : option string :=
  match p, s with
  | EmptyString, _ => Some s
  | String a p', String b s' =>
      if Ascii.eqb a b then dropPrefix p' s' else None
  | String _ _, EmptyString => None
  end.

(** [s] without its first character when that is white space. *)
Definition dropWhite (s : string) : option string :=
  firstMatch (List.map (fun w => dropPrefix w s) whiteSpace).

Fixpoint trimStartN (fuel : nat) (s : string) : string :=
  match fuel with
  | O => s
  | S n =>
      match dropWhite s with
      | Some s' => trimStartN n s'
      | None => s
      end
  end.

Definition trimStart (s : string) : string := trimStartN (String.length s) s.

Definition allWhite (s : string) : bool := String.eqb (trimStart s) "".

Fixpoint trimEnd (s : string) : string :=
  if allWhite s then EmptyString
  else
    match s with
    | EmptyString => EmptyString
    | String c s' => String c (trimEnd s')
    end.

Definition trim (s : string) : string := trimEnd (trimStart s).

(** A text that is empty or made of white space only. *)
Inductive whitespaceOnly : string -> Prop :=
| blank_empty : whitespaceOnly EmptyString
| blank_more (w s : string) :
    In w whiteSpace -> whitespaceOnly s -> whitespaceOnly (w +:+ s).

Record OfferChatResponse := { answer : string }.

(** What [sendMessage] does, in order: state updates, the request, the
    notification. *)
Inductive Action :=
| AppendChat (m : ChatMessage)
| SetInput (s : string)
| SetTyping (b : bool)
| Fetch (offerId : number) (message : string)
| ShowToast (t : Submission.Toast).

Definition apply (st : State) (a : Action) : State :=
  match a with
  | AppendChat m =>
      {| data := data st; backendOfferId := backendOfferId st;
         priorities := priorities st; workflowEval := workflowEval st;
         offerVsMarket := offerVsMarket st;
         chat := chat st ++ [m]; input := input st; typing := typing st |}
  | SetInput s =>
      {| data := data st; backendOfferId := backendOfferId st;
         priorities := priorities st; workflowEval := workflowEval st;
         offerVsMarket := offerVsMarket st;
         chat := chat st; input := s; typing := typing st |}
  | SetTyping b =>
      {| data := data st; backendOfferId := backendOfferId st;
         priorities := priorities st; workflowEval := workflowEval st;
         offerVsMarket := offerVsMarket st;
         chat := chat st; input := input st; typing := b |}
  | Fetch _ _ => st
  | ShowToast _ => st
  end.

Definition run (st : State) (trace : list Action) : State :=
  List.fold_left apply trace st.

Definition isFetch (a : Action) : bool :=
  match a with
  | Fetch _ _ => true
  | _ => false
  end.

Section Chat.
(** The chat endpoint (what its request settles to), and the message text
    the engine gives the exceptions it raises itself. [sendMessage] lists
    the actions of one call whose request settles. *)
Variable chatEndpoint :
  number -> string -> result (Submission.Response OfferChatResponse).
Variable engineMessage : exn -> string.

Definition messageOf (e : exn) : string :=
  match e with
  | Error m => m
  | _ => engineMessage e
  end.

Definition offerIdOf (st : State) : option number :=
  match backendOfferId st with
  | Some n => if truthy n then Some n else None
  | None => None
  end.

(** The [try] block: the actions it performs, and its outcome. *)
Definition askBackend (st : State) (text : string)
    : list Action * result unit :=
  match offerIdOf st with
  | None =>
      ([], Throw (Error "Missing offer context for chat. Re-run analysis from Submit page."))
  | Some offerId =>
      match chatEndpoint offerId text with
      | Throw e => ([Fetch offerId text], Throw e)
      | Ok resp =>
          if negb (Submission.ok resp) then
            ([Fetch offerId text], Throw (Error (Submission.text resp)))
          else
            match Submission.json resp with
            | Throw e => ([Fetch offerId text], Throw e)
            | Ok payload =>
                ([Fetch offerId text;
                  AppendChat {| role := "ai"; content := answer payload |}],
                 Ok tt)
            end
      end
  end.

Definition sendMessage (st : State) : list Action :=
  let text := trim (input st) in
  if String.eqb text "" then []
  else
    let '(tried, outcome) := askBackend st text in
    [AppendChat {| role := "user"; content := text |};
     SetInput "";
     SetTyping true]
    ++ tried
    ++ match outcome with
       | Ok _ => []
       | Throw error =>
           let msg := messageOf error in
           [AppendChat {| role := "ai";
                          content := "I couldn't reach Nemotron chat right now. " +:+ msg |};
            ShowToast {| Submission.title := "Nemotron chat unavailable";
                         Submission.description := Submission.Plain msg |}]
       end
    ++ [SetTyping false].

End Chat.

End Results.

(** *** Events on the offer list

    The three handlers are closures of the component. [removeOffer] and
    [selectCurrent] are only ever called from the remove button and the
    check box rendered for an offer of the list, with that offer's id;
    [handleFileUpload] tags the new offer with a fresh random UUID. *)

Module OfferList.
Import Submission.

Definition ids (l : list UploadedOffer) : list string := List.map id l.

Inductive reachable : list UploadedOffer -> Prop :=
| reach_init : reachable []
| reach_upload l chosen uuid :
    reachable l -> ~ In uuid (ids l) ->
    reachable (handleFileUpload chosen uuid l)
| reach_remove l o :
    reachable l -> In o l -> reachable (removeOffer (id o) l)
| reach_select l o :
    reachable l -> In o l -> reachable (selectCurrent (id o) l).

(** The number of entries marked current. *)
Definition currentCount (l : list UploadedOffer) : nat :=
  length (List.filter isCurrent l).

(** The invariant carried along a run: ids are pairwise distinct, and a
    non-empty list has exactly one current entry. *)
Definition offersInv (l : list UploadedOffer) : Prop :=
  List.NoDup (ids l) /\ (l <> [] -> currentCount l = 1).

End OfferList.

(** ** The specification's formulas

    These definitions follow the wording of the specification and are
    compared with the code below. *)

Module Spec.

Inductive Recommendation := accept | renegotiate | needs_more_info.

Definition recName (r : Recommendation) : string :=
  match r with
  | accept => "accept"
  | renegotiate => "renegotiate"
  | needs_more_info => "needs_more_info"
  end.

Definition round (q : Q) : Z := JS.round_half_up q.

Definition clampTo (lo hi z : Z) : Z := Z.max lo (Z.min hi z).

(** Overall score = round(raw score x 10), clamped to [0,100]. *)
Definition overall (raw : Q) : Z := clampTo 0 100 (round (raw * 10)).

(** Confidence = round(raw confidence x 100), clamped to [0,100]. *)
Definition confidencePct (raw : Q) : Z := clampTo 0 100 (round (raw * 100)).

(** The same two formulas with the product taken in binary64: the exact
    product rounded to the nearest double before it is rounded to an
    integer. *)
Definition overallOfDouble (raw : Q) : Z :=
  clampTo 0 100 (round (Binary64.nearest (raw * 10))).

Definition confidenceOfDouble (raw : Q) : Z :=
  clampTo 0 100 (round (Binary64.nearest (raw * 100))).

Definition penalty (r : Recommendation) : Z :=
  match r with
  | needs_more_info => 18
  | renegotiate => 8
  | accept => 0
  end.

(** Risk = round(76 - 7 x risks - penalty + 0.1 x confidence) in [12,95]. *)
Definition risk (riskCount : nat) (r : Recommendation) (conf : Z) : Z :=
  clampTo 12 95
    (round (inject_Z (76 - 7 * Z.of_nat riskCount - penalty r)
            + (1 # 10) * inject_Z conf)).

(** Category = overall + offset + (rating - 3) x 6, clamped to [lo,hi]. *)
Definition category (offset lo hi overallScore rating : Z) : Z :=
  clampTo lo hi (overallScore + offset + (rating - 3) * 6).




(** The order of the letter grades, worst first. *)
Definition gradeRank (g : string) : nat :=
  if String.eqb g "A" then 5
  else if String.eqb g "A-" then 4
  else if String.eqb g "B+" then 3
  else if String.eqb g "B" then 2
  else if String.eqb g "C" then 1
  else 0.

End Spec.

(** ** Checking the risk sum on a range of integers *)

Module RiskSum.

(** [f] holds of the [n] integers from [lo] on. *)
Fixpoint upTo (n : nat) (lo : Z) (f : Z -> bool) : bool :=
  match n with
  | O => true
  | S n' => f lo && upTo n' (lo + 1)%Z f
  end.

(** [k + confidence * 0.1] as the code adds it, for an integer [k]. *)
Definition sum (k conf : Z) : Q :=
  Binary64.nearest
    (inject_Z k + Binary64.nearest (inject_Z conf * Binary64.nearest (1 # 10))).

(** The binary64 sum and the exact sum give the same risk score. *)
Definition agrees (k conf : Z) : bool :=
  Z.eqb (Spec.clampTo 12 95 (Spec.round (sum k conf)))
        (Spec.clampTo 12 95 (Spec.round (inject_Z k + (1 # 10) * inject_Z conf))).

(** [confidence * 0.1] stays below 11. *)
Definition small (conf : Z) : bool :=
  Qle_bool (Binary64.nearest (inject_Z conf * Binary64.nearest (1 # 10))) 11.

End RiskSum.

(** ** Concrete inputs *)

Module Examples.
Import JS Submission.

(** The evaluation of the specification's worked example. *)
Definition strongBase : KeyDriver := {| label := "Strong base"; impact := "positive" |}.

Definition evalAccept : WorkflowEvaluation :=
  {| score := Some (87 # 10);
     recommendation := Some "accept";
     confidence := Some (82 # 100);
     key_drivers := Some [strongBase];
     negotiation_targets := Some [];
     risks := Some [];
     followup_questions := Some [];
     one_paragraph_summary := Some "Solid offer." |}.

Definition prioritiesFinancial : Priorities :=
  {| financial := 5; career := 3; lifestyle := 3; alignment := 3 |}.

(** The same result with the [score] field missing. *)
Definition evalNoScore : WorkflowEvaluation :=
  {| score := None;
     recommendation := Some "accept";
     confidence := Some (82 # 100);
     key_drivers := Some [strongBase];
     negotiation_targets := Some [];
     risks := Some [];
     followup_questions := Some [];
     one_paragraph_summary := Some "Solid offer." |}.

(** The same result with the [risks] field missing. *)
Definition evalNoRisks : WorkflowEvaluation :=
  {| score := Some (87 # 10);
     recommendation := Some "accept";
     confidence := Some (82 # 100);
     key_drivers := Some [strongBase];
     negotiation_targets := Some [];
     risks := None;
     followup_questions := Some [];
     one_paragraph_summary := Some "Solid offer." |}.

Definition offerPdf : UploadedOffer :=
  {| id := "a"; file := {| name := "Offer.PDF" |}; isCurrent := true |}.

Definition otherPdf : UploadedOffer :=
  {| id := "b"; file := {| name := "other.pdf" |}; isCurrent := false |}.

Definition okResponse {A : Type} (body : A) : Response A :=
  {| ok := true; text := ""; json := Ok body |}.

(** A backend that ingests every file as offer 7, answers every
    evaluation with [ev] and has no market snapshot. *)
Definition backendReturning (ev : WorkflowEvaluation) : Backend :=
  {| ingest_pdf := fun _ _ =>
       Ok (okResponse {| offer_id := Some 7%Q;
                         parsed := Some {| base_salary := Some 120000%Q;
                                           bonus_target := Some 10%Q;
                                           equity_amount := None |} |});
     evaluate := fun _ => Ok (okResponse ev);
     market_snapshot := fun _ => Throw TypeError |}.

Definition marketFigures : MarketSnapshotResponse :=
  {| provider := "demo";
     databricks_table := None;
     sample_size := 40;
     market_base_median := 110000;
     market_bonus_avg := 9000;
     market_signing_avg := 5000;
     market_total_est := 124000;
     offer_total_est := 132000;
     offer_vs_market_ratio := 132 # 124 |}.

(** The same backend with a market snapshot. *)
Definition backendWithMarket (ev : WorkflowEvaluation) : Backend :=
  {| ingest_pdf := ingest_pdf (backendReturning ev);
     evaluate := evaluate (backendReturning ev);
     market_snapshot := fun _ => Ok (okResponse marketFigures) |}.

(** A serialiser that only records which kind of object was written. *)
Definition tagOnly : Stringify :=
  {| stringify_submission := fun _ => "{submission}";
     stringify_analysis := fun _ => "{analysis}";
     stringify_eval := fun _ => "{evaluation}";
     stringify_parsed := fun _ => "{parsed}";
     stringify_market := fun _ => "{market}" |}.

(** The reader that goes with [tagOnly]: it accepts the four texts
    [tagOnly] writes and rejects every other text. *)
Definition ingestedFields : IngestParsed :=
  {| base_salary := Some 120000%Q; bonus_target := Some 10%Q;
     equity_amount := None |}.

Definition snapshot : SubmissionSnapshot :=
  {| ss_offers := Some [ {| so_id := "a"; fileName := "Offer.PDF";
                            so_isCurrent := true |} ];
     ss_priorities := Some prioritiesFinancial;
     backendOfferId := Some 7%Q |}.

Definition tagParse : Results.Parse :=
  {| Results.parse_analysis := fun raw =>
       if String.eqb raw "{analysis}" then Some (Results.demoBase []) else None;
     Results.parse_submission := fun raw =>
       if String.eqb raw "{submission}" then Some snapshot else None;
     Results.parse_eval := fun raw =>
       if String.eqb raw "{evaluation}" then Some evalAccept else None;
     Results.parse_parsed := fun raw =>
       if String.eqb raw "{parsed}" then Some ingestedFields else None |}.

(** An evaluation whose summary names a market figure and no offer
    figure. *)
Definition evalMarketOnly : WorkflowEvaluation :=
  {| score := Some (61 # 10);
     recommendation := Some "renegotiate";
     confidence := Some (70 # 100);
     key_drivers := Some [];
     negotiation_targets := Some [];
     risks := Some [];
     followup_questions := Some [];
     one_paragraph_summary := Some "The market median is $100,000 for this role." |}.

Definition noRandom : nat -> Q := fun _ => 0%Q.

(** A chat endpoint that cannot be reached. *)
Definition unreachableChat
    : number -> string -> result (Response Results.OfferChatResponse) :=
  fun _ _ => Throw TypeError.

Definition failedToFetch : exn -> string := fun _ => "Failed to fetch".

(** The results page with [text] typed into the chat box and no offer id. *)
Definition typed (text : string) : Results.State :=
  {| Results.data := Some (Results.demoBase []);
     Results.backendOfferId := None;
     Results.priorities := None;
     Results.workflowEval := None;
     Results.offerVsMarket := None;
     Results.chat := [];
     Results.input := text;
     Results.typing := false |}.


(** The browser storage after the demo user has logged in and one
    analysis has completed. *)
Definition afterSubmission : DemoUsers.Storage :=
  let loggedIn :=
    DemoUsers.loginDemoUser (fun _ => "{profile}")
      {| DemoUsers.localStorage := ∅; DemoUsers.sessionStorage := ∅ |} in
  {| DemoUsers.localStorage := DemoUsers.localStorage loggedIn;
     DemoUsers.sessionStorage :=
       session (handleSubmit (backendWithMarket evalAccept) tagOnly [offerPdf]
                  prioritiesFinancial (DemoUsers.sessionStorage loggedIn)) |}.

End Examples.

(** ** The profile hook: updates *)

Module UseProfile.
Import Profile.

(** A [Partial<ProfileData>]: the fields the patch carries. *)
Record ProfilePatch := {
  p_name : option string;
  p_city : option string;
  p_country : option string;
  p_nationality : option string;
  p_monthlyExpenses : option string;
  p_ownedAsset : option string;
  p_debts : option string;
  p_resumeName : option (option string);
  p_completed : option bool;
}.

Definition noPatch : ProfilePatch :=
  {| p_name := None; p_city := None; p_country := None; p_nationality := None;
     p_monthlyExpenses := None; p_ownedAsset := None; p_debts := None;
     p_resumeName := None; p_completed := None |}.

Definition orKeep {A : Type} (prev : A) (patched : option A) : A :=
  match patched with
  | Some v => v
  | None => prev
  end.

(** [{ ...prev, ...patch }] *)
Definition spread (prev : ProfileData) (patch : ProfilePatch) : ProfileData :=
  {| name := orKeep (name prev) (p_name patch);
     city := orKeep (city prev) (p_city patch);
     country := orKeep (country prev) (p_country patch);
     nationality := orKeep (nationality prev) (p_nationality patch);
     monthlyExpenses := orKeep (monthlyExpenses prev) (p_monthlyExpenses patch);
     ownedAsset := orKeep (ownedAsset prev) (p_ownedAsset patch);
     debts := orKeep (debts prev) (p_debts patch);
     resumeName := orKeep (resumeName prev) (p_resumeName patch);
     completed := orKeep (completed prev) (p_completed patch) |}.

(** The patch that has the fields of [later] and, where [later] has none,
    those of [earlier]. *)
Definition orElse {A : Type} (later earlier : option A) : option A :=
  match later with
  | Some v => Some v
  | None => earlier
  end.

Definition overlay (earlier later : ProfilePatch) : ProfilePatch :=
  {| p_name := orElse (p_name later) (p_name earlier);
     p_city := orElse (p_city later) (p_city earlier);
     p_country := orElse (p_country later) (p_country earlier);
     p_nationality := orElse (p_nationality later) (p_nationality earlier);
     p_monthlyExpenses := orElse (p_monthlyExpenses later) (p_monthlyExpenses earlier);
     p_ownedAsset := orElse (p_ownedAsset later) (p_ownedAsset earlier);
     p_debts := orElse (p_debts later) (p_debts earlier);
     p_resumeName := orElse (p_resumeName later) (p_resumeName earlier);
     p_completed := orElse (p_completed later) (p_completed earlier) |}.

(** One instance of the hook: its [profile] state and the local storage. *)
Record Hook := {
  profile : ProfileData;
  localStorage : gmap string string;
}.

Section Hook.
Variable JSON_parse : string -> option ProfileData.
Variable JSON_stringify : ProfileData -> string.

(** The effect on [profile]: it runs after the first render and after every
    change of the state. *)
Definition persist (h : Hook) : Hook :=
  {| profile := profile h;
     localStorage := <[STORAGE_KEY := JSON_stringify (profile h)]> (localStorage h) |}.

(** [useState(loadProfile)] followed by the effect. *)
Definition mount (ls : gmap string string) : Hook :=
  persist {| profile := loadProfile JSON_parse ls; localStorage := ls |}.

(** [updateProfile]: the updater writes the storage itself, then the effect
    runs for the new state. *)
Definition updateProfile (patch : ProfilePatch) (h : Hook) : Hook :=
  let next := spread (profile h) patch in
  persist {| profile := next;
             localStorage := <[STORAGE_KEY := JSON_stringify next]> (localStorage h) |}.

Definition completeProfile (h : Hook) : Hook :=
  let prev := profile h in
  let next :=
    {| name := name prev; city := city prev; country := country prev;
       nationality := nationality prev; monthlyExpenses := monthlyExpenses prev;
       ownedAsset := ownedAsset prev; debts := debts prev;
       resumeName := resumeName prev; completed := true |} in
  persist {| profile := next;
             localStorage := <[STORAGE_KEY := JSON_stringify next]> (localStorage h) |}.

(** What the pages do with the hook after it has mounted. *)
Inductive Op :=
| Update (patch : ProfilePatch)
| Complete.

Definition step (h : Hook) (op : Op) : Hook :=
  match op with
  | Update patch => updateProfile patch h
  | Complete => completeProfile h
  end.

Definition after (ls : gmap string string) (ops : list Op) : Hook :=
  List.fold_left step ops (mount ls).

(** What every state of the hook satisfies once it has mounted on [ls]: the
    stored text is the serialised state, the other keys are those of [ls]. *)
Definition mirrors (ls : gmap string string) (h : Hook) : Prop :=
  localStorage h !! STORAGE_KEY = Some (JSON_stringify (profile h)) /\
  forall k : string, k <> STORAGE_KEY -> localStorage h !! k = ls !! k.

End Hook.

End UseProfile.

(** ** [DemoLoginModal] *)

Module DemoLogin.

(** What [handleSubmit] leaves: the storage, the fields of the form, the
    error line, whether the dialog was closed, the route navigated to before
    the reload. *)
Record Outcome := {
  storage : DemoUsers.Storage;
  email : string;
  password : string;
  error : string;
  closed : bool;
  navigate : option string;
}.

Definition handleSubmit (JSON_stringify : Profile.ProfileData -> string)
    (email password : string) (st : DemoUsers.Storage) : Outcome :=
  if String.eqb email "offergo@gmail.com" && String.eqb password "123456" then
    {| storage := DemoUsers.loginDemoUser JSON_stringify st;
       email := ""; password := ""; error := "";
       closed := true; navigate := Some "/" |}
  else
    {| storage := st;
       email := email; password := password;
       error := "Invalid email or password.";
       closed := false; navigate := None |}.

End DemoLogin.

(** ** [Results.tsx]: what the page shows *)

Module ResultsView.
Import JS.

Definition gradeColor (score : number) : string :=
  if (score >= lit 80)%js then "text-emerald-400"
  else if (score >= lit 60)%js then "text-sky-400"
  else "text-amber-400".

Definition barColor (score : number) : string :=
  if (score >= lit 80)%js then "bg-emerald-500"
  else if (score >= lit 60)%js then "bg-sky-500"
  else "bg-amber-500".

(** The width of a bar of the comparison panel:
    [max > 0 ? Math.max(8, Math.round((row.value / max) * 100)) : 0]
    with [max = Math.max(offerTotal, marketTotal)]. *)
Definition widthPct (p : Results.OfferVsMarket) (value : number) : number :=
  let max := Math_max (Results.offerTotal p) (Results.marketTotal p) in
  if (max > lit 0)%js then Math_max (lit 8) (Math_round (value / max * lit 100))
  else lit 0.

(** The widths of the two rows, "Your offer total" first. *)
Definition barWidths (p : Results.OfferVsMarket) : number * number :=
  (widthPct p (Results.offerTotal p), widthPct p (Results.marketTotal p)).

End ResultsView.

(** ** Ranges *)

Module Range.

(** An integer between [lo] and [hi]. *)
Definition within (lo hi : Z) (n : JS.number) : Prop :=
  exists z : Z, n = JS.lit z /\ (lo <= z <= hi)%Z.

(** A rational that is not negative. *)
Definition nonNegative (n : JS.number) : Prop :=
  exists q : Q, n = JS.Num q /\ (0 <= q)%Q.

(** The characters a captured amount is made of. *)
Definition isAmountChar (c : ascii) : bool :=
  JS.is_digit c || Ascii.eqb c "," || Ascii.eqb c ".".

Fixpoint allAmountChars (s : string) : bool :=
  match s with
  | EmptyString => true
  | String c s' => isAmountChar c && allAmountChars s'
  end.


Fixpoint hasDot (s : string) : bool :=
  match s with
  | EmptyString => false
  | String c s' => Ascii.eqb c "." || hasDot s'
  end.

End Range.

(** ** The ways a submission can end *)

Module SubmitCases.
Import JS Submission.

(** The five session keys a submission writes. *)
Definition sessionKeys : list string :=
  [ "offergo-submission"; "offergo-demo-analysis"; "offergo-workflow-eval";
    "offergo-ingest-parsed"; "offergo-market-snapshot" ].

(** The local checks that stop a submission, with the title of the
    notification each raises. *)
Inductive invalid (offers : list UploadedOffer) : string -> Prop :=
| no_offer :
    offers = [] -> invalid offers "Upload required"
| no_current :
    offers <> [] -> existsb isCurrent offers = false ->
    invalid offers "Selection required"
| not_a_pdf (cur : UploadedOffer) :
    List.find isCurrent offers = Some cur ->
    endsWith (lower (name (file cur))) ".pdf" = false ->
    invalid offers "PDF required".

(** The ways the two required calls can fail for the current offer, with
    the error each raises. *)
Inductive upstreamFailure (api : Backend) (pr : Priorities) (cur : UploadedOffer)
    : exn -> Prop :=
| ingest_rejected (e : exn) :
    ingest_pdf api (file cur) pr = Throw e ->
    upstreamFailure api pr cur e
| ingest_not_ok (resp : Response IngestResponse) :
    ingest_pdf api (file cur) pr = Ok resp -> ok resp = false ->
    upstreamFailure api pr cur (Error (text resp))
| ingest_unreadable (resp : Response IngestResponse) (e : exn) :
    ingest_pdf api (file cur) pr = Ok resp -> ok resp = true ->
    json resp = Throw e ->
    upstreamFailure api pr cur e
| ingest_without_id (resp : Response IngestResponse) (ij : IngestResponse) :
    ingest_pdf api (file cur) pr = Ok resp -> ok resp = true ->
    json resp = Ok ij -> truthyId (offer_id ij) = None ->
    upstreamFailure api pr cur
      (Error "Ingest succeeded but no offer_id was returned.")
| evaluate_rejected (resp : Response IngestResponse) (ij : IngestResponse)
    (offerId : Q) (e : exn) :
    ingest_pdf api (file cur) pr = Ok resp -> ok resp = true ->
    json resp = Ok ij -> truthyId (offer_id ij) = Some offerId ->
    evaluate api offerId = Throw e ->
    upstreamFailure api pr cur e
| evaluate_not_ok (resp : Response IngestResponse) (ij : IngestResponse)
    (offerId : Q) (evalResp : Response WorkflowEvaluation) :
    ingest_pdf api (file cur) pr = Ok resp -> ok resp = true ->
    json resp = Ok ij -> truthyId (offer_id ij) = Some offerId ->
    evaluate api offerId = Ok evalResp -> ok evalResp = false ->
    upstreamFailure api pr cur (Error (text evalResp))
| evaluate_unreadable (resp : Response IngestResponse) (ij : IngestResponse)
    (offerId : Q) (evalResp : Response WorkflowEvaluation) (e : exn) :
    ingest_pdf api (file cur) pr = Ok resp -> ok resp = true ->
    json resp = Ok ij -> truthyId (offer_id ij) = Some offerId ->
    evaluate api offerId = Ok evalResp -> ok evalResp = true ->
    json evalResp = Throw e ->
    upstreamFailure api pr cur e.

(** The snapshot [handleSubmit] serialises. *)
Definition snapshotOf (offers : list UploadedOffer) (pr : Priorities) (offerId : Q)
    : SubmissionSnapshot :=
  {| ss_offers :=
       Some (List.map
               (fun o => {| so_id := id o; fileName := name (file o);
                            so_isCurrent := isCurrent o |})
               offers);
     ss_priorities := Some pr;
     backendOfferId := Some offerId |}.

End SubmitCases.

(** ** More concrete inputs *)

Module Samples.

(** An evaluation whose summary names both an offer and a market figure. *)
Definition evalBothFigures : Submission.WorkflowEvaluation :=
  {| Submission.score := Some (74 # 10);
     Submission.recommendation := Some "renegotiate";
     Submission.confidence := Some (80 # 100);
     Submission.key_drivers := Some [];
     Submission.negotiation_targets := Some [];
     Submission.risks := Some [];
     Submission.followup_questions := Some [];
     Submission.one_paragraph_summary :=
       Some "You were offered $150,000 while the market median is $140,000." |}.

(** An evaluation that lacks its summary. *)
Definition evalNoSummary : Submission.WorkflowEvaluation :=
  {| Submission.score := Some (74 # 10);
     Submission.recommendation := Some "renegotiate";
     Submission.confidence := Some (80 # 100);
     Submission.key_drivers := Some [];
     Submission.negotiation_targets := Some [];
     Submission.risks := Some [];
     Submission.followup_questions := Some [];
     Submission.one_paragraph_summary := None |}.

(** A profile codec that keeps the name only. *)
Definition nameOnly (p : Profile.ProfileData) : string := Profile.name p.

Definition named (nm : string) : Profile.ProfileData :=
  {| Profile.name := nm; Profile.city := ""; Profile.country := "";
     Profile.nationality := ""; Profile.monthlyExpenses := "";
     Profile.ownedAsset := ""; Profile.debts := "";
     Profile.resumeName := None; Profile.completed := false |}.

Definition readName (raw : string) : option Profile.ProfileData := Some (named raw).

Definition renameTo (nm : string) : UseProfile.ProfilePatch :=
  {| UseProfile.p_name := Some nm; UseProfile.p_city := None;
     UseProfile.p_country := None; UseProfile.p_nationality := None;
     UseProfile.p_monthlyExpenses := None; UseProfile.p_ownedAsset := None;
     UseProfile.p_debts := None; UseProfile.p_resumeName := None;
     UseProfile.p_completed := None |}.

(** A profile codec for the demo profile alone. *)
Definition demoText : Profile.ProfileData -> string := fun _ => "{profile}".

Definition readDemo (raw : string) : option Profile.ProfileData :=
  if String.eqb raw "{profile}" then Some DemoUsers.profileData else None.

(** The report of the run of [Examples.backendReturning Examples.evalAccept]
    on [Examples.offerPdf]. *)
Definition reportOfRun : Submission.ResultsAnalysisData :=
  match Submission.mapEvalToAnalysis Examples.prioritiesFinancial Examples.evalAccept
          "Offer.PDF" with
  | JS.Ok r => r
  | JS.Throw _ => Results.demoBase []
  end.

(** The reader that gives back what that run wrote with [Examples.tagOnly]. *)
Definition readRun : Results.Parse :=
  {| Results.parse_analysis := fun raw =>
       if String.eqb raw "{analysis}" then Some reportOfRun else None;
     Results.parse_submission := Results.parse_submission Examples.tagParse;
     Results.parse_eval := Results.parse_eval Examples.tagParse;
     Results.parse_parsed := Results.parse_parsed Examples.tagParse |}.

(** A chat backend that answers every question, and one that refuses
    every request with an error body. *)
Definition answering
    : JS.number -> string -> JS.result (Submission.Response Results.OfferChatResponse) :=
  fun _ _ => JS.Ok (Examples.okResponse {| Results.answer := "Yes, after one year." |}).

Definition refusing
    : JS.number -> string -> JS.result (Submission.Response Results.OfferChatResponse) :=
  fun _ _ =>
    JS.Ok {| Submission.ok := false;
             Submission.text := "offer not found";
             Submission.json := JS.Throw JS.SyntaxError |}.

(** The results page of offer 7 with [text] typed into the chat box. *)
Definition asking (text : string) : Results.State :=
  {| Results.data := Some (Results.demoBase []);
     Results.backendOfferId := Some (JS.lit 7);
     Results.priorities := None;
     Results.workflowEval := None;
     Results.offerVsMarket := None;
     Results.chat := [];
     Results.input := text;
     Results.typing := false |}.

(** A stored submission of two offers, its reader, and a random source
    that always returns one half. *)
Definition twoOffers : Submission.SubmissionSnapshot :=
  SubmitCases.snapshotOf [Examples.offerPdf; Examples.otherPdf]
    Examples.prioritiesFinancial 7%Q.

Definition readTwo : Results.Parse :=
  {| Results.parse_analysis := fun _ => None;
     Results.parse_submission := fun raw =>
       if String.eqb raw "{submission}" then Some twoOffers else None;
     Results.parse_eval := fun _ => None;
     Results.parse_parsed := fun _ => None |}.

Definition oneHalf : nat -> Q := fun _ => (1 # 2)%Q.

(** The doubles [JSON.parse] reads from the texts 8.45 and 0.145, and an
    evaluation that carries them. *)
Definition score845 : Q := Binary64.nearest (845 # 100).

Definition confidence145 : Q := Binary64.nearest (145 # 1000).

Definition evalHalfway : Submission.WorkflowEvaluation :=
  {| Submission.score := Some score845;
     Submission.recommendation := Some "accept";
     Submission.confidence := Some confidence145;
     Submission.key_drivers := Some [Examples.strongBase];
     Submission.negotiation_targets := Some [];
     Submission.risks := Some [];
     Submission.followup_questions := Some [];
     Submission.one_paragraph_summary := Some "Solid offer." |}.



Definition emptyStorage : DemoUsers.Storage :=
  {| DemoUsers.localStorage := ∅; DemoUsers.sessionStorage := ∅ |}.

End Samples.

(** ** Properties of the normalizer *)

(** ** Binary64 rounding *)

Section Binary64Facts.
Import JS.
Local Open Scope Q_scope.

Lemma nearest_compat (x y : Q) :
  x == y -> Binary64.nearest x = Binary64.nearest y.
Proof.
  intros H. unfold Binary64.nearest. now rewrite (Qred_complete x y H).
Qed.

Lemma nearestEven_negative (t : Q) :
  t < 0 -> (Binary64.nearestEven t <= 0)%Z.
Proof.
  intros Ht. unfold Binary64.nearestEven.
  assert (Hf : (Qfloor t < 0)%Z).
  { rewrite Zlt_Qlt. eapply Qle_lt_trans; [apply Qfloor_le | exact Ht]. }
  destruct (t - inject_Z (Qfloor t) ?= 1 # 2); [destruct (Z.even (Qfloor t)) | |]; lia.
Qed.

(** The double nearest to a negative number is not positive. *)
Lemma nearest_negative (q : Q) : q < 0 -> Binary64.nearest q <= 0.
Proof.
  intros Hq. unfold Binary64.nearest.
  assert (Hr : Qred q < 0) by now rewrite Qred_correct.
  destruct (Qeq_bool (Qred q) 0) eqn:Hz; [apply Qle_refl |].
  rewrite Qred_correct.
  assert (Hp : 0 < Binary64.pow2 (Binary64.ulpExponent (Qred q)))
    by now apply Qpower_0_lt.
  set (p := Binary64.pow2 (Binary64.ulpExponent (Qred q))) in *.
  assert (Ht : Qred q / p < 0).
  { apply Qlt_shift_div_r; [exact Hp |]. now rewrite Qmult_0_l. }
  apply nearestEven_negative in Ht.
  rewrite <- (Qmult_0_l p).
  apply Qmult_le_compat_r; [| now apply Qlt_le_weak].
  change 0 with (inject_Z 0). now rewrite <- Zle_Qle.
Qed.

Lemma upTo_spec (n : nat) (lo : Z) (f : Z -> bool) :
  RiskSum.upTo n lo f = true ->
  forall z : Z, (lo <= z < lo + Z.of_nat n)%Z -> f z = true.
Proof.
  revert lo. induction n as [| n IH]; intros lo H z Hz; [lia |].
  cbn [RiskSum.upTo] in H. apply andb_prop in H as [H0 H1].
  destruct (Z.eq_dec z lo) as [-> | Hne]; [exact H0 |].
  apply (IH (lo + 1)%Z H1). lia.
Qed.

Lemma tenth_small (c : Z) :
  (0 <= c <= 100)%Z ->
  Binary64.nearest (inject_Z c * Binary64.nearest (1 # 10)) <= 11.
Proof.
  intros Hc. apply Qle_bool_iff.
  apply (upTo_spec 101 0 RiskSum.small); [vm_compute; reflexivity | lia].
Qed.

Lemma round_half_up_nonpositive (q : Q) : q <= 0 -> (round_half_up q <= 0)%Z.
Proof.
  intros Hq. unfold round_half_up.
  change 0%Z with (Qfloor (0 + (1 # 2))). apply Qfloor_resp_le.
  apply Qplus_le_compat; [exact Hq | apply Qle_refl].
Qed.

(** For an integer [k] up to 76 and a confidence between 0 and 100, the
    binary64 sum [k + confidence * 0.1] gives the risk score of the exact
    sum: below -11 both are clamped to 12, and from -11 to 76 the 88 x 101
    sums are computed. *)
Lemma risk_sum (k c : Z) :
  (k <= 76)%Z -> (0 <= c <= 100)%Z ->
  Spec.clampTo 12 95 (round_half_up (RiskSum.sum k c))
  = Spec.clampTo 12 95 (round_half_up (inject_Z k + (1 # 10) * inject_Z c)).
Proof.
  intros Hk Hc. destruct (Z_lt_le_dec k (-11)) as [Hlow | Hhigh].
  - assert (H1 : (round_half_up (RiskSum.sum k c) <= 0)%Z).
    { apply round_half_up_nonpositive, nearest_negative.
      apply Qle_lt_trans with (inject_Z (-12) + 11).
      - apply Qplus_le_compat; [| now apply tenth_small].
        rewrite <- Zle_Qle. lia.
      - reflexivity. }
    assert (H2 : (round_half_up (inject_Z k + (1 # 10) * inject_Z c) <= 0)%Z).
    { apply round_half_up_nonpositive.
      apply Qle_trans with (inject_Z (-12) + (1 # 10) * inject_Z 100).
      - apply Qplus_le_compat; [rewrite <- Zle_Qle; lia |].
        apply Qmult_le_l; [reflexivity |]. rewrite <- Zle_Qle. lia.
      - discriminate. }
    unfold Spec.clampTo. lia.
  - apply Z.eqb_eq.
    assert (Hrow : RiskSum.upTo 101 0 (RiskSum.agrees k) = true).
    { apply (upTo_spec 88 (-11)
               (fun k' => RiskSum.upTo 101 0 (RiskSum.agrees k')));
        [vm_compute; reflexivity | lia]. }
    apply (upTo_spec 101 0 (RiskSum.agrees k) Hrow). lia.
Qed.

End Binary64Facts.

(** ** The formulas of the normalizer *)

Section NumberFacts.
Import JS.

Lemma ge_lit (a b : Z) : (lit a >= lit b)%js = (b <=? a)%Z.
Proof.
  unfold ge, lit, Qle_bool; simpl. now rewrite !Z.mul_1_r.
Qed.

Lemma round_half_up_inject (z : Z) : round_half_up (inject_Z z) = z.
Proof.
  unfold round_half_up, Qfloor, Qplus, inject_Z; simpl.
  rewrite Z.mul_1_r.
  replace (z * 2 + 1)%Z with (1 + z * 2)%Z by lia.
  rewrite Z.div_add by lia. reflexivity.
Qed.

End NumberFacts.

(** Push [inject_Z] to the leaves of an integer expression. *)
Ltac push_inject :=
  unfold Qminus, Z.sub;
  repeat (rewrite inject_Z_plus || rewrite inject_Z_mult || rewrite inject_Z_opp).

Section NormalizerFacts.
Import JS Submission.

Lemma round_half_up_compat (x y : Q) :
  x == y -> round_half_up x = round_half_up y.
Proof.
  intros H. unfold round_half_up. now rewrite H.
Qed.

Lemma Math_round_int (x : Q) (z : Z) :
  x == inject_Z z -> Math_round (Num x) = lit z.
Proof.
  intros H. simpl. f_equal.
  rewrite (round_half_up_compat _ _ H). apply round_half_up_inject.
Qed.

Lemma Qle_bool_inject (a b : Z) :
  Qle_bool (inject_Z a) (inject_Z b) = (a <=? b)%Z.
Proof.
  unfold Qle_bool; simpl. now rewrite !Z.mul_1_r.
Qed.

Lemma clamp_lit (z lo hi : Z) :
  clamp (lit z) (lit lo) (lit hi) = lit (Spec.clampTo lo hi z).
Proof.
  unfold clamp, Math_max, Math_min, lit, Spec.clampTo.
  rewrite Qle_bool_inject.
  destruct (Z.leb_spec hi z) as [H1 | H1];
    rewrite Qle_bool_inject;
    [ rewrite (Z.min_l hi z) by lia | rewrite (Z.min_r hi z) by lia ].
  - destruct (Z.leb_spec lo hi); f_equal; f_equal; lia.
  - destruct (Z.leb_spec lo z); f_equal; f_equal; lia.
Qed.

Lemma category_lit (o offset p lo hi : Z) :
  clamp (Math_round (lit o - lit (- offset) + (lit p - lit 3) * lit 6))
        (lit lo) (lit hi)
  = lit (Spec.category offset lo hi o p).
Proof.
  unfold Spec.category. rewrite <- clamp_lit. f_equal.
  apply Math_round_int. push_inject. ring.
Qed.

Lemma financial_lit (o p lo hi : Z) :
  clamp (Math_round (lit o + (lit p - lit 3) * lit 6)) (lit lo) (lit hi)
  = lit (Spec.category 0 lo hi o p).
Proof.
  unfold Spec.category. rewrite <- clamp_lit. f_equal.
  apply Math_round_int. push_inject. ring.
Qed.

Lemma riskPenaltyOf_spec (r : Spec.Recommendation) :
  riskPenaltyOf (Some (Spec.recName r)) = lit (Spec.penalty r).
Proof. destruct r; reflexivity. Qed.

Lemma clampTo_bounds (lo hi z : Z) :
  (lo <= hi)%Z -> (lo <= Spec.clampTo lo hi z <= hi)%Z.
Proof. unfold Spec.clampTo. lia. Qed.

Lemma risk_lit (n : nat) (r : Spec.Recommendation) (c : Z) :
  (0 <= c <= 100)%Z ->
  clamp (Math_round (fadd (lit 76 - lit (Z.of_nat n) * lit 7 - lit (Spec.penalty r))
                          (fmul (lit c) (double (1 # 10)))))
        (lit 12) (lit 95)
  = lit (Spec.risk n r c).
Proof.
  intros Hc. unfold Spec.risk, Spec.round.
  rewrite <- (risk_sum (76 - 7 * Z.of_nat n - Spec.penalty r) c)
    by (destruct r; cbn [Spec.penalty]; lia).
  rewrite <- clamp_lit. f_equal. unfold RiskSum.sum.
  cbn [fadd fmul double lit lift2 sub mul Math_round].
  do 2 apply f_equal. apply nearest_compat.
  apply Qplus_comp; [| reflexivity]. push_inject. ring.
Qed.

Lemma overall_lit (raw : Q) :
  clamp (Math_round (fmul (Num raw) (lit 10))) (lit 0) (lit 100)
  = lit (Spec.overallOfDouble raw).
Proof. unfold Spec.overallOfDouble. now rewrite <- clamp_lit. Qed.

Lemma confidence_lit (raw : Q) :
  clamp (Math_round (fmul (Num raw) (lit 100))) (lit 0) (lit 100)
  = lit (Spec.confidenceOfDouble raw).
Proof. unfold Spec.confidenceOfDouble. now rewrite <- clamp_lit. Qed.

End NormalizerFacts.

(** C1, as amended. On an evaluation result that carries its fields,
    [mapEvalToAnalysis] returns a report whose overall score is
    round(score x 10) clamped to [0,100] and whose confidence is
    round(confidence x 100) clamped to [0,100], each product being the
    binary64 product (the exact product rounded to the nearest double
    before it is rounded to an integer); whose risk score is
    round(76 - 7 x |risks| - penalty + 0.1 x confidence) clamped to [12,95]
    with penalty 18, 8, 0 for needs_more_info, renegotiate, accept, in exact
    arithmetic on that integer confidence; and whose financial, career,
    lifestyle and alignment scores are overall + offset (0, -4, -8, -6) +
    (rating - 3) x 6 clamped to [8,98], [8,98], [8,95], [8,96]. *)
Theorem mapEvalToAnalysis_formulas
    (pr : Submission.Priorities) (ev : Submission.WorkflowEvaluation)
    (fileName : string) (s c : Q) (rec : Spec.Recommendation)
    (rs : list string) (ds : list Submission.KeyDriver)
    (ts : list Submission.NegotiationTarget) :
  Submission.score ev = Some s ->
  Submission.confidence ev = Some c ->
  Submission.recommendation ev = Some (Spec.recName rec) ->
  Submission.risks ev = Some rs ->
  Submission.key_drivers ev = Some ds ->
  Submission.negotiation_targets ev = Some ts ->
  exists r : Submission.ResultsAnalysisData,
    Submission.mapEvalToAnalysis pr ev fileName = JS.Ok r /\
    Submission.overallScore r = JS.lit (Spec.overallOfDouble s) /\
    Submission.ra_confidence r = JS.lit (Spec.confidenceOfDouble c) /\
    Submission.cs_risk (Submission.categoryScores r)
      = JS.lit (Spec.risk (length rs) rec (Spec.confidenceOfDouble c)) /\
    Submission.cs_financial (Submission.categoryScores r)
      = JS.lit (Spec.category 0 8 98 (Spec.overallOfDouble s) (Submission.financial pr)) /\
    Submission.cs_career (Submission.categoryScores r)
      = JS.lit (Spec.category (-4) 8 98 (Spec.overallOfDouble s) (Submission.career pr)) /\
    Submission.cs_lifestyle (Submission.categoryScores r)
      = JS.lit (Spec.category (-8) 8 95 (Spec.overallOfDouble s) (Submission.lifestyle pr)) /\
    Submission.cs_alignment (Submission.categoryScores r)
      = JS.lit (Spec.category (-6) 8 96 (Spec.overallOfDouble s) (Submission.alignment pr)).
Proof.
  intros Hs Hc Hrec Hrs Hds Hts.
  unfold Submission.mapEvalToAnalysis.
  rewrite Hs, Hc, Hrec, Hrs, Hds, Hts. cbn [JS.deref JS.bind JS.ToNumber].
  eexists. split; [reflexivity |].
  cbn [Submission.overallScore Submission.ra_confidence Submission.categoryScores
       Submission.cs_risk Submission.cs_financial Submission.cs_career
       Submission.cs_lifestyle Submission.cs_alignment].
  rewrite riskPenaltyOf_spec, !overall_lit, !confidence_lit.
  repeat match goal with |- _ /\ _ => split end; try reflexivity.
  - apply risk_lit, clampTo_bounds. lia.
  - apply financial_lit.
  - apply (category_lit _ (-4)).
  - apply (category_lit _ (-8)).
  - apply (category_lit _ (-6)).
Qed.

(** C1, counterexample. With the products taken exactly the formulas fail
    on the code. For the evaluation whose score and confidence are the
    doubles read from 8.45 and 0.145, the code computes 8.45 x 10 = 84.5 and
    0.145 x 100 = 14.499999999999998 in binary64: overall score 85 (grade
    A-), confidence 14 and risk 77. The exact product of the score the code
    holds is just below 84.5, so the formula gives 84 (grade B+); and the
    exact product of the decimal 0.145 is 14.5, so the formula gives
    confidence 15 and risk 78. *)
Lemma exact_products_miss_the_scores :
  exists r : Submission.ResultsAnalysisData,
    Submission.mapEvalToAnalysis Examples.prioritiesFinancial Samples.evalHalfway
      "offer.pdf" = JS.Ok r /\
    Submission.overallScore r = JS.lit 85 /\
    Submission.grade r = "A-" /\
    Spec.overall Samples.score845 = 84%Z /\
    Submission.toGrade (JS.lit (Spec.overall Samples.score845)) = "B+" /\
    Submission.overallScore r <> JS.lit (Spec.overall Samples.score845) /\
    Submission.ra_confidence r = JS.lit 14 /\
    Submission.cs_risk (Submission.categoryScores r) = JS.lit 77 /\
    Spec.confidencePct (145 # 1000) = 15%Z /\
    Spec.risk 0 Spec.accept (Spec.confidencePct (145 # 1000)) = 78%Z /\
    Submission.ra_confidence r <> JS.lit (Spec.confidencePct (145 # 1000)).
Proof.
  eexists. split; [reflexivity |]. vm_compute.
  repeat match goal with |- _ /\ _ => split end;
    try reflexivity; discriminate.
Qed.

(** The grade of an integer score, read off the threshold table. *)
Lemma toGrade_lit (s : Z) :
  Submission.toGrade (JS.lit s) =
    if (93 <=? s)%Z then "A"
    else if (85 <=? s)%Z then "A-"
    else if (78 <=? s)%Z then "B+"
    else if (70 <=? s)%Z then "B"
    else if (62 <=? s)%Z then "C"
    else "D".
Proof.
  unfold Submission.toGrade. now rewrite !ge_lit.
Qed.

(** C2. [toGrade] matches the threshold table on every integer score (so in
    particular on every overall score between 0 and 100): "A" from 93,
    "A-" on [85,93), "B+" on [78,85), "B" on [70,78), "C" on [62,70) and
    "D" below 62; it is monotonic in the score for the order
    D < C < B < B+ < A- < A; and toGrade(93) = "A", toGrade(92) = "A-",
    toGrade(70) = "B", toGrade(61) = "D". *)
Theorem toGrade_table_monotone :
  (forall s : Z, (93 <= s)%Z -> Submission.toGrade (JS.lit s) = "A") /\
  (forall s : Z, (85 <= s < 93)%Z -> Submission.toGrade (JS.lit s) = "A-") /\
  (forall s : Z, (78 <= s < 85)%Z -> Submission.toGrade (JS.lit s) = "B+") /\
  (forall s : Z, (70 <= s < 78)%Z -> Submission.toGrade (JS.lit s) = "B") /\
  (forall s : Z, (62 <= s < 70)%Z -> Submission.toGrade (JS.lit s) = "C") /\
  (forall s : Z, (s < 62)%Z -> Submission.toGrade (JS.lit s) = "D") /\
  (forall s1 s2 : Z, (s1 <= s2)%Z ->
     Spec.gradeRank (Submission.toGrade (JS.lit s1))
     <= Spec.gradeRank (Submission.toGrade (JS.lit s2))) /\
  Submission.toGrade (JS.lit 93) = "A" /\
  Submission.toGrade (JS.lit 92) = "A-" /\
  Submission.toGrade (JS.lit 70) = "B" /\
  Submission.toGrade (JS.lit 61) = "D".
Proof.
  repeat match goal with |- _ /\ _ => split end;
    try reflexivity; intros; rewrite ?toGrade_lit;
    repeat match goal with
      | |- context [(?a <=? ?b)%Z] => destruct (Z.leb_spec a b)
      end;
    try lia; try reflexivity; cbn; lia.
Qed.

Lemma toGrade_table_monotone_witness :
  Submission.toGrade (JS.lit 95) = "A" /\
  Submission.toGrade (JS.lit 87) = "A-" /\
  Submission.toGrade (JS.lit 80) = "B+" /\
  Submission.toGrade (JS.lit 75) = "B" /\
  Submission.toGrade (JS.lit 62) = "C" /\
  Submission.toGrade (JS.lit 0) = "D" /\
  Spec.gradeRank (Submission.toGrade (JS.lit 61))
  <= Spec.gradeRank (Submission.toGrade (JS.lit 100)).
Proof.
  pose proof toGrade_table_monotone as (HA & HAm & HBp & HB & HC & HD & Hmono & _).
  repeat match goal with |- _ /\ _ => split end.
  - apply (HA 95%Z); lia.
  - apply (HAm 87%Z); lia.
  - apply (HBp 80%Z); lia.
  - apply (HB 75%Z); lia.
  - apply (HC 62%Z); lia.
  - apply (HD 0%Z); lia.
  - apply (Hmono 61%Z 100%Z); lia.
Defined.

(** ** The offer list keeps exactly one current offer *)

Section OfferListFacts.
Import Submission OfferList.

Lemma currentCount_app (l k : list UploadedOffer) :
  currentCount (l ++ k) = currentCount l + currentCount k.
Proof.
  unfold currentCount. now rewrite List.filter_app, List.length_app.
Qed.

Lemma NoDup_snoc (A : Type) (l : list A) (x : A) :
  List.NoDup l -> ~ In x l -> List.NoDup (l ++ [x]).
Proof.
  induction 1 as [| a l Ha Hl IH]; intros Hx; simpl.
  - constructor; [intros [] | constructor].
  - constructor.
    + rewrite in_app_iff. intros [H | [H | []]]; [tauto |].
      apply Hx. now left.
    + apply IH. intros H. apply Hx. now right.
Qed.

Lemma existsb_current_false (l : list UploadedOffer) :
  existsb isCurrent l = false <-> currentCount l = 0.
Proof.
  unfold currentCount.
  induction l as [| a l IH]; simpl; [tauto |].
  destruct (isCurrent a); simpl; [split; discriminate | exact IH].
Qed.

Lemma currentCount_filter_le (f : UploadedOffer -> bool) (l : list UploadedOffer) :
  currentCount (List.filter f l) <= currentCount l.
Proof.
  unfold currentCount.
  induction l as [| a l IH]; simpl; [lia |].
  destruct (f a); simpl; destruct (isCurrent a); simpl; lia.
Qed.

Lemma ids_filter_incl (f : UploadedOffer -> bool) (l : list UploadedOffer) (i : string) :
  In i (ids (List.filter f l)) -> In i (ids l).
Proof.
  unfold ids. rewrite !in_map_iff. intros (o & Ho & Hin).
  apply filter_In in Hin. exists o. tauto.
Qed.

Lemma NoDup_ids_filter (f : UploadedOffer -> bool) (l : list UploadedOffer) :
  List.NoDup (ids l) -> List.NoDup (ids (List.filter f l)).
Proof.
  induction l as [| a l IH]; simpl; [trivial |].
  intros H. inversion H as [| x xs Hnotin Hnd]; subst.
  destruct (f a); simpl; [constructor |]; auto.
  intros Hin. apply Hnotin. eapply ids_filter_incl, Hin.
Qed.

Lemma ids_selectCurrent (i : string) (l : list UploadedOffer) :
  ids (selectCurrent i l) = ids l.
Proof.
  unfold ids, selectCurrent. rewrite List.map_map. reflexivity.
Qed.

Lemma currentCount_cons (a : UploadedOffer) (l : list UploadedOffer) :
  currentCount (a :: l) = (if isCurrent a then 1 else 0) + currentCount l.
Proof.
  unfold currentCount. simpl. now destruct (isCurrent a).
Qed.

Lemma selectCurrent_cons (i : string) (a : UploadedOffer) (l : list UploadedOffer) :
  selectCurrent i (a :: l)
  = {| id := id a; file := file a; isCurrent := String.eqb (id a) i |}
    :: selectCurrent i l.
Proof. reflexivity. Qed.

Lemma selectCurrent_absent (i : string) (l : list UploadedOffer) :
  ~ In i (ids l) -> currentCount (selectCurrent i l) = 0.
Proof.
  induction l as [| a l IH]; [reflexivity |].
  intros H. rewrite selectCurrent_cons, currentCount_cons. cbn [isCurrent].
  destruct (String.eqb_spec (id a) i) as [E | E].
  - exfalso. apply H. now left.
  - apply IH. intros Hin. apply H. now right.
Qed.

Lemma selectCurrent_present (o : UploadedOffer) (l : list UploadedOffer) :
  List.NoDup (ids l) -> In o l -> currentCount (selectCurrent (id o) l) = 1.
Proof.
  induction l as [| a l IH]; [intros _ [] |].
  intros H Hin. inversion H as [| x xs Hnotin Hnd]; subst.
  rewrite selectCurrent_cons, currentCount_cons. cbn [isCurrent].
  destruct (String.eqb_spec (id a) (id o)) as [E | E].
  - rewrite selectCurrent_absent; [reflexivity | now rewrite <- E].
  - destruct Hin as [-> | Hin]; [congruence |]. now apply IH.
Qed.

Lemma offersInv_upload (chosen : option File) (uuid : string) (l : list UploadedOffer) :
  offersInv l -> ~ In uuid (ids l) -> offersInv (handleFileUpload chosen uuid l).
Proof.
  intros [Hnd Hone] Hfresh. destruct chosen as [f |]; simpl; [| now split].
  split.
  - unfold ids. rewrite List.map_app. simpl. now apply NoDup_snoc.
  - intros _. rewrite currentCount_app.
    destruct l as [| a l]; [reflexivity |].
    rewrite Hone by discriminate. reflexivity.
Qed.

Lemma offersInv_remove (i : string) (l : list UploadedOffer) :
  offersInv l -> offersInv (removeOffer i l).
Proof.
  intros [Hnd Hone]. unfold removeOffer.
  set (filtered := List.filter (fun o => negb (String.eqb (id o) i)) l).
  assert (Hndf : List.NoDup (ids filtered)) by now apply NoDup_ids_filter.
  assert (Hle : currentCount filtered <= currentCount l)
    by apply currentCount_filter_le.
  destruct (existsb isCurrent filtered) eqn:Hex.
  - rewrite andb_false_r. split; [assumption |].
    intros Hne.
    assert (currentCount filtered <> 0).
    { intros H0. apply existsb_current_false in H0. congruence. }
    assert (l <> []) by (intros ->; now apply Hne).
    specialize (Hone ltac:(assumption)). lia.
  - apply existsb_current_false in Hex.
    destruct filtered as [| o rest] eqn:Hf; simpl; [now split |].
    split; [assumption |].
    intros _. unfold currentCount in *. simpl in *.
    destruct (isCurrent o); simpl in *; lia.
Qed.

Lemma offersInv_select (o : UploadedOffer) (l : list UploadedOffer) :
  offersInv l -> In o l -> offersInv (selectCurrent (id o) l).
Proof.
  intros [Hnd _] Hin. split.
  - now rewrite ids_selectCurrent.
  - intros _. now apply selectCurrent_present.
Qed.

Lemma reachable_offersInv (l : list UploadedOffer) :
  reachable l -> offersInv l.
Proof.
  induction 1.
  - split; [constructor | congruence].
  - now apply offersInv_upload.
  - now apply offersInv_remove.
  - now apply offersInv_select.
Qed.

End OfferListFacts.

(** C3. After any sequence of uploads, removals and selections that starts
    from the empty offer list, a non-empty list has exactly one entry with
    isCurrent = true. *)
Theorem offers_exactly_one_current (l : list Submission.UploadedOffer) :
  OfferList.reachable l -> l <> [] -> OfferList.currentCount l = 1.
Proof.
  intros Hreach. now apply reachable_offersInv in Hreach as [_ H].
Qed.

(** The worked example of the specification: overall 87, grade "A-",
    the strength "Strong base" and the placeholder negotiation text. *)
Example mapEvalToAnalysis_worked_example :
  exists r,
    Submission.mapEvalToAnalysis Examples.prioritiesFinancial Examples.evalAccept "offer.pdf"
      = JS.Ok r /\
    Submission.overallScore r = JS.lit 87 /\
    Submission.grade r = "A-" /\
    Submission.strengths r = ["Strong base"] /\
    Submission.negotiationInsights r
      = "No negotiation targets were returned by the model." /\
    Submission.cs_financial (Submission.categoryScores r) = JS.lit 98 /\
    Submission.cs_risk (Submission.categoryScores r) = JS.lit 84.
Proof.
  eexists. split; [reflexivity |]. vm_compute. tauto.
Qed.

Lemma mapEvalToAnalysis_formulas_witness :
  exists r : Submission.ResultsAnalysisData,
    Submission.mapEvalToAnalysis Examples.prioritiesFinancial Samples.evalHalfway "offer.pdf"
      = JS.Ok r /\
    Submission.overallScore r = JS.lit (Spec.overallOfDouble Samples.score845) /\
    Submission.ra_confidence r = JS.lit (Spec.confidenceOfDouble Samples.confidence145) /\
    Submission.cs_risk (Submission.categoryScores r)
      = JS.lit (Spec.risk 0 Spec.accept (Spec.confidenceOfDouble Samples.confidence145)) /\
    Submission.cs_financial (Submission.categoryScores r)
      = JS.lit (Spec.category 0 8 98 (Spec.overallOfDouble Samples.score845) 5) /\
    Submission.cs_career (Submission.categoryScores r)
      = JS.lit (Spec.category (-4) 8 98 (Spec.overallOfDouble Samples.score845) 3) /\
    Submission.cs_lifestyle (Submission.categoryScores r)
      = JS.lit (Spec.category (-8) 8 95 (Spec.overallOfDouble Samples.score845) 3) /\
    Submission.cs_alignment (Submission.categoryScores r)
      = JS.lit (Spec.category (-6) 8 96 (Spec.overallOfDouble Samples.score845) 3).
Proof.
  exact (mapEvalToAnalysis_formulas
           Examples.prioritiesFinancial Samples.evalHalfway "offer.pdf"
           Samples.score845 Samples.confidence145 Spec.accept []
           [Examples.strongBase] []
           eq_refl eq_refl eq_refl eq_refl eq_refl eq_refl).
Defined.

Lemma offers_exactly_one_current_witness :
  OfferList.currentCount
    (Submission.removeOffer "a"
       (Submission.selectCurrent "b"
          (Submission.handleFileUpload (Some {| Submission.name := "other.pdf" |}) "b"
             (Submission.handleFileUpload (Some {| Submission.name := "Offer.PDF" |}) "a" []))))
  = 1.
Proof.
  apply offers_exactly_one_current; [| discriminate].
  apply (OfferList.reach_remove _
           {| Submission.id := "a"; Submission.file := {| Submission.name := "Offer.PDF" |};
              Submission.isCurrent := false |}).
  - apply (OfferList.reach_select _
             {| Submission.id := "b"; Submission.file := {| Submission.name := "other.pdf" |};
                Submission.isCurrent := false |}).
    + apply OfferList.reach_upload.
      * apply OfferList.reach_upload; [apply OfferList.reach_init | intros []].
      * simpl. intros [H | []]. discriminate.
    + right; left; reflexivity.
  - left; reflexivity.
Defined.

(** ** Malformed evaluation results *)

Section MalformedFacts.
Import JS Submission.

Lemma find_current_some (offers : list UploadedOffer) (cur : UploadedOffer) :
  List.find isCurrent offers = Some cur ->
  Nat.eqb (length offers) 0 = false /\ existsb isCurrent offers = true.
Proof.
  intros H. apply List.find_some in H as [Hin Hcur]. split.
  - destruct offers; [destruct Hin | reflexivity].
  - apply existsb_exists. now exists cur.
Qed.

(** The normalizer throws exactly when one of the three lists it
    dereferences is missing. *)
Lemma mapEvalToAnalysis_throws (pr : Priorities) (ev : WorkflowEvaluation)
    (f : string) :
  (exists e, mapEvalToAnalysis pr ev f = Throw e) <->
  (risks ev = None \/ key_drivers ev = None \/ negotiation_targets ev = None).
Proof.
  unfold mapEvalToAnalysis.
  destruct (risks ev) as [rs |], (key_drivers ev) as [ds |],
    (negotiation_targets ev) as [ts |]; cbn [deref bind];
    (split; [ intros [e He]; try discriminate; tauto
            | intros H; try (now eexists); destruct H as [H | [H | H]]; discriminate ]).
Qed.

Lemma mapEvalToAnalysis_throws_TypeError (pr : Priorities)
    (ev : WorkflowEvaluation) (f : string) (e : exn) :
  mapEvalToAnalysis pr ev f = Throw e -> e = TypeError.
Proof.
  unfold mapEvalToAnalysis.
  destruct (risks ev), (key_drivers ev), (negotiation_targets ev);
    cbn [deref bind]; congruence.
Qed.

(** How [handleSubmit] ends once the evaluation [ev] has arrived, in terms
    of what the normalizer does with it. *)
Lemma handleSubmit_after_evaluation
    (api : Backend) (JSON : Stringify) (offers : list UploadedOffer)
    (pr : Priorities) (ss : gmap string string) (cur : UploadedOffer)
    (ingestResp : Response IngestResponse) (ij : IngestResponse) (offerId : Q)
    (evalResp : Response WorkflowEvaluation) (ev : WorkflowEvaluation) :
  List.find isCurrent offers = Some cur ->
  endsWith (lower (name (file cur))) ".pdf" = true ->
  ingest_pdf api (file cur) pr = Ok ingestResp ->
  ok ingestResp = true ->
  json ingestResp = Ok ij ->
  truthyId (offer_id ij) = Some offerId ->
  evaluate api offerId = Ok evalResp ->
  ok evalResp = true ->
  json evalResp = Ok ev ->
  match mapEvalToAnalysis pr ev (name (file cur)) with
  | Throw e =>
      toast (handleSubmit api JSON offers pr ss)
        = Some {| title := "Analysis failed"; description := MessageOf e |} /\
      navigate (handleSubmit api JSON offers pr ss) = None /\
      session (handleSubmit api JSON offers pr ss) !! "offergo-demo-analysis"
        = ss !! "offergo-demo-analysis"
  | Ok analysis =>
      toast (handleSubmit api JSON offers pr ss) = None /\
      navigate (handleSubmit api JSON offers pr ss) = Some "/results" /\
      session (handleSubmit api JSON offers pr ss) !! "offergo-demo-analysis"
        = Some (stringify_analysis JSON analysis)
  end.
Proof.
  intros Hfind Hpdf Hing Hok Hij Hid Hev Hok' Hevj.
  destruct (find_current_some _ _ Hfind) as [Hlen Hex].
  unfold handleSubmit. rewrite Hlen, Hex, Hfind, Hpdf. cbn [negb].
  unfold submitCurrent, andThen, await, throw, ret, setItem.
  rewrite Hing, Hok, Hij, Hid, Hev, Hok', Hevj. cbn [negb].
  destruct (mapEvalToAnalysis pr ev (name (file cur))) as [analysis | e].
  - destruct (market_snapshot api offerId) as [marketResp |];
      [destruct (ok marketResp); [destruct (json marketResp) |] |];
      cbn; repeat split; now simplify_map_eq.
  - cbn. repeat split. now simplify_map_eq.
Qed.

End MalformedFacts.

(** C6, as the code has it. When the evaluation result lacks its risks,
    key_drivers or negotiation_targets list, the normalizer throws a
    TypeError and [handleSubmit] surfaces it as the "Analysis failed"
    notification: it does not navigate to the results and stores no
    analysis. *)
Theorem malformed_lists_fail_loudly
    (api : Submission.Backend) (JSON : Submission.Stringify)
    (offers : list Submission.UploadedOffer) (pr : Submission.Priorities)
    (ss : gmap string string) (cur : Submission.UploadedOffer)
    (ingestResp : Submission.Response Submission.IngestResponse)
    (ij : Submission.IngestResponse) (offerId : Q)
    (evalResp : Submission.Response Submission.WorkflowEvaluation)
    (ev : Submission.WorkflowEvaluation) :
  List.find Submission.isCurrent offers = Some cur ->
  Submission.endsWith (JS.lower (Submission.name (Submission.file cur))) ".pdf" = true ->
  Submission.ingest_pdf api (Submission.file cur) pr = JS.Ok ingestResp ->
  Submission.ok ingestResp = true ->
  Submission.json ingestResp = JS.Ok ij ->
  Submission.truthyId (Submission.offer_id ij) = Some offerId ->
  Submission.evaluate api offerId = JS.Ok evalResp ->
  Submission.ok evalResp = true ->
  Submission.json evalResp = JS.Ok ev ->
  Submission.risks ev = None \/ Submission.key_drivers ev = None
    \/ Submission.negotiation_targets ev = None ->
  Submission.mapEvalToAnalysis pr ev (Submission.name (Submission.file cur))
    = JS.Throw JS.TypeError /\
  Submission.toast (Submission.handleSubmit api JSON offers pr ss)
    = Some {| Submission.title := "Analysis failed";
              Submission.description := Submission.MessageOf JS.TypeError |} /\
  Submission.navigate (Submission.handleSubmit api JSON offers pr ss) = None /\
  Submission.session (Submission.handleSubmit api JSON offers pr ss)
    !! "offergo-demo-analysis" = ss !! "offergo-demo-analysis".
Proof.
  intros Hfind Hpdf Hing Hok Hij Hid Hev Hok' Hevj Hmissing.
  pose proof (handleSubmit_after_evaluation api JSON offers pr ss cur ingestResp
                ij offerId evalResp ev Hfind Hpdf Hing Hok Hij Hid Hev Hok' Hevj)
    as Hend.
  apply (mapEvalToAnalysis_throws pr ev (Submission.name (Submission.file cur)))
    in Hmissing as [e He].
  rewrite He in Hend.
  pose proof (mapEvalToAnalysis_throws_TypeError _ _ _ _ He) as ->.
  now split.
Qed.

Lemma malformed_lists_fail_loudly_witness :
  Submission.mapEvalToAnalysis Examples.prioritiesFinancial Examples.evalNoRisks "Offer.PDF"
    = JS.Throw JS.TypeError /\
  Submission.toast
    (Submission.handleSubmit (Examples.backendReturning Examples.evalNoRisks)
       Examples.tagOnly [Examples.offerPdf] Examples.prioritiesFinancial ∅)
    = Some {| Submission.title := "Analysis failed";
              Submission.description := Submission.MessageOf JS.TypeError |} /\
  Submission.navigate
    (Submission.handleSubmit (Examples.backendReturning Examples.evalNoRisks)
       Examples.tagOnly [Examples.offerPdf] Examples.prioritiesFinancial ∅) = None /\
  Submission.session
    (Submission.handleSubmit (Examples.backendReturning Examples.evalNoRisks)
       Examples.tagOnly [Examples.offerPdf] Examples.prioritiesFinancial ∅)
    !! "offergo-demo-analysis" = (∅ : gmap string string) !! "offergo-demo-analysis".
Proof.
  eapply (malformed_lists_fail_loudly
            (Examples.backendReturning Examples.evalNoRisks) Examples.tagOnly
            [Examples.offerPdf] Examples.prioritiesFinancial ∅ Examples.offerPdf
            _ _ 7%Q _ Examples.evalNoRisks);
    try reflexivity.
  left. reflexivity.
Defined.

(** C6 as stated fails: an evaluation result without its [score] field is
    malformed, yet the normalizer returns a report for it, with overall score
    NaN and grade "D", and [handleSubmit] stores that report and navigates to
    the results page without any notification. *)
Lemma malformed_score_not_rejected :
  Submission.score Examples.evalNoScore = None /\
  (exists r,
     Submission.mapEvalToAnalysis Examples.prioritiesFinancial Examples.evalNoScore "Offer.PDF"
       = JS.Ok r /\
     Submission.overallScore r = JS.NaN /\
     Submission.grade r = "D") /\
  Submission.toast
    (Submission.handleSubmit (Examples.backendReturning Examples.evalNoScore)
       Examples.tagOnly [Examples.offerPdf] Examples.prioritiesFinancial ∅) = None /\
  Submission.navigate
    (Submission.handleSubmit (Examples.backendReturning Examples.evalNoScore)
       Examples.tagOnly [Examples.offerPdf] Examples.prioritiesFinancial ∅)
    = Some "/results" /\
  Submission.session
    (Submission.handleSubmit (Examples.backendReturning Examples.evalNoScore)
       Examples.tagOnly [Examples.offerPdf] Examples.prioritiesFinancial ∅)
    !! "offergo-demo-analysis" = Some "{analysis}".
Proof.
  split; [reflexivity |].
  split; [eexists; split; [reflexivity |]; split; reflexivity |].
  repeat split; vm_compute; reflexivity.
Qed.

(** ** Logout *)

Section LogoutFacts.
Import DemoUsers.

(** The four keys [logoutDemoUser] removes. *)
Lemma logout_removes (st : Storage) :
  localStorage (logoutDemoUser st) !! "offergo-profile" = None /\
  sessionStorage (logoutDemoUser st) !! "offergo-submission" = None /\
  sessionStorage (logoutDemoUser st) !! "offergo-demo-analysis" = None /\
  sessionStorage (logoutDemoUser st) !! DEMO_SESSION_KEY = None.
Proof.
  unfold logoutDemoUser, DEMO_SESSION_KEY; cbn.
  repeat split; now simplify_map_eq.
Qed.

(** Every other session key is left as it was. *)
Lemma logout_keeps (st : Storage) (k : string) :
  k <> "offergo-submission" -> k <> "offergo-demo-analysis" ->
  k <> DEMO_SESSION_KEY ->
  sessionStorage (logoutDemoUser st) !! k = sessionStorage st !! k.
Proof.
  intros H1 H2 H3. unfold logoutDemoUser; cbn.
  now rewrite !lookup_delete_ne by congruence.
Qed.

(** Logout returns normally when its keys are absent: the storage is
    unchanged. *)
Lemma logout_absent (st : Storage) :
  localStorage st !! "offergo-profile" = None ->
  sessionStorage st !! "offergo-submission" = None ->
  sessionStorage st !! "offergo-demo-analysis" = None ->
  sessionStorage st !! DEMO_SESSION_KEY = None ->
  logoutDemoUser st = st.
Proof.
  intros H1 H2 H3 H4. destruct st as [ls ss]; cbn in *.
  unfold logoutDemoUser; cbn. f_equal.
  - now apply delete_id.
  - rewrite (delete_id _ "offergo-submission") by assumption.
    rewrite (delete_id _ "offergo-demo-analysis") by assumption.
    now apply delete_id.
Qed.

End LogoutFacts.

(** C8, evaluated on the code. After an analysis has completed the session
    holds the submission snapshot, the derived analysis, the workflow
    evaluation, the parsed ingestion fields and the market snapshot; logout
    removes the profile, the snapshot, the analysis and the demo-session
    marker, and leaves the workflow evaluation, the parsed ingestion fields
    and the market snapshot in the session. *)
Theorem logout_keeps_evaluation_keys :
  let before := Examples.afterSubmission in
  let after := DemoUsers.logoutDemoUser before in
  (DemoUsers.sessionStorage before !! "offergo-submission" = Some "{submission}" /\
   DemoUsers.sessionStorage before !! "offergo-demo-analysis" = Some "{analysis}" /\
   DemoUsers.sessionStorage before !! "offergo-workflow-eval" = Some "{evaluation}" /\
   DemoUsers.sessionStorage before !! "offergo-ingest-parsed" = Some "{parsed}" /\
   DemoUsers.sessionStorage before !! "offergo-market-snapshot" = Some "{market}") /\
  (DemoUsers.localStorage after !! "offergo-profile" = None /\
   DemoUsers.sessionStorage after !! "offergo-submission" = None /\
   DemoUsers.sessionStorage after !! "offergo-demo-analysis" = None /\
   DemoUsers.sessionStorage after !! "offergo-demo-user" = None) /\
  (DemoUsers.sessionStorage after !! "offergo-workflow-eval" = Some "{evaluation}" /\
   DemoUsers.sessionStorage after !! "offergo-ingest-parsed" = Some "{parsed}" /\
   DemoUsers.sessionStorage after !! "offergo-market-snapshot" = Some "{market}").
Proof.
  cbv zeta. repeat split; vm_compute; reflexivity.
Qed.

(** ** The market comparison *)

Section ComparisonFacts.
Import JS Results.

Lemma gt_zero (a : number) :
  (a > lit 0)%js = true <-> exists q : Q, a = Num q /\ (0 < q)%Q.
Proof.
  destruct a as [| q]; simpl.
  - split; [discriminate | intros (q & H & _); discriminate].
  - rewrite negb_true_iff, <- not_true_iff_false, Qle_bool_iff.
    change (inject_Z 0) with 0%Q. split.
    + intros H. exists q. split; [reflexivity | now apply Qnot_le_lt].
    + intros (q' & [= <-] & H). now apply Qlt_not_le.
Qed.

Lemma gt_zero_Num (q : Q) : (Num q > lit 0)%js = true <-> (0 < q)%Q.
Proof.
  rewrite gt_zero. split.
  - now intros (q' & [= <-] & H).
  - intros H. now exists q.
Qed.

Lemma le_zero_Num (q : Q) : (Num q <= lit 0)%js = true <-> (q <= 0)%Q.
Proof.
  unfold le, ge, lit. now rewrite Qle_bool_iff.
Qed.

Lemma comparisonOf_some (totals : number * number) (p : OfferVsMarket) :
  comparisonOf totals = Some p <->
  exists o m : Q,
    totals = (Num o, Num m) /\ (0 < o)%Q /\ (0 < m)%Q /\
    p = {| offerTotal := Num o; marketTotal := Num m |}.
Proof.
  destruct totals as [a b]. unfold comparisonOf. split.
  - destruct (a > lit 0)%js eqn:Ha; [| discriminate].
    destruct (b > lit 0)%js eqn:Hb; [| discriminate].
    apply gt_zero in Ha as (o & -> & Ho). apply gt_zero in Hb as (m & -> & Hm).
    intros [= <-]. now exists o, m.
  - intros (o & m & [= -> ->] & Ho & Hm & ->).
    apply gt_zero_Num in Ho, Hm. now rewrite Ho, Hm.
Qed.


End ComparisonFacts.


Section RatioFacts.
Import JS Results.


(** The derived totals are the known totals with the missing side filled
    in. *)
Lemma derivedTotals_known (JSON : Parse) (ss : gmap string string)
    (rawEval : option WorkflowEvaluation) (known : number * number) :
  knownTotals JSON ss rawEval = Ok known ->
  derivedTotals JSON ss rawEval
  = Ok (match getTruthy ss "offergo-ingest-parsed" with
        | Some _ => fillFromIngest rawEval known
        | None => fillFromText rawEval known
        end).
Proof.
  unfold knownTotals, derivedTotals.
  destruct (getTruthy ss "offergo-ingest-parsed") as [rawParsed |].
  - destruct (JSON_parse (parse_parsed JSON) rawParsed) as [parsed |];
      cbn [bind]; [| discriminate].
    now intros ->.
  - now intros ->.
Qed.



End RatioFacts.



(** The ratio step on the two examples: an offer of 132000 with "accept"
    gives a market total of 125400; a market figure of 100000 alone gives an
    offer total of 75000. *)
Example derivedTotals_examples :
  Results.derivedTotals Examples.tagParse {[ "offergo-ingest-parsed" := "{parsed}" ]}
    (Some Examples.evalAccept)
  = JS.Ok (JS.Num (13200000 # 100), JS.lit 125400) /\
  Results.derivedTotals Examples.tagParse ∅ (Some Examples.evalMarketOnly)
  = JS.Ok (JS.lit 75000, JS.lit 100000).
Proof. split; vm_compute; reflexivity. Qed.

(** ** Corrupt stored text *)

Section CorruptFacts.
Import JS Results.

Lemma getTruthy_some (ss : gmap string string) (key raw : string) :
  ss !! key = Some raw -> raw <> "" -> getTruthy ss key = Some raw.
Proof.
  intros H Hne. unfold getTruthy. rewrite H.
  destruct (String.eqb_spec raw ""); [contradiction | reflexivity].
Qed.

(** The profile loader catches the parse failure. *)
Lemma loadProfile_corrupt (parse : string -> option Profile.ProfileData)
    (ls : gmap string string) (raw : string) :
  ls !! Profile.STORAGE_KEY = Some raw -> parse raw = None ->
  Profile.loadProfile parse ls = Profile.emptyProfile.
Proof.
  intros H Hbad. unfold Profile.loadProfile. rewrite H, Hbad.
  now destruct (negb (String.eqb raw "")).
Qed.

(** So do the three loaders inside the effect. *)
Lemma loadSubmission_corrupt (JSON : Parse) (ss : gmap string string) (raw : string) :
  ss !! "offergo-submission" = Some raw -> parse_submission JSON raw = None ->
  loadSubmission JSON ss = (None, None).
Proof.
  intros H Hbad. unfold loadSubmission, getTruthy, JSON_parse. rewrite H.
  destruct (String.eqb raw ""); [reflexivity | now rewrite Hbad].
Qed.

Lemma loadWorkflowEval_corrupt (JSON : Parse) (ss : gmap string string) (raw : string) :
  ss !! "offergo-workflow-eval" = Some raw -> parse_eval JSON raw = None ->
  loadWorkflowEval JSON ss = None.
Proof.
  intros H Hbad. unfold loadWorkflowEval, getTruthy, JSON_parse. rewrite H.
  destruct (String.eqb raw ""); [reflexivity | now rewrite Hbad].
Qed.

Lemma deriveOfferVsMarket_corrupt (JSON : Parse) (ss : gmap string string)
    (rawEval : option WorkflowEvaluation) (raw : string) :
  ss !! "offergo-ingest-parsed" = Some raw -> raw <> "" ->
  parse_parsed JSON raw = None ->
  deriveOfferVsMarket JSON ss rawEval = Ok None.
Proof.
  intros H Hne Hbad. unfold deriveOfferVsMarket, derivedTotals.
  rewrite (getTruthy_some _ _ _ H Hne). unfold JSON_parse. now rewrite Hbad.
Qed.

(** [generateDemoData] does not: the parse failure of either text it
    reads is thrown to its caller, the effect, which has no handler. *)
Lemma generateDemoData_corrupt_analysis (JSON : Parse) (rnd : nat -> Q)
    (ss : gmap string string) (raw : string) :
  ss !! "offergo-demo-analysis" = Some raw -> raw <> "" ->
  parse_analysis JSON raw = None ->
  generateDemoData JSON rnd ss = Throw SyntaxError /\
  mountEffect JSON rnd ss = Throw SyntaxError.
Proof.
  intros H Hne Hbad.
  assert (Hgen : generateDemoData JSON rnd ss = Throw SyntaxError).
  { unfold generateDemoData. rewrite (getTruthy_some _ _ _ H Hne).
    unfold JSON_parse. now rewrite Hbad. }
  split; [assumption |]. unfold mountEffect. now rewrite Hgen.
Qed.

Lemma generateDemoData_corrupt_submission (JSON : Parse) (rnd : nat -> Q)
    (ss : gmap string string) (raw : string) :
  ss !! "offergo-demo-analysis" = None ->
  ss !! "offergo-submission" = Some raw -> raw <> "" ->
  parse_submission JSON raw = None ->
  generateDemoData JSON rnd ss = Throw SyntaxError /\
  mountEffect JSON rnd ss = Throw SyntaxError.
Proof.
  intros Hnone H Hne Hbad.
  assert (Hgen : generateDemoData JSON rnd ss = Throw SyntaxError).
  { unfold generateDemoData. unfold getTruthy at 1. rewrite Hnone.
    rewrite (getTruthy_some _ _ _ H Hne). unfold JSON_parse. now rewrite Hbad. }
  split; [assumption |]. unfold mountEffect. now rewrite Hgen.
Qed.

End CorruptFacts.

(** C7, evaluated on the code. With the text "{" stored under a key: the
    profile loader returns the empty profile, and the effect's own readers
    of the submission snapshot, the workflow evaluation and the parsed
    ingestion fields treat the value as absent; but [generateDemoData]
    throws a SyntaxError for a corrupt demo analysis, and for a corrupt
    submission snapshot when no demo analysis is stored, and the exception
    escapes the effect. *)
Theorem corrupt_demo_analysis_escapes :
  Profile.loadProfile (fun _ => None) {[ "offergo-profile" := "{" ]}
    = Profile.emptyProfile /\
  Results.loadSubmission Examples.tagParse {[ "offergo-submission" := "{" ]}
    = (None, None) /\
  Results.loadWorkflowEval Examples.tagParse {[ "offergo-workflow-eval" := "{" ]}
    = None /\
  Results.deriveOfferVsMarket Examples.tagParse {[ "offergo-ingest-parsed" := "{" ]} None
    = JS.Ok None /\
  Results.generateDemoData Examples.tagParse Examples.noRandom
    {[ "offergo-demo-analysis" := "{" ]} = JS.Throw JS.SyntaxError /\
  Results.mountEffect Examples.tagParse Examples.noRandom
    {[ "offergo-demo-analysis" := "{" ]} = JS.Throw JS.SyntaxError /\
  Results.generateDemoData Examples.tagParse Examples.noRandom
    {[ "offergo-submission" := "{" ]} = JS.Throw JS.SyntaxError /\
  Results.mountEffect Examples.tagParse Examples.noRandom
    {[ "offergo-submission" := "{" ]} = JS.Throw JS.SyntaxError.
Proof.
  repeat match goal with |- _ /\ _ => split end; vm_compute; reflexivity.
Qed.

(** ** The chat *)

Section ChatFacts.
Import JS Results.

Lemma dropWhite_white (w s : string) :
  In w whiteSpace -> dropWhite (w +:+ s) = Some s.
Proof.
  unfold whiteSpace. cbn [List.map]. intros H.
  repeat (destruct H as [<- | H]; [reflexivity |]). destruct H.
Qed.

Lemma length_append (s1 s2 : string) :
  String.length (s1 +:+ s2) = String.length s1 + String.length s2.
Proof.
  induction s1 as [| c s1 IH]; [reflexivity |].
  change (String c s1 +:+ s2) with (String c (s1 +:+ s2)).
  cbn [String.length]. now rewrite IH.
Qed.

Lemma white_length (w s : string) :
  In w whiteSpace -> String.length s < String.length (w +:+ s).
Proof.
  unfold whiteSpace. cbn [List.map]. intros H.
  rewrite length_append.
  repeat (destruct H as [<- | H]; [cbn; lia |]). destruct H.
Qed.

Lemma trimStartN_blank (s : string) :
  whitespaceOnly s ->
  forall n : nat, String.length s <= n -> trimStartN n s = "".
Proof.
  induction 1 as [| w s Hw Hs IH]; intros n Hn.
  - now destruct n.
  - pose proof (white_length w s Hw) as Hlen.
    destruct n as [| n]; [lia |].
    cbn [trimStartN]. rewrite (dropWhite_white w s Hw). apply IH. lia.
Qed.

(** [trim] of a text made of white space is the empty string. *)
Lemma trim_blank (s : string) : whitespaceOnly s -> trim s = "".
Proof.
  intros H. unfold trim, trimStart.
  now rewrite (trimStartN_blank s H (String.length s)).
Qed.

End ChatFacts.

(** C9. A message that is not blank, sent while no offer id is resolved
    (the state holds none, or holds the falsy 0): the user's message is
    appended, then an explanatory entry from the assistant, a notification
    is raised, and no request is made; after the call the transcript is the
    old one followed by these two entries, so the user's message stays. *)
Theorem chat_without_offer_id
    (chatEndpoint :
       JS.number -> string -> JS.result (Submission.Response Results.OfferChatResponse))
    (engineMessage : JS.exn -> string) (st : Results.State) :
  Results.trim (Results.input st) <> "" ->
  Results.offerIdOf st = None ->
  let text := Results.trim (Results.input st) in
  let userEntry := {| Results.role := "user"; Results.content := text |} in
  let errorEntry :=
    {| Results.role := "ai";
       Results.content :=
         "I couldn't reach Nemotron chat right now. Missing offer context for chat. Re-run analysis from Submit page." |} in
  let trace := Results.sendMessage chatEndpoint engineMessage st in
  trace =
    [ Results.AppendChat userEntry;
      Results.SetInput "";
      Results.SetTyping true;
      Results.AppendChat errorEntry;
      Results.ShowToast
        {| Submission.title := "Nemotron chat unavailable";
           Submission.description :=
             Submission.Plain
               "Missing offer context for chat. Re-run analysis from Submit page." |};
      Results.SetTyping false ] /\
  existsb Results.isFetch trace = false /\
  Results.chat (Results.run st trace) = Results.chat st ++ [userEntry; errorEntry].
Proof.
  intros Htext Hid. cbv zeta.
  assert (Htrace :
    Results.sendMessage chatEndpoint engineMessage st =
    [ Results.AppendChat
        {| Results.role := "user"; Results.content := Results.trim (Results.input st) |};
      Results.SetInput "";
      Results.SetTyping true;
      Results.AppendChat
        {| Results.role := "ai";
           Results.content :=
             "I couldn't reach Nemotron chat right now. Missing offer context for chat. Re-run analysis from Submit page." |};
      Results.ShowToast
        {| Submission.title := "Nemotron chat unavailable";
           Submission.description :=
             Submission.Plain
               "Missing offer context for chat. Re-run analysis from Submit page." |};
      Results.SetTyping false ]).
  { unfold Results.sendMessage, Results.askBackend. rewrite Hid.
    destruct (String.eqb_spec (Results.trim (Results.input st)) "");
      [contradiction | reflexivity]. }
  rewrite Htrace. split; [reflexivity |]. split; [reflexivity |].
  cbn. now rewrite <- app_assoc.
Qed.

(** C10. When the input is empty or holds only white space, [sendMessage]
    does nothing: no entry is appended, the input and the typing indicator
    are not set, and no request is made. *)
Theorem blank_input_is_ignored
    (chatEndpoint :
       JS.number -> string -> JS.result (Submission.Response Results.OfferChatResponse))
    (engineMessage : JS.exn -> string) (st : Results.State) :
  Results.whitespaceOnly (Results.input st) ->
  Results.sendMessage chatEndpoint engineMessage st = [] /\
  Results.run st (Results.sendMessage chatEndpoint engineMessage st) = st.
Proof.
  intros Hblank. unfold Results.sendMessage.
  rewrite (trim_blank _ Hblank). now split.
Qed.

Lemma chat_without_offer_id_witness :
  Results.sendMessage Examples.unreachableChat Examples.failedToFetch
    (Examples.typed " Is the bonus guaranteed? ")
  = [ Results.AppendChat
        {| Results.role := "user"; Results.content := "Is the bonus guaranteed?" |};
      Results.SetInput "";
      Results.SetTyping true;
      Results.AppendChat
        {| Results.role := "ai";
           Results.content :=
             "I couldn't reach Nemotron chat right now. Missing offer context for chat. Re-run analysis from Submit page." |};
      Results.ShowToast
        {| Submission.title := "Nemotron chat unavailable";
           Submission.description :=
             Submission.Plain
               "Missing offer context for chat. Re-run analysis from Submit page." |};
      Results.SetTyping false ] /\
  existsb Results.isFetch
    (Results.sendMessage Examples.unreachableChat Examples.failedToFetch
       (Examples.typed " Is the bonus guaranteed? ")) = false /\
  Results.chat
    (Results.run (Examples.typed " Is the bonus guaranteed? ")
       (Results.sendMessage Examples.unreachableChat Examples.failedToFetch
          (Examples.typed " Is the bonus guaranteed? ")))
  = [ {| Results.role := "user"; Results.content := "Is the bonus guaranteed?" |};
      {| Results.role := "ai";
         Results.content :=
           "I couldn't reach Nemotron chat right now. Missing offer context for chat. Re-run analysis from Submit page." |} ].
Proof.
  apply (chat_without_offer_id Examples.unreachableChat Examples.failedToFetch
           (Examples.typed " Is the bonus guaranteed? ")).
  - vm_compute. discriminate.
  - reflexivity.
Defined.

Lemma blank_input_is_ignored_witness :
  Results.sendMessage Examples.unreachableChat Examples.failedToFetch
    (Examples.typed "  ") = [] /\
  Results.run (Examples.typed "  ")
    (Results.sendMessage Examples.unreachableChat Examples.failedToFetch
       (Examples.typed "  "))
  = Examples.typed "  ".
Proof.
  apply (blank_input_is_ignored Examples.unreachableChat Examples.failedToFetch
           (Examples.typed "  ")).
  change (Results.whitespaceOnly (" " +:+ (" " +:+ ""))).
  assert (Hspace : In " " Results.whiteSpace)
    by (do 5 right; left; reflexivity).
  apply Results.blank_more; [exact Hspace |].
  apply Results.blank_more; [exact Hspace | apply Results.blank_empty].
Defined.


(** * Further properties of the code *)

(** ** The normalizer: ranges and strengths *)

Section NormalizerRanges.
Import JS Submission.

Lemma Ok_inj (A : Type) (a b : A) : Ok a = Ok b -> a = b.
Proof. now intros [= ->]. Qed.

Lemma clampTo_within (lo hi z : Z) :
  (lo <= hi)%Z -> (lo <= Spec.clampTo lo hi z <= hi)%Z.
Proof. unfold Spec.clampTo. lia. Qed.

Lemma clamp_round_within (a : number) (lo hi : Z) :
  (lo <= hi)%Z -> (exists q, a = Num q) ->
  Range.within lo hi (clamp (Math_round a) (lit lo) (lit hi)).
Proof.
  intros Hle [q ->]. cbn [Math_round]. rewrite clamp_lit.
  eexists. split; [reflexivity | now apply clampTo_within].
Qed.

Lemma riskPenaltyOf_lit (rec : option string) :
  exists p : Z, riskPenaltyOf rec = lit p.
Proof.
  unfold riskPenaltyOf. destruct rec as [r |]; [| now eexists].
  destruct (String.eqb r "needs_more_info"); [now eexists |].
  destruct (String.eqb r "renegotiate"); now eexists.
Qed.

Lemma take_In (A : Type) (n : nat) (l : list A) (x : A) :
  In x (take n l) -> In x l.
Proof.
  revert l. induction n as [| n IH]; intros [| a l]; simpl; try tauto.
  intros [H | H]; [now left | right; now apply IH].
Qed.

End NormalizerRanges.

(** X1. Whatever the recommendation, the risks and the priority ratings,
    a report computed from a result that has a score and a confidence has
    every score in its range: overall and confidence in [0,100], risk in
    [12,95], financial and career in [8,98], lifestyle in [8,95], alignment
    in [8,96], all of them integers. *)
Theorem scores_within_bounds
    (pr : Submission.Priorities) (ev : Submission.WorkflowEvaluation)
    (fileName : string) (s c : Q) (r : Submission.ResultsAnalysisData) :
  Submission.score ev = Some s ->
  Submission.confidence ev = Some c ->
  Submission.mapEvalToAnalysis pr ev fileName = JS.Ok r ->
  Range.within 0 100 (Submission.overallScore r) /\
  Range.within 0 100 (Submission.ra_confidence r) /\
  Range.within 12 95 (Submission.cs_risk (Submission.categoryScores r)) /\
  Range.within 8 98 (Submission.cs_financial (Submission.categoryScores r)) /\
  Range.within 8 98 (Submission.cs_career (Submission.categoryScores r)) /\
  Range.within 8 95 (Submission.cs_lifestyle (Submission.categoryScores r)) /\
  Range.within 8 96 (Submission.cs_alignment (Submission.categoryScores r)).
Proof.
  intros Hs Hc. unfold Submission.mapEvalToAnalysis. rewrite Hs, Hc.
  destruct (Submission.risks ev) as [rs |]; [| discriminate].
  destruct (Submission.key_drivers ev) as [ds |]; [| discriminate].
  destruct (Submission.negotiation_targets ev) as [ts |]; [| discriminate].
  cbn [JS.deref JS.bind JS.ToNumber]. intros H. apply Ok_inj in H. subst r.
  cbn [Submission.overallScore Submission.ra_confidence Submission.categoryScores
       Submission.cs_risk Submission.cs_financial Submission.cs_career
       Submission.cs_lifestyle Submission.cs_alignment].
  destruct (riskPenaltyOf_lit (Submission.recommendation ev)) as [p ->].
  rewrite !overall_lit, !confidence_lit.
  repeat match goal with |- _ /\ _ => split end;
    try (apply clamp_round_within; [lia | eexists; reflexivity]);
    (eexists; split; [reflexivity | apply clampTo_within; lia]).
Qed.

Lemma scores_within_bounds_witness :
  exists r,
    Submission.mapEvalToAnalysis Examples.prioritiesFinancial Examples.evalAccept "offer.pdf"
      = JS.Ok r /\
    Range.within 0 100 (Submission.overallScore r) /\
    Range.within 12 95 (Submission.cs_risk (Submission.categoryScores r)) /\
    Range.within 8 98 (Submission.cs_financial (Submission.categoryScores r)).
Proof.
  eexists. split; [reflexivity |].
  pose proof (scores_within_bounds Examples.prioritiesFinancial Examples.evalAccept
                "offer.pdf" (87 # 10) (82 # 100) _ eq_refl eq_refl eq_refl)
    as (H1 & _ & H3 & H4 & _).
  now repeat split.
Defined.

(** X2. The strengths of a report are never empty and never more than six;
    each is the label of a key driver whose impact is positive or neutral,
    or the placeholder shown when there is no such driver. *)
Theorem strengths_between_one_and_six
    (pr : Submission.Priorities) (ev : Submission.WorkflowEvaluation)
    (fileName : string) (ds : list Submission.KeyDriver)
    (r : Submission.ResultsAnalysisData) :
  Submission.key_drivers ev = Some ds ->
  Submission.mapEvalToAnalysis pr ev fileName = JS.Ok r ->
  1 <= length (Submission.strengths r) <= 6 /\
  (forall x : string,
     In x (Submission.strengths r) ->
     (x = "Model did not return positive key drivers." /\
      List.filter Submission.isStrength ds = []) \/
     exists d, In d ds /\ Submission.isStrength d = true /\ Submission.label d = x).
Proof.
  intros Hds. unfold Submission.mapEvalToAnalysis. rewrite Hds.
  destruct (Submission.risks ev) as [rs |]; [| discriminate].
  destruct (Submission.negotiation_targets ev) as [ts |]; [| discriminate].
  cbn [JS.deref JS.bind]. intros H. apply Ok_inj in H. subst r.
  cbn [Submission.strengths].
  set (good := List.filter Submission.isStrength ds).
  destruct (take 6 (List.map Submission.label good)) as [| x0 rest] eqn:Htake.
  - cbn. split; [lia |]. intros x [<- | []]. left. split; [reflexivity |].
    destruct good; [reflexivity | discriminate].
  - cbn [Nat.ltb Nat.leb length]. split.
    + pose proof (length_take (List.map Submission.label good) 6) as Hle.
      rewrite Htake in Hle. cbn [length] in *. lia.
    + intros x Hx. right. rewrite <- Htake in Hx.
      apply take_In in Hx. apply in_map_iff in Hx as (d & Hd & Hin).
      apply filter_In in Hin as [Hin Hgood]. now exists d.
Qed.

Lemma strengths_between_one_and_six_witness :
  exists r,
    Submission.mapEvalToAnalysis Examples.prioritiesFinancial Examples.evalAccept "offer.pdf"
      = JS.Ok r /\
    1 <= length (Submission.strengths r) <= 6.
Proof.
  eexists. split; [reflexivity |].
  exact (proj1 (strengths_between_one_and_six Examples.prioritiesFinancial
                  Examples.evalAccept "offer.pdf" [Examples.strongBase] _
                  eq_refl eq_refl)).
Defined.

(** ** File names without their extension *)

Section ExtensionFacts.
Import JS Submission.

Lemma append_cons (c : ascii) (s t : string) :
  String c s +:+ t = String c (s +:+ t).
Proof. reflexivity. Qed.

Lemma to_lower_dot (c : ascii) :
  Ascii.eqb (to_lower c) "." = Ascii.eqb c ".".
Proof. destruct c as [[] [] [] [] [] [] [] []]; reflexivity. Qed.

Lemma hasDot_lower (s : string) : Range.hasDot (lower s) = Range.hasDot s.
Proof.
  induction s as [| c s IH]; [reflexivity |].
  cbn [lower Range.hasDot]. now rewrite to_lower_dot, IH.
Qed.

Lemma isOfferExt_noDot (r : string) :
  isOfferExt r = true -> Range.hasDot r = false.
Proof.
  unfold isOfferExt. rewrite <- (hasDot_lower r).
  intros H. apply orb_true_iff in H as [H | H];
    [apply orb_true_iff in H as [H | H] |];
    apply String.eqb_eq in H; now rewrite H.
Qed.

Lemma hasDot_append (s t : string) : Range.hasDot (s +:+ "." +:+ t) = true.
Proof.
  induction s as [| c s IH]; [reflexivity |].
  rewrite append_cons. cbn [Range.hasDot]. rewrite IH. apply orb_true_r.
Qed.

End ExtensionFacts.

(** X3. [stripOfferExt] removes one trailing ".pdf", ".doc" or ".docx", in
    any letter case, and nothing else: a name followed by a dot and such an
    extension gives back the name, whatever dots the name has; and every
    other name is returned unchanged. *)
Theorem stripOfferExt_removes_one_extension :
  (forall s ext : string,
     Submission.isOfferExt ext = true ->
     Submission.stripOfferExt (s +:+ "." +:+ ext) = s) /\
  (forall s : string,
     Submission.stripOfferExt s = s \/
     exists ext : string,
       Submission.isOfferExt ext = true /\
       s = Submission.stripOfferExt s +:+ "." +:+ ext).
Proof.
  split.
  - intros s ext Hext. induction s as [| c s IH].
    + change ("" +:+ "." +:+ ext) with (String "." ext).
      cbn [Submission.stripOfferExt]. now rewrite Hext.
    + rewrite append_cons. cbn [Submission.stripOfferExt]. rewrite IH.
      destruct (Submission.isOfferExt (s +:+ "." +:+ ext)) eqn:Hbad;
        [| now rewrite andb_false_r].
      apply isOfferExt_noDot in Hbad. now rewrite hasDot_append in Hbad.
  - induction s as [| c s IH]; [now left |].
    cbn [Submission.stripOfferExt].
    destruct (Ascii.eqb_spec c ".") as [-> | Hc]; cbn [andb].
    + destruct (Submission.isOfferExt s) eqn:Hext.
      * right. exists s. now split.
      * destruct IH as [-> | (ext & Hx & Hs)]; [now left |].
        right. exists ext. split; [assumption |].
        rewrite append_cons. now rewrite <- Hs.
    + destruct IH as [-> | (ext & Hx & Hs)]; [now left |].
      right. exists ext. split; [assumption |].
      rewrite append_cons. now rewrite <- Hs.
Qed.

Lemma stripOfferExt_removes_one_extension_witness :
  Submission.stripOfferExt ("Offer.v2" +:+ "." +:+ "PDF") = "Offer.v2".
Proof.
  apply (proj1 stripOfferExt_removes_one_extension "Offer.v2" "PDF").
  reflexivity.
Defined.

(** ** Submitting: what is checked, what is written *)

Section SubmitFacts.
Import JS Submission SubmitCases.

Lemma find_existsb (offers : list UploadedOffer) :
  existsb isCurrent offers = true ->
  exists cur, List.find isCurrent offers = Some cur /\ In cur offers
              /\ isCurrent cur = true.
Proof.
  induction offers as [| o l IH]; [discriminate |].
  cbn [existsb List.find]. destruct (isCurrent o) eqn:Ho.
  - intros _. exists o. repeat split; [now left | assumption].
  - cbn [orb]. intros H. destruct (IH H) as (cur & Hf & Hin & Hc).
    exists cur. repeat split; [assumption | now right | assumption].
Qed.

End SubmitFacts.

(** X4. A submission with no offer, with no current offer, or whose current
    offer is not a PDF is stopped before anything else happens: the matching
    notification is raised, nothing is written to the session, the page does
    not navigate, and the outcome does not depend on the backend. *)
Theorem invalid_submission_is_blocked
    (api : Submission.Backend) (JSON : Submission.Stringify)
    (offers : list Submission.UploadedOffer) (pr : Submission.Priorities)
    (ss : gmap string string) (ttl : string) :
  SubmitCases.invalid offers ttl ->
  (exists msg : string,
     Submission.toast (Submission.handleSubmit api JSON offers pr ss)
     = Some {| Submission.title := ttl; Submission.description := Submission.Plain msg |}) /\
  Submission.navigate (Submission.handleSubmit api JSON offers pr ss) = None /\
  Submission.session (Submission.handleSubmit api JSON offers pr ss) = ss /\
  (forall api' : Submission.Backend,
     Submission.handleSubmit api' JSON offers pr ss
     = Submission.handleSubmit api JSON offers pr ss).
Proof.
  intros Hinv. unfold Submission.handleSubmit.
  destruct Hinv as [-> | Hne Hex | cur Hfind Hpdf].
  - cbn. repeat split. now eexists.
  - destruct offers as [| o l]; [contradiction |].
    cbn [length Nat.eqb]. rewrite Hex. cbn. repeat split. now eexists.
  - destruct (find_current_some _ _ Hfind) as [Hlen Hex].
    rewrite Hlen, Hex, Hfind, Hpdf. cbn. repeat split. now eexists.
Qed.

Lemma invalid_submission_is_blocked_witness :
  Submission.session
    (Submission.handleSubmit (Examples.backendReturning Examples.evalAccept)
       Examples.tagOnly
       [ {| Submission.id := "a"; Submission.file := {| Submission.name := "offer.docx" |};
            Submission.isCurrent := true |} ]
       Examples.prioritiesFinancial {[ "offergo-demo-user" := "demo-bob" ]})
  = {[ "offergo-demo-user" := "demo-bob" ]}.
Proof.
  apply (invalid_submission_is_blocked _ _ _ _ _ "PDF required").
  eapply SubmitCases.not_a_pdf; reflexivity.
Defined.

(** X5. When the ingest call or the evaluate call fails (the request is
    rejected, the status is not ok, the body cannot be read, or the ingest
    answer has no offer id), the submission ends with the "Analysis failed"
    notification carrying that error, without navigating and without writing
    anything to the session. *)
Theorem upstream_failure_writes_nothing
    (api : Submission.Backend) (JSON : Submission.Stringify)
    (offers : list Submission.UploadedOffer) (pr : Submission.Priorities)
    (ss : gmap string string) (cur : Submission.UploadedOffer) (e : JS.exn) :
  List.find Submission.isCurrent offers = Some cur ->
  Submission.endsWith (JS.lower (Submission.name (Submission.file cur))) ".pdf" = true ->
  SubmitCases.upstreamFailure api pr cur e ->
  Submission.toast (Submission.handleSubmit api JSON offers pr ss)
    = Some {| Submission.title := "Analysis failed";
              Submission.description := Submission.MessageOf e |} /\
  Submission.navigate (Submission.handleSubmit api JSON offers pr ss) = None /\
  Submission.session (Submission.handleSubmit api JSON offers pr ss) = ss.
Proof.
  intros Hfind Hpdf Hfail.
  destruct (find_current_some _ _ Hfind) as [Hlen Hex].
  unfold Submission.handleSubmit. rewrite Hlen, Hex, Hfind, Hpdf. cbn [negb].
  unfold Submission.submitCurrent, Submission.andThen, Submission.await,
    Submission.throw, Submission.ret.
  destruct Hfail as
    [ e H1 | resp H1 H2 | resp e H1 H2 H3 | resp ij H1 H2 H3 H4
    | resp ij oid e H1 H2 H3 H4 H5 | resp ij oid er H1 H2 H3 H4 H5 H6
    | resp ij oid er e H1 H2 H3 H4 H5 H6 H7 ];
    rewrite ?H1, ?H2, ?H3, ?H4, ?H5, ?H6, ?H7; cbn [negb];
    rewrite ?H2, ?H3, ?H4, ?H5, ?H6, ?H7; cbn [negb];
    rewrite ?H3, ?H4, ?H5, ?H6, ?H7; cbn [negb];
    rewrite ?H4, ?H5, ?H6, ?H7; cbn [negb];
    rewrite ?H5, ?H6, ?H7; cbn [negb]; rewrite ?H6, ?H7; cbn [negb]; rewrite ?H7;
    now repeat split.
Qed.

Lemma upstream_failure_writes_nothing_witness :
  Submission.toast
    (Submission.handleSubmit
       {| Submission.ingest_pdf := fun _ _ =>
            JS.Ok {| Submission.ok := false; Submission.text := "413 too large";
                     Submission.json := JS.Throw JS.SyntaxError |};
          Submission.evaluate := fun _ => JS.Throw JS.TypeError;
          Submission.market_snapshot := fun _ => JS.Throw JS.TypeError |}
       Examples.tagOnly [Examples.offerPdf] Examples.prioritiesFinancial ∅)
  = Some {| Submission.title := "Analysis failed";
            Submission.description := Submission.MessageOf (JS.Error "413 too large") |}.
Proof.
  eapply (upstream_failure_writes_nothing _ Examples.tagOnly [Examples.offerPdf]
            Examples.prioritiesFinancial ∅ Examples.offerPdf);
    [reflexivity | reflexivity |].
  eapply (SubmitCases.ingest_not_ok _ _ _
            {| Submission.ok := false; Submission.text := "413 too large";
               Submission.json := JS.Throw JS.SyntaxError |});
    reflexivity.
Defined.

(** X6. A market-snapshot request that settles cannot change the outcome
    of a submission, however it settles (a snapshot, an error status, an
    unreadable body, a rejected request): two backends whose requests
    settle and that answer the ingest and evaluate calls alike lead to the
    same notification and the same navigation, and to sessions that differ
    at most under "offergo-market-snapshot". So a failed market request
    never fails the submission. A market request that never settles is not
    described: the submission then stays at that [await], before any
    write. *)
Theorem market_snapshot_is_optional
    (api api' : Submission.Backend) (JSON : Submission.Stringify)
    (offers : list Submission.UploadedOffer) (pr : Submission.Priorities)
    (ss : gmap string string) :
  (forall f p, Submission.ingest_pdf api f p = Submission.ingest_pdf api' f p) ->
  (forall i, Submission.evaluate api i = Submission.evaluate api' i) ->
  Submission.toast (Submission.handleSubmit api JSON offers pr ss)
    = Submission.toast (Submission.handleSubmit api' JSON offers pr ss) /\
  Submission.navigate (Submission.handleSubmit api JSON offers pr ss)
    = Submission.navigate (Submission.handleSubmit api' JSON offers pr ss) /\
  (forall k : string,
     k <> "offergo-market-snapshot" ->
     Submission.session (Submission.handleSubmit api JSON offers pr ss) !! k
     = Submission.session (Submission.handleSubmit api' JSON offers pr ss) !! k).
Proof.
  intros Hing Hev. unfold Submission.handleSubmit.
  destruct (Nat.eqb (length offers) 0); [now repeat split |].
  destruct (negb (existsb Submission.isCurrent offers)); [now repeat split |].
  destruct (List.find Submission.isCurrent offers) as [cur |]; [| now repeat split].
  destruct (negb (Submission.endsWith _ _)); [now repeat split |].
  unfold Submission.submitCurrent, Submission.andThen, Submission.await,
    Submission.throw, Submission.ret, Submission.setItem.
  rewrite <- Hing.
  destruct (Submission.ingest_pdf api (Submission.file cur) pr) as [resp |];
    [| now repeat split].
  destruct (Submission.ok resp); cbn [negb]; [| now repeat split].
  destruct (Submission.json resp) as [ij |]; [| now repeat split].
  destruct (Submission.truthyId (Submission.offer_id ij)) as [oid |];
    [| now repeat split].
  rewrite <- Hev.
  destruct (Submission.evaluate api oid) as [er |]; [| now repeat split].
  destruct (Submission.ok er); cbn [negb]; [| now repeat split].
  destruct (Submission.json er) as [ev |]; [| now repeat split].
  destruct (Submission.mapEvalToAnalysis pr ev _) as [analysis |];
    [| now repeat split].
  destruct (Submission.market_snapshot api oid) as [mr |];
    [destruct (Submission.ok mr); [destruct (Submission.json mr) |] |];
    (destruct (Submission.market_snapshot api' oid) as [mr' |];
     [destruct (Submission.ok mr'); [destruct (Submission.json mr') |] |]);
    cbn [Submission.toast Submission.navigate Submission.session];
    (split; [reflexivity |]; split; [reflexivity |]);
    intros k Hk;
    now rewrite ?(lookup_insert_ne _ "offergo-market-snapshot") by congruence.
Qed.

Lemma market_snapshot_is_optional_witness :
  Submission.navigate
    (Submission.handleSubmit (Examples.backendReturning Examples.evalAccept)
       Examples.tagOnly [Examples.offerPdf] Examples.prioritiesFinancial ∅)
  = Submission.navigate
      (Submission.handleSubmit (Examples.backendWithMarket Examples.evalAccept)
         Examples.tagOnly [Examples.offerPdf] Examples.prioritiesFinancial ∅).
Proof.
  apply (market_snapshot_is_optional
           (Examples.backendReturning Examples.evalAccept)
           (Examples.backendWithMarket Examples.evalAccept));
    reflexivity.
Defined.

(** X7. However a submission ends, it leaves every session key other than
    its own five as it found it. *)
Theorem submission_touches_only_its_keys
    (api : Submission.Backend) (JSON : Submission.Stringify)
    (offers : list Submission.UploadedOffer) (pr : Submission.Priorities)
    (ss : gmap string string) (k : string) :
  ~ In k SubmitCases.sessionKeys ->
  Submission.session (Submission.handleSubmit api JSON offers pr ss) !! k = ss !! k.
Proof.
  intros Hk.
  assert (H1 : k <> "offergo-submission") by (intros ->; apply Hk; cbn; tauto).
  assert (H2 : k <> "offergo-demo-analysis") by (intros ->; apply Hk; cbn; tauto).
  assert (H3 : k <> "offergo-workflow-eval") by (intros ->; apply Hk; cbn; tauto).
  assert (H4 : k <> "offergo-ingest-parsed") by (intros ->; apply Hk; cbn; tauto).
  assert (H5 : k <> "offergo-market-snapshot") by (intros ->; apply Hk; cbn; tauto).
  unfold Submission.handleSubmit, Submission.blocked.
  destruct (Nat.eqb (length offers) 0); [reflexivity |].
  destruct (negb (existsb Submission.isCurrent offers)); [reflexivity |].
  destruct (List.find Submission.isCurrent offers) as [cur |]; [| reflexivity].
  destruct (negb (Submission.endsWith _ _)); [reflexivity |].
  unfold Submission.submitCurrent, Submission.andThen, Submission.await,
    Submission.throw, Submission.ret, Submission.setItem.
  destruct (Submission.ingest_pdf api (Submission.file cur) pr) as [resp |];
    [| reflexivity].
  destruct (Submission.ok resp); cbn [negb]; [| reflexivity].
  destruct (Submission.json resp) as [ij |]; [| reflexivity].
  destruct (Submission.truthyId (Submission.offer_id ij)) as [oid |];
    [| reflexivity].
  destruct (Submission.evaluate api oid) as [er |]; [| reflexivity].
  destruct (Submission.ok er); cbn [negb]; [| reflexivity].
  destruct (Submission.json er) as [ev |]; [| reflexivity].
  destruct (Submission.mapEvalToAnalysis pr ev _) as [analysis |];
    [| cbn; now rewrite lookup_insert_ne by congruence].
  destruct (Submission.market_snapshot api oid) as [mr |];
    [destruct (Submission.ok mr); [destruct (Submission.json mr) |] |];
    cbn [Submission.session]; now rewrite !lookup_insert_ne by congruence.
Qed.

Lemma submission_touches_only_its_keys_witness :
  Submission.session
    (Submission.handleSubmit (Examples.backendWithMarket Examples.evalAccept)
       Examples.tagOnly [Examples.offerPdf] Examples.prioritiesFinancial
       {[ "offergo-demo-user" := "demo-bob" ]}) !! "offergo-demo-user"
  = ({[ "offergo-demo-user" := "demo-bob" ]} : gmap string string) !! "offergo-demo-user".
Proof.
  apply submission_touches_only_its_keys.
  cbn. intros H. repeat (destruct H as [H | H]; [discriminate |]). exact H.
Defined.

(** X8. When the evaluation has arrived and the normalizer throws, the new
    submission snapshot has already been written: the session is the old one
    with "offergo-submission" replaced, so whatever analysis, evaluation,
    ingestion fields and market snapshot an earlier run stored stay beside
    the new snapshot. *)
Theorem failed_normalization_keeps_new_snapshot
    (api : Submission.Backend) (JSON : Submission.Stringify)
    (offers : list Submission.UploadedOffer) (pr : Submission.Priorities)
    (ss : gmap string string) (cur : Submission.UploadedOffer)
    (ingestResp : Submission.Response Submission.IngestResponse)
    (ij : Submission.IngestResponse) (offerId : Q)
    (evalResp : Submission.Response Submission.WorkflowEvaluation)
    (ev : Submission.WorkflowEvaluation) (e : JS.exn) :
  List.find Submission.isCurrent offers = Some cur ->
  Submission.endsWith (JS.lower (Submission.name (Submission.file cur))) ".pdf" = true ->
  Submission.ingest_pdf api (Submission.file cur) pr = JS.Ok ingestResp ->
  Submission.ok ingestResp = true ->
  Submission.json ingestResp = JS.Ok ij ->
  Submission.truthyId (Submission.offer_id ij) = Some offerId ->
  Submission.evaluate api offerId = JS.Ok evalResp ->
  Submission.ok evalResp = true ->
  Submission.json evalResp = JS.Ok ev ->
  Submission.mapEvalToAnalysis pr ev (Submission.name (Submission.file cur))
    = JS.Throw e ->
  Submission.session (Submission.handleSubmit api JSON offers pr ss)
  = <["offergo-submission" :=
        Submission.stringify_submission JSON (SubmitCases.snapshotOf offers pr offerId)]> ss.
Proof.
  intros Hfind Hpdf Hing Hok Hij Hid Hev Hok' Hevj Hthrow.
  destruct (find_current_some _ _ Hfind) as [Hlen Hex].
  unfold Submission.handleSubmit. rewrite Hlen, Hex, Hfind, Hpdf. cbn [negb].
  unfold Submission.submitCurrent, Submission.andThen, Submission.await,
    Submission.throw, Submission.ret, Submission.setItem.
  rewrite Hing, Hok, Hij, Hid, Hev, Hok', Hevj. cbn [negb].
  now rewrite Hthrow.
Qed.

Lemma failed_normalization_keeps_new_snapshot_witness :
  Submission.session
    (Submission.handleSubmit (Examples.backendReturning Examples.evalNoRisks)
       Examples.tagOnly [Examples.offerPdf] Examples.prioritiesFinancial
       {[ "offergo-demo-analysis" := "{earlier analysis}" ]})
  = <["offergo-submission" := "{submission}"]>
      {[ "offergo-demo-analysis" := "{earlier analysis}" ]}.
Proof.
  eapply (failed_normalization_keeps_new_snapshot
            (Examples.backendReturning Examples.evalNoRisks) Examples.tagOnly
            [Examples.offerPdf] Examples.prioritiesFinancial _ Examples.offerPdf
            _ _ 7%Q _ Examples.evalNoRisks JS.TypeError);
    reflexivity.
Defined.

(** X9. An offer list built by uploads, removals and selections, when not
    empty, always has its current offer: of the local checks of a
    submission only the PDF check can stop it, never the request to upload
    or to select. *)
Theorem offer_list_passes_selection_check (l : list Submission.UploadedOffer) :
  OfferList.reachable l -> l <> [] ->
  (exists cur : Submission.UploadedOffer,
     List.find Submission.isCurrent l = Some cur /\ In cur l
     /\ Submission.isCurrent cur = true) /\
  (forall ttl : string, SubmitCases.invalid l ttl -> ttl = "PDF required").
Proof.
  intros Hreach Hne.
  apply reachable_offersInv in Hreach as [_ Hone]. specialize (Hone Hne).
  assert (Hex : existsb Submission.isCurrent l = true).
  { destruct (existsb Submission.isCurrent l) eqn:E; [reflexivity |].
    apply existsb_current_false in E. lia. }
  split; [now apply find_existsb |].
  intros ttl [-> | _ Hno | cur _ _]; [contradiction | congruence | reflexivity].
Qed.

Lemma offer_list_passes_selection_check_witness :
  exists cur : Submission.UploadedOffer,
    List.find Submission.isCurrent
      (Submission.removeOffer "a"
         (Submission.handleFileUpload (Some {| Submission.name := "other.pdf" |}) "b"
            (Submission.handleFileUpload (Some {| Submission.name := "Offer.PDF" |}) "a" [])))
    = Some cur /\ Submission.name (Submission.file cur) = "other.pdf".
Proof.
  assert (Hreach : OfferList.reachable
            (Submission.removeOffer "a"
               (Submission.handleFileUpload (Some {| Submission.name := "other.pdf" |}) "b"
                  (Submission.handleFileUpload
                     (Some {| Submission.name := "Offer.PDF" |}) "a" [])))).
  { apply (OfferList.reach_remove _
             {| Submission.id := "a"; Submission.file := {| Submission.name := "Offer.PDF" |};
                Submission.isCurrent := true |}).
    - apply OfferList.reach_upload.
      + apply OfferList.reach_upload; [apply OfferList.reach_init | intros []].
      + cbn. intros [H | []]. discriminate.
    - left; reflexivity. }
  destruct (offer_list_passes_selection_check _ Hreach ltac:(discriminate))
    as [(cur & Hfind & _ & _) _].
  exists cur. split; [exact Hfind |].
  cbn in Hfind. now injection Hfind as <-.
Defined.

(** ** The offer list: removing and selecting *)

Section OfferOpsFacts.
Import Submission OfferList.

Lemma ids_filter (i : string) (l : list UploadedOffer) :
  ids (List.filter (fun o => negb (String.eqb (id o) i)) l)
  = List.filter (fun j => negb (String.eqb j i)) (ids l).
Proof.
  induction l as [| a l IH]; [reflexivity |].
  cbn [List.filter ids List.map]. fold (ids l).
  destruct (negb (String.eqb (id a) i)); cbn [ids List.map]; fold (ids l);
    now rewrite <- IH.
Qed.

Lemma removeOffer_same_ids_files (i : string) (l : list UploadedOffer) :
  let rest := List.filter (fun o => negb (String.eqb (id o) i)) l in
  ids (removeOffer i l) = ids rest /\
  List.map file (removeOffer i l) = List.map file rest.
Proof.
  cbv zeta. unfold removeOffer.
  destruct (_ && _); [| now split].
  destruct (List.filter _ l) as [| o rest]; now split.
Qed.

Lemma NoDup_ids_inj (l : list UploadedOffer) (a b : UploadedOffer) :
  List.NoDup (ids l) -> In a l -> In b l -> id a = id b -> a = b.
Proof.
  induction l as [| x l IH]; [intros _ [] |].
  cbn [ids List.map]. fold (ids l). intros Hnd Ha Hb Hid.
  inversion Hnd as [| y ys Hnotin Hnd']; subst.
  destruct Ha as [-> | Ha], Hb as [-> | Hb].
  - reflexivity.
  - exfalso. apply Hnotin. rewrite Hid. now apply in_map.
  - exfalso. apply Hnotin. rewrite <- Hid. now apply in_map.
  - now apply IH.
Qed.

Lemma currentCount_zero (l : list UploadedOffer) (x : UploadedOffer) :
  currentCount l = 0 -> In x l -> isCurrent x = false.
Proof.
  intros H0 Hin. apply existsb_current_false in H0.
  destruct (isCurrent x) eqn:Hx; [| reflexivity].
  assert (existsb isCurrent l = true) by (apply existsb_exists; now exists x).
  congruence.
Qed.

(** In a list with one current entry [o], every other entry is not
    current. *)
Lemma only_current (l : list UploadedOffer) (o x : UploadedOffer) :
  currentCount l = 1 -> In o l -> isCurrent o = true ->
  In x l -> x <> o -> isCurrent x = false.
Proof.
  intros Hone Ho Hcur Hx Hne.
  apply in_split in Ho as (l1 & l2 & ->).
  rewrite currentCount_app, currentCount_cons, Hcur in Hone.
  apply in_app_or in Hx as [Hx | [Hx | Hx]].
  - apply (currentCount_zero l1); [lia | assumption].
  - congruence.
  - apply (currentCount_zero l2); [lia | assumption].
Qed.

Lemma find_selectCurrent (l : list UploadedOffer) (o : UploadedOffer) :
  List.NoDup (ids l) -> In o l ->
  List.find isCurrent (selectCurrent (id o) l) = Some (markCurrent o).
Proof.
  induction l as [| a l IH]; [intros _ [] |].
  intros Hnd Hin. rewrite selectCurrent_cons. cbn [List.find isCurrent].
  destruct (String.eqb_spec (id a) (id o)) as [E | E].
  - assert (a = o) as ->
      by (apply (NoDup_ids_inj (a :: l)); [assumption | now left | assumption | assumption]).
    reflexivity.
  - inversion Hnd as [| y ys Hnotin Hnd']; subst.
    destruct Hin as [-> | Hin]; [congruence |]. now apply IH.
Qed.

End OfferOpsFacts.

(** X10. Removing an offer removes every entry with that id and nothing
    else: the ids of the list afterwards are the other ids in their old
    order, the id removed is gone, and the files of the offers that stay are
    untouched. *)
Theorem removeOffer_removes_only_that_id
    (i : string) (l : list Submission.UploadedOffer) :
  OfferList.ids (Submission.removeOffer i l)
    = List.filter (fun j => negb (String.eqb j i)) (OfferList.ids l) /\
  ~ In i (OfferList.ids (Submission.removeOffer i l)) /\
  List.map Submission.file (Submission.removeOffer i l)
    = List.map Submission.file
        (List.filter (fun o => negb (String.eqb (Submission.id o) i)) l).
Proof.
  destruct (removeOffer_same_ids_files i l) as [Hids Hfiles].
  rewrite Hids, ids_filter. repeat split; [| exact Hfiles].
  intros Hin. apply filter_In in Hin as [_ Hne].
  now rewrite String.eqb_refl in Hne.
Qed.

(** X11. In an offer list built by uploads, removals and selections:
    removing an offer that is not the current one changes nothing else, and
    removing the current offer makes the first remaining offer the current
    one and leaves the others as they are. *)
Theorem removing_the_current_promotes_the_first
    (l : list Submission.UploadedOffer) (o : Submission.UploadedOffer) :
  OfferList.reachable l -> In o l ->
  let rest :=
    List.filter (fun x => negb (String.eqb (Submission.id x) (Submission.id o))) l in
  (Submission.isCurrent o = false -> Submission.removeOffer (Submission.id o) l = rest) /\
  (Submission.isCurrent o = true ->
   Submission.removeOffer (Submission.id o) l
   = match rest with
     | [] => []
     | first :: others => Submission.markCurrent first :: others
     end).
Proof.
  intros Hreach Hin. cbv zeta.
  apply reachable_offersInv in Hreach as [Hnd Hone].
  assert (Hcount : OfferList.currentCount l = 1)
    by (apply Hone; intros ->; destruct Hin).
  unfold Submission.removeOffer.
  set (rest := List.filter _ l). split; intros Hcur.
  - assert (Hex : existsb Submission.isCurrent l = true).
    { destruct (existsb Submission.isCurrent l) eqn:E; [reflexivity |].
      apply existsb_current_false in E. lia. }
    apply existsb_exists in Hex as (c & Hc & Hccur).
    assert (Hrest : existsb Submission.isCurrent rest = true).
    { apply existsb_exists. exists c. split; [| assumption].
      apply filter_In. split; [assumption |].
      apply negb_true_iff, String.eqb_neq. intros Hid.
      assert (c = o) by (now apply (NoDup_ids_inj l)). congruence. }
    rewrite Hrest. now rewrite andb_false_r.
  - assert (Hrest : existsb Submission.isCurrent rest = false).
    { apply not_true_iff_false. intros Hex.
      apply existsb_exists in Hex as (x & Hx & Hxcur).
      apply filter_In in Hx as [Hx Hne].
      apply negb_true_iff, String.eqb_neq in Hne.
      assert (Submission.isCurrent x = false)
        by (apply (only_current l o); [assumption .. | congruence]).
      congruence. }
    rewrite Hrest. destruct rest as [| first others]; reflexivity.
Qed.

Lemma removing_the_current_promotes_the_first_witness :
  Submission.removeOffer "a"
    (Submission.handleFileUpload (Some {| Submission.name := "other.pdf" |}) "b"
       (Submission.handleFileUpload (Some {| Submission.name := "Offer.PDF" |}) "a" []))
  = [ {| Submission.id := "b"; Submission.file := {| Submission.name := "other.pdf" |};
         Submission.isCurrent := true |} ].
Proof.
  apply (proj2 (removing_the_current_promotes_the_first
                  (Submission.handleFileUpload (Some {| Submission.name := "other.pdf" |}) "b"
                     (Submission.handleFileUpload
                        (Some {| Submission.name := "Offer.PDF" |}) "a" []))
                  Examples.offerPdf
                  ltac:(apply OfferList.reach_upload;
                        [apply OfferList.reach_upload;
                         [apply OfferList.reach_init | intros []]
                        | cbn; intros [H | []]; discriminate])
                  ltac:(left; reflexivity))).
  reflexivity.
Defined.

(** X12. In an offer list built by uploads, removals and selections,
    selecting an offer of the list makes that offer the current one; a
    selection never changes the ids, the order or the files, and selecting
    the same offer again changes nothing. *)
Theorem selecting_makes_it_the_current
    (l : list Submission.UploadedOffer) (o : Submission.UploadedOffer) :
  OfferList.reachable l -> In o l ->
  List.find Submission.isCurrent (Submission.selectCurrent (Submission.id o) l)
    = Some (Submission.markCurrent o) /\
  OfferList.ids (Submission.selectCurrent (Submission.id o) l) = OfferList.ids l /\
  List.map Submission.file (Submission.selectCurrent (Submission.id o) l)
    = List.map Submission.file l /\
  Submission.selectCurrent (Submission.id o)
    (Submission.selectCurrent (Submission.id o) l)
    = Submission.selectCurrent (Submission.id o) l.
Proof.
  intros Hreach Hin. apply reachable_offersInv in Hreach as [Hnd _].
  split; [now apply find_selectCurrent |].
  split; [apply ids_selectCurrent |].
  unfold Submission.selectCurrent. rewrite !List.map_map. now split.
Qed.

Lemma selecting_makes_it_the_current_witness :
  List.find Submission.isCurrent
    (Submission.selectCurrent "b"
       (Submission.handleFileUpload (Some {| Submission.name := "other.pdf" |}) "b"
          (Submission.handleFileUpload (Some {| Submission.name := "Offer.PDF" |}) "a" [])))
  = Some {| Submission.id := "b"; Submission.file := {| Submission.name := "other.pdf" |};
            Submission.isCurrent := true |}.
Proof.
  apply (proj1 (selecting_makes_it_the_current
                  (Submission.handleFileUpload (Some {| Submission.name := "other.pdf" |}) "b"
                     (Submission.handleFileUpload
                        (Some {| Submission.name := "Offer.PDF" |}) "a" []))
                  Examples.otherPdf
                  ltac:(apply OfferList.reach_upload;
                        [apply OfferList.reach_upload;
                         [apply OfferList.reach_init | intros []]
                        | cbn; intros [H | []]; discriminate])
                  ltac:(right; left; reflexivity))).
Defined.

(** ** The profile hook *)

Section HookFacts.
Import Profile UseProfile.
Variable JSON_parse : string -> option ProfileData.
Variable JSON_stringify : ProfileData -> string.

Lemma mirrors_persist (ls : gmap string string) (p : ProfileData)
    (st : gmap string string) :
  (forall k : string, k <> STORAGE_KEY -> st !! k = ls !! k) ->
  mirrors JSON_stringify ls
    (persist JSON_stringify {| profile := p; localStorage := st |}).
Proof.
  intros Hother. split; cbn.
  - apply lookup_insert_eq.
  - intros k Hk. rewrite lookup_insert_ne by congruence. now apply Hother.
Qed.

Lemma mirrors_step (ls : gmap string string) (h : Hook) (op : Op) :
  mirrors JSON_stringify ls h -> mirrors JSON_stringify ls (step JSON_stringify h op).
Proof.
  intros [_ Hother]. destruct op as [patch |]; cbn [step];
    unfold updateProfile, completeProfile; apply mirrors_persist;
    intros k Hk; rewrite lookup_insert_ne by congruence; now apply Hother.
Qed.

Lemma mirrors_fold (ls : gmap string string) (ops : list Op) (h : Hook) :
  mirrors JSON_stringify ls h ->
  mirrors JSON_stringify ls (List.fold_left (step JSON_stringify) ops h).
Proof.
  revert h. induction ops as [| op ops IH]; intros h Hh; [assumption |].
  cbn [List.fold_left]. apply IH. now apply mirrors_step.
Qed.

Lemma mirrors_after (ls : gmap string string) (ops : list Op) :
  mirrors JSON_stringify ls (after JSON_parse JSON_stringify ls ops).
Proof.
  unfold after. apply mirrors_fold. unfold mount. now apply mirrors_persist.
Qed.

End HookFacts.

(** X13. Once the profile hook has mounted, after any sequence of updates
    and completions the text stored under "offergo-profile" is the
    serialisation of the profile the hook holds, and every other key of the
    local storage is as it was found. *)
Theorem stored_profile_mirrors_state
    (JSON_parse : string -> option Profile.ProfileData)
    (JSON_stringify : Profile.ProfileData -> string)
    (ls : gmap string string) (ops : list UseProfile.Op) :
  UseProfile.localStorage (UseProfile.after JSON_parse JSON_stringify ls ops)
    !! "offergo-profile"
  = Some (JSON_stringify
            (UseProfile.profile (UseProfile.after JSON_parse JSON_stringify ls ops))) /\
  (forall k : string,
     k <> "offergo-profile" ->
     UseProfile.localStorage (UseProfile.after JSON_parse JSON_stringify ls ops) !! k
     = ls !! k).
Proof.
  exact (mirrors_after JSON_parse JSON_stringify ls ops).
Qed.

(** X14. Reloading restores the profile: if the serialised profile reads
    back as itself, mounting the hook again on the storage it left gives the
    same profile and the same storage. *)
Theorem reload_restores_profile
    (JSON_parse : string -> option Profile.ProfileData)
    (JSON_stringify : Profile.ProfileData -> string)
    (ls : gmap string string) (ops : list UseProfile.Op) :
  let h := UseProfile.after JSON_parse JSON_stringify ls ops in
  JSON_stringify (UseProfile.profile h) <> "" ->
  JSON_parse (JSON_stringify (UseProfile.profile h)) = Some (UseProfile.profile h) ->
  UseProfile.mount JSON_parse JSON_stringify (UseProfile.localStorage h) = h.
Proof.
  cbv zeta. intros Hne Hround.
  destruct (mirrors_after JSON_parse JSON_stringify ls ops) as [Hkey _].
  destruct (UseProfile.after JSON_parse JSON_stringify ls ops) as [p st].
  cbn in *. unfold UseProfile.mount, UseProfile.persist, Profile.loadProfile.
  cbn. unfold Profile.STORAGE_KEY in *. rewrite Hkey, Hround.
  destruct (String.eqb_spec (JSON_stringify p) ""); [contradiction |].
  cbn. f_equal. now apply insert_id.
Qed.

Lemma reload_restores_profile_witness :
  UseProfile.mount Samples.readName Samples.nameOnly
    (UseProfile.localStorage
       (UseProfile.after Samples.readName Samples.nameOnly ∅
          [UseProfile.Update (Samples.renameTo "Ann")]))
  = UseProfile.after Samples.readName Samples.nameOnly ∅
      [UseProfile.Update (Samples.renameTo "Ann")].
Proof.
  apply (reload_restores_profile Samples.readName Samples.nameOnly ∅
           [UseProfile.Update (Samples.renameTo "Ann")]).
  - vm_compute. discriminate.
  - reflexivity.
Defined.

(** X15. The first load heals the storage: when nothing is stored under
    "offergo-profile", or the text stored there cannot be parsed, the hook
    starts from the empty profile and overwrites the stored text with the
    empty profile's. *)
Theorem first_load_stores_empty_profile
    (JSON_parse : string -> option Profile.ProfileData)
    (JSON_stringify : Profile.ProfileData -> string)
    (ls : gmap string string) :
  (ls !! "offergo-profile" = None \/
   exists raw : string, ls !! "offergo-profile" = Some raw /\ JSON_parse raw = None) ->
  UseProfile.profile (UseProfile.mount JSON_parse JSON_stringify ls)
    = Profile.emptyProfile /\
  UseProfile.localStorage (UseProfile.mount JSON_parse JSON_stringify ls)
    !! "offergo-profile" = Some (JSON_stringify Profile.emptyProfile).
Proof.
  intros Hstored.
  assert (Hload : Profile.loadProfile JSON_parse ls = Profile.emptyProfile).
  { unfold Profile.loadProfile, Profile.STORAGE_KEY.
    destruct Hstored as [-> | (raw & -> & ->)]; [reflexivity |].
    now destruct (negb (String.eqb raw "")). }
  unfold UseProfile.mount, UseProfile.persist. cbn. rewrite Hload.
  split; [reflexivity | apply lookup_insert_eq].
Qed.

Lemma first_load_stores_empty_profile_witness :
  UseProfile.localStorage
    (UseProfile.mount Samples.readDemo Samples.demoText {[ "offergo-profile" := "{" ]})
    !! "offergo-profile" = Some "{profile}".
Proof.
  apply (first_load_stores_empty_profile Samples.readDemo Samples.demoText
           {[ "offergo-profile" := "{" ]}).
  right. exists "{". split; reflexivity.
Defined.

Section PatchFacts.
Import Profile UseProfile.

Lemma spread_overlay (p : ProfileData) (a b : ProfilePatch) :
  spread (spread p a) b = spread p (overlay a b).
Proof.
  destruct a as [a1 a2 a3 a4 a5 a6 a7 a8 a9], b as [b1 b2 b3 b4 b5 b6 b7 b8 b9].
  unfold spread, overlay; cbn.
  destruct b1, b2, b3, b4, b5, b6, b7, b8, b9; reflexivity.
Qed.

Lemma spread_noPatch (p : ProfileData) : spread p noPatch = p.
Proof. now destruct p. Qed.

End PatchFacts.

(** X16. Updates of the profile compose: two updates in a row leave the
    hook, state and storage, as the single update by the second patch laid
    over the first; an update by the empty patch changes no field; and
    completing the profile is the update that sets [completed], so doing it
    twice is doing it once. *)
Theorem profile_updates_compose
    (JSON_stringify : Profile.ProfileData -> string) (h : UseProfile.Hook)
    (a b : UseProfile.ProfilePatch) :
  UseProfile.updateProfile JSON_stringify b (UseProfile.updateProfile JSON_stringify a h)
    = UseProfile.updateProfile JSON_stringify (UseProfile.overlay a b) h /\
  UseProfile.profile (UseProfile.updateProfile JSON_stringify UseProfile.noPatch h)
    = UseProfile.profile h /\
  UseProfile.completeProfile JSON_stringify h
    = UseProfile.updateProfile JSON_stringify
        {| UseProfile.p_name := None; UseProfile.p_city := None;
           UseProfile.p_country := None; UseProfile.p_nationality := None;
           UseProfile.p_monthlyExpenses := None; UseProfile.p_ownedAsset := None;
           UseProfile.p_debts := None; UseProfile.p_resumeName := None;
           UseProfile.p_completed := Some true |} h /\
  UseProfile.completeProfile JSON_stringify (UseProfile.completeProfile JSON_stringify h)
    = UseProfile.completeProfile JSON_stringify h.
Proof.
  destruct h as [p st].
  unfold UseProfile.updateProfile, UseProfile.completeProfile, UseProfile.persist.
  cbn [UseProfile.profile UseProfile.localStorage].
  repeat match goal with |- _ /\ _ => split end.
  - rewrite spread_overlay. f_equal. now rewrite !insert_insert_eq.
  - apply spread_noPatch.
  - reflexivity.
  - cbn. f_equal. now rewrite !insert_insert_eq.
Qed.

(** ** Demo login and logout *)

Section DemoFacts.
Import DemoUsers.

Lemma logout_session (ss : gmap string string) (k : string) :
  delete DEMO_SESSION_KEY
    (delete "offergo-demo-analysis" (delete "offergo-submission" ss)) !! k
  = if decide (k = DEMO_SESSION_KEY \/ k = "offergo-demo-analysis"
               \/ k = "offergo-submission")
    then None else ss !! k.
Proof.
  case_decide as Hk.
  - destruct Hk as [-> | [-> | ->]]; now simplify_map_eq.
  - rewrite !lookup_delete_ne by (intros <-; apply Hk; tauto). reflexivity.
Qed.

End DemoFacts.

(** X17. Demo login and logout: after a login the active demo user is
    "demo-bob" and after a logout there is none, whatever was stored; a
    logout undoes a login completely, so logging in and out leaves the
    storage exactly as a logout alone; and a second logout changes
    nothing. *)
Theorem demo_login_logout_laws
    (JSON_stringify : Profile.ProfileData -> string) (st : DemoUsers.Storage) :
  DemoUsers.getActiveDemoUserId (DemoUsers.loginDemoUser JSON_stringify st)
    = Some "demo-bob" /\
  DemoUsers.getActiveDemoUserId (DemoUsers.logoutDemoUser st) = None /\
  DemoUsers.logoutDemoUser (DemoUsers.loginDemoUser JSON_stringify st)
    = DemoUsers.logoutDemoUser st /\
  DemoUsers.logoutDemoUser (DemoUsers.logoutDemoUser st) = DemoUsers.logoutDemoUser st.
Proof.
  destruct st as [ls ss].
  unfold DemoUsers.getActiveDemoUserId, DemoUsers.loginDemoUser,
    DemoUsers.logoutDemoUser.
  cbn [DemoUsers.localStorage DemoUsers.sessionStorage].
  repeat match goal with |- _ /\ _ => split end.
  - apply lookup_insert_eq.
  - apply lookup_delete_eq.
  - f_equal.
    + apply delete_insert_eq.
    + apply map_eq. intros k. rewrite !logout_session.
      case_decide as Hk; [reflexivity |].
      rewrite lookup_insert_ne by (intros <-; apply Hk; tauto). reflexivity.
  - f_equal.
    + apply map_eq. intros k.
      destruct (decide (k = "offergo-profile")) as [-> | Hk]; now simplify_map_eq.
    + apply map_eq. intros k. rewrite !logout_session.
      now case_decide.
Qed.

(** X18. The demo login dialog: with any other email or password the
    storage is left as it is, the error line is shown and the dialog stays;
    with the demo credentials the demo user becomes active and, when the
    stored profile text reads back as the demo profile, the profile loaded
    after the reload is the completed demo profile. *)
Theorem demo_login_needs_the_credentials
    (JSON_parse : string -> option Profile.ProfileData)
    (JSON_stringify : Profile.ProfileData -> string)
    (email password : string) (st : DemoUsers.Storage) :
  (email <> "offergo@gmail.com" \/ password <> "123456" ->
   DemoLogin.storage (DemoLogin.handleSubmit JSON_stringify email password st) = st /\
   DemoLogin.error (DemoLogin.handleSubmit JSON_stringify email password st)
     = "Invalid email or password." /\
   DemoLogin.closed (DemoLogin.handleSubmit JSON_stringify email password st) = false /\
   DemoLogin.navigate (DemoLogin.handleSubmit JSON_stringify email password st) = None) /\
  (let done := DemoLogin.handleSubmit JSON_stringify "offergo@gmail.com" "123456" st in
   DemoUsers.getActiveDemoUserId (DemoLogin.storage done) = Some "demo-bob" /\
   DemoLogin.error done = "" /\
   (JSON_stringify DemoUsers.profileData <> "" ->
    JSON_parse (JSON_stringify DemoUsers.profileData) = Some DemoUsers.profileData ->
    Profile.loadProfile JSON_parse (DemoUsers.localStorage (DemoLogin.storage done))
      = DemoUsers.profileData /\
    Profile.completed
      (Profile.loadProfile JSON_parse (DemoUsers.localStorage (DemoLogin.storage done)))
      = true)).
Proof.
  split.
  - intros Hbad. unfold DemoLogin.handleSubmit.
    assert (Hno : String.eqb email "offergo@gmail.com" && String.eqb password "123456"
                  = false).
    { apply andb_false_iff.
      destruct Hbad as [H | H]; [left | right]; now apply String.eqb_neq. }
    now rewrite Hno.
  - cbv zeta.
    change (DemoLogin.handleSubmit JSON_stringify "offergo@gmail.com" "123456" st)
      with {| DemoLogin.storage := DemoUsers.loginDemoUser JSON_stringify st;
              DemoLogin.email := ""; DemoLogin.password := ""; DemoLogin.error := "";
              DemoLogin.closed := true; DemoLogin.navigate := Some "/" |}.
    cbn [DemoLogin.storage DemoLogin.error].
    split; [apply lookup_insert_eq |]. split; [reflexivity |].
    intros Hne Hround.
    assert (Hload : Profile.loadProfile JSON_parse
                      (DemoUsers.localStorage
                         (DemoUsers.loginDemoUser JSON_stringify st))
                    = DemoUsers.profileData).
    { unfold Profile.loadProfile, DemoUsers.loginDemoUser, Profile.STORAGE_KEY.
      cbn [DemoUsers.localStorage]. rewrite lookup_insert_eq, Hround.
      now destruct (String.eqb_spec (JSON_stringify DemoUsers.profileData) ""). }
    rewrite Hload. now split.
Qed.

Lemma demo_login_needs_the_credentials_witness :
  DemoLogin.storage
    (DemoLogin.handleSubmit Samples.demoText "offergo@gmail.com" "12345" Samples.emptyStorage)
    = Samples.emptyStorage /\
  Profile.completed
    (Profile.loadProfile Samples.readDemo
       (DemoUsers.localStorage
          (DemoLogin.storage
             (DemoLogin.handleSubmit Samples.demoText "offergo@gmail.com" "123456"
                Samples.emptyStorage))))
    = true.
Proof.
  split.
  - apply (proj1 (demo_login_needs_the_credentials Samples.readDemo Samples.demoText
                    "offergo@gmail.com" "12345" Samples.emptyStorage)).
    right. discriminate.
  - apply (proj2 (demo_login_needs_the_credentials Samples.readDemo Samples.demoText
                    "" "" Samples.emptyStorage)).
    + discriminate.
    + reflexivity.
Defined.

(** ** Amounts read out of text *)

Section AmountFacts.
Import JS Extract.

Lemma allAmountChars_append (a b : string) :
  Range.allAmountChars (a +:+ b)
  = Range.allAmountChars a && Range.allAmountChars b.
Proof.
  induction a as [| c a IH]; [reflexivity |].
  rewrite append_cons. cbn [Range.allAmountChars]. now rewrite IH, andb_assoc.
Qed.

Lemma takeWhile_amount (p : ascii -> bool) (s a b : string) :
  (forall c, p c = true -> Range.isAmountChar c = true) ->
  takeWhile p s = (a, b) -> Range.allAmountChars a = true.
Proof.
  intros Hp. revert a b. induction s as [| c s IH]; intros a b.
  - now intros [= <- <-].
  - cbn [takeWhile]. destruct (p c) eqn:Hc.
    + destruct (takeWhile p s) as [a' b']. intros [= <- <-].
      cbn [Range.allAmountChars]. rewrite (Hp c Hc). now apply (IH a' b').
    + now intros [= <- <-].
Qed.

Lemma digit_is_amount (c : ascii) : is_digit c = true -> Range.isAmountChar c = true.
Proof. unfold Range.isAmountChar. now intros ->. Qed.

Lemma digitOrComma_is_amount (c : ascii) :
  isDigitOrComma c = true -> Range.isAmountChar c = true.
Proof.
  unfold isDigitOrComma, Range.isAmountChar.
  intros H. apply orb_true_iff in H as [-> | ->]; [reflexivity |].
  now rewrite orb_true_r.
Qed.

Lemma numberGroup_amount (s g : string) :
  numberGroup s = Some g -> g <> "" /\ Range.allAmountChars g = true.
Proof.
  unfold numberGroup.
  destruct (takeWhile isDigitOrComma s) as [whole rest] eqn:Hw.
  pose proof (takeWhile_amount _ _ _ _ digitOrComma_is_amount Hw) as Hwhole.
  destruct (String.eqb_spec whole "") as [| Hne]; [discriminate |].
  assert (Hdot : forall frac, whole +:+ "." +:+ frac <> "").
  { intros frac. destruct whole; [contradiction | discriminate]. }
  destruct rest as [| c rest']; [now intros [= <-] |].
  destruct (Ascii.eqb_spec c ".") as [-> | Hc].
  - destruct (takeWhile is_digit rest') as [frac tail] eqn:Hf.
    pose proof (takeWhile_amount _ _ _ _ digit_is_amount Hf) as Hfrac.
    destruct (String.eqb frac ""); intros [= <-]; [now split |].
    split; [apply Hdot |].
    rewrite allAmountChars_append, Hwhole.
    change ("." +:+ frac) with (String "." frac). cbn. exact Hfrac.
  - destruct c as [[] [] [] [] [] [] [] []]; try (now intros [= <-]);
      exfalso; now apply Hc.
Qed.

Lemma dollarGroup_amount (dollar : bool) (s g : string) :
  dollarGroup dollar s = Some g -> g <> "" /\ Range.allAmountChars g = true.
Proof.
  unfold dollarGroup. intros H.
  assert (Hcases : numberGroup s = Some g
                   \/ exists s', numberGroup s' = Some g).
  { destruct s as [| c s']; [now left |].
    destruct c as [[] [] [] [] [] [] [] []]; try (now left).
    destruct dollar; [| now left].
    destruct (numberGroup s') eqn:Hs'; [right; exists s'; congruence | now left]. }
  destruct Hcases as [Hg | [s' Hg]]; now apply numberGroup_amount in Hg.
Qed.

Lemma skipToGroup_amount (dollar : bool) (s g : string) :
  skipToGroup dollar s = Some g -> g <> "" /\ Range.allAmountChars g = true.
Proof.
  induction s as [| c s IH]; cbn [skipToGroup].
  - apply dollarGroup_amount.
  - destruct (notDigitNorHyphen c); [| apply dollarGroup_amount].
    destruct (skipToGroup dollar s) as [g' |].
    + intros [= <-]. now apply IH.
    + apply dollarGroup_amount.
Qed.

(** Group 1 of a match is never empty and holds only digits, commas and
    dots. *)
Lemma matchGroup_amount (keyword : string) (dollar : bool) (s g : string) :
  matchGroup keyword dollar s = Some g ->
  g <> "" /\ Range.allAmountChars g = true.
Proof.
  assert (Hat : forall t, matchAt keyword dollar t = Some g ->
                          g <> "" /\ Range.allAmountChars g = true).
  { intros t. unfold matchAt. destruct (afterKeyword keyword t); [| discriminate].
    apply skipToGroup_amount. }
  induction s as [| c s IH]; cbn [matchGroup].
  - destruct (matchAt keyword dollar "") eqn:H; [| discriminate].
    intros [= <-]. now apply (Hat "").
  - destruct (matchAt keyword dollar (String c s)) eqn:H.
    + intros [= <-]. now apply (Hat (String c s)).
    + exact IH.
Qed.

End AmountFacts.

Section ParseFacts.
Import JS Extract.

Lemma keepNumeric_amount (g : string) :
  Range.allAmountChars g = true -> Range.allAmountChars (keepNumeric g) = true.
Proof.
  induction g as [| c g IH]; [reflexivity |].
  cbn [Range.allAmountChars keepNumeric]. intros H.
  apply andb_true_iff in H as [Hc Hg].
  destruct (isNumeric c); [| now apply IH].
  cbn [Range.allAmountChars]. now rewrite Hc, IH.
Qed.

Lemma Number_amount (s : string) :
  Range.allAmountChars s = true -> Number_ s = unsignedValue s.
Proof.
  destruct s as [| c s]; [reflexivity |].
  cbn [Range.allAmountChars]. intros H. apply andb_true_iff in H as [Hc _].
  destruct c as [[] [] [] [] [] [] [] []]; try reflexivity; discriminate.
Qed.

Lemma digitsValue_nonneg (s : string) (acc : Z) :
  allDigits s = true -> (0 <= acc)%Z -> (0 <= digitsValue acc s)%Z.
Proof.
  revert acc. induction s as [| c s IH]; intros acc; [trivial |].
  cbn [allDigits digitsValue]. intros H Hacc.
  apply andb_true_iff in H as [Hc Hs]. apply IH; [assumption |].
  unfold is_digit in Hc. apply andb_true_iff in Hc as [Hlo _].
  apply N.leb_le in Hlo. lia.
Qed.

Lemma inject_Z_nonneg (z : Z) : (0 <= z)%Z -> (0 <= inject_Z z)%Q.
Proof. intros H. unfold Qle; cbn. lia. Qed.

Lemma unsignedValue_nonneg (s : string) (q : Q) :
  unsignedValue s = Num q -> (0 <= q)%Q.
Proof.
  unfold unsignedValue. destruct (splitDot s) as [a [b |]].
  - destruct (allDigits a) eqn:Ha; [| discriminate].
    destruct (allDigits b) eqn:Hb; [| discriminate].
    destruct (negb _); [| discriminate]. intros [= <-].
    pose proof (inject_Z_nonneg _ (digitsValue_nonneg a 0 Ha (Z.le_refl 0))) as Hqa.
    pose proof (inject_Z_nonneg _ (digitsValue_nonneg b 0 Hb (Z.le_refl 0))) as Hqb.
    assert (Hpow : (0 < inject_Z (10 ^ Z.of_nat (String.length b)))%Q).
    { assert (0 < 10 ^ Z.of_nat (String.length b))%Z
        by (apply Z.pow_pos_nonneg; lia).
      unfold Qlt; cbn [Qnum Qden inject_Z]. lia. }
    assert (Hfrac : (0 <= inject_Z (digitsValue 0 b)
                          / inject_Z (10 ^ Z.of_nat (String.length b)))%Q).
    { apply Qle_shift_div_l; [assumption |]. now rewrite Qmult_0_l. }
    rewrite <- (Qplus_0_r 0). now apply Qplus_le_compat.
  - destruct (allDigits a) eqn:Ha; [| discriminate].
    destruct (negb _); [| discriminate]. intros [= <-].
    apply inject_Z_nonneg. now apply digitsValue_nonneg.
Qed.

(** A number parsed from a text of digits, commas and dots is not
    negative. *)
Lemma parseNumber_nonneg (g : string) (n : number) :
  Range.allAmountChars g = true -> parseNumber g = Some n -> Range.nonNegative n.
Proof.
  intros Hg. unfold parseNumber.
  destruct (String.eqb (keepNumeric g) ""); [discriminate |].
  rewrite (Number_amount _ (keepNumeric_amount g Hg)).
  destruct (unsignedValue (keepNumeric g)) as [| q] eqn:Hq; [discriminate |].
  intros [= <-]. exists q. split; [reflexivity |].
  now apply (unsignedValue_nonneg (keepNumeric g)).
Qed.

Lemma firstMatch_In (l : list (option string)) (g : string) :
  firstMatch l = Some g -> In (Some g) l.
Proof.
  induction l as [| [x |] l IH]; cbn [firstMatch]; [discriminate | |].
  - intros [= ->]. now left.
  - intros H. right. now apply IH.
Qed.

End ParseFacts.

(** X19. Group 1 of a match of the "market", "offer" or "offered" pattern
    is never empty and holds only digits, commas and dots, whatever the
    text; so a total read out of the evaluation text is never negative and
    never NaN. *)
Theorem extracted_totals_are_not_negative :
  (forall (keyword : string) (dollar : bool) (s g : string),
     Extract.matchGroup keyword dollar s = Some g ->
     g <> "" /\ Range.allAmountChars g = true) /\
  (forall (raw : option Results.WorkflowEvaluation) (n : JS.number),
     Results.extractMarketTotal raw = JS.Ok (Some n) -> Range.nonNegative n) /\
  (forall (raw : option Results.WorkflowEvaluation) (n : JS.number),
     Results.extractOfferTotal raw = JS.Ok (Some n) -> Range.nonNegative n).
Proof.
  split; [exact matchGroup_amount |].
  assert (Hdrivers :
    forall keyword dollar (ds : list Submission.KeyDriver) g n,
      Extract.firstMatch
        (List.map (fun k => Extract.matchGroup keyword dollar (Submission.label k)) ds)
        = Some g ->
      Extract.parseNumber g = Some n -> Range.nonNegative n).
  { intros keyword dollar ds g n Hfirst Hparse.
    apply firstMatch_In in Hfirst. apply in_map_iff in Hfirst as (k & Hk & _).
    apply matchGroup_amount in Hk as [_ Hk]. now apply (parseNumber_nonneg g). }
  split; intros [e |] n; cbn [Results.extractMarketTotal Results.extractOfferTotal];
    try discriminate.
  - destruct (Submission.key_drivers e) as [ds |]; [| discriminate]. cbn [JS.deref JS.bind].
    destruct (Extract.firstMatch _) as [g |] eqn:Hfirst.
    + intros [= H]. now apply (Hdrivers _ _ _ _ _ Hfirst).
    + destruct (Submission.one_paragraph_summary e) as [summary |]; [| discriminate].
      cbn [JS.deref JS.bind].
      destruct (Extract.matchGroup "market" false summary) as [g |] eqn:Hg;
        [| discriminate].
      intros [= H]. apply matchGroup_amount in Hg as [_ Hg].
      now apply (parseNumber_nonneg g).
  - destruct (Submission.one_paragraph_summary e) as [summary |]; [| discriminate].
    cbn [JS.deref JS.bind].
    destruct (Extract.matchGroup "offered" true summary) as [g |] eqn:Hg.
    { intros [= H]. apply matchGroup_amount in Hg as [_ Hg].
      now apply (parseNumber_nonneg g). }
    destruct (Extract.matchGroup "offer" true summary) as [g |] eqn:Hg'.
    { intros [= H]. apply matchGroup_amount in Hg' as [_ Hg'].
      now apply (parseNumber_nonneg g). }
    destruct (Submission.key_drivers e) as [ds |]; [| discriminate]. cbn [JS.deref JS.bind].
    destruct (Extract.firstMatch _) as [g |] eqn:Hfirst; [| discriminate].
    intros [= H]. now apply (Hdrivers _ _ _ _ _ Hfirst).
Qed.

Lemma extracted_totals_are_not_negative_witness :
  Range.nonNegative (JS.Num 150000) /\ Range.nonNegative (JS.Num 140000).
Proof.
  destruct extracted_totals_are_not_negative as (_ & Hmarket & Hoffer). split.
  - apply (Hoffer (Some Samples.evalBothFigures)). vm_compute. reflexivity.
  - apply (Hmarket (Some Samples.evalBothFigures)). vm_compute. reflexivity.
Defined.

(** ** The market comparison: when nothing is derived, and from what *)

Section DerivationFacts.
Import JS Results.


Lemma not_positive (q : Q) : (q <= 0)%Q -> (Num q > lit 0)%js = false.
Proof.
  intros H. apply not_true_iff_false. rewrite gt_zero_Num. now apply Qle_not_lt.
Qed.

Lemma not_nonpositive (q : Q) : (0 < q)%Q -> (Num q <= lit 0)%js = false.
Proof.
  intros H. apply not_true_iff_false. rewrite le_zero_Num. now apply Qlt_not_le.
Qed.

Lemma fill_both_known (rawEval : option WorkflowEvaluation) (o m : Q) :
  (0 < o)%Q -> (0 < m)%Q ->
  fillFromIngest rawEval (Num o, Num m) = (Num o, Num m) /\
  fillFromText rawEval (Num o, Num m) = (Num o, Num m).
Proof.
  intros Ho Hm. unfold fillFromIngest, fillFromText.
  repeat (progress (rewrite ?(not_nonpositive o Ho), ?(not_nonpositive m Hm);
                    cbn [andb])).
  now split.
Qed.

Lemma fill_none_known (rawEval : option WorkflowEvaluation) (o m : Q) :
  (o <= 0)%Q -> (m <= 0)%Q ->
  fillFromIngest rawEval (Num o, Num m) = (Num o, Num m) /\
  fillFromText rawEval (Num o, Num m) = (Num o, Num m).
Proof.
  intros Ho Hm. unfold fillFromIngest, fillFromText.
  repeat (progress (rewrite ?(not_positive o Ho), ?(not_positive m Hm),
                      ?andb_false_r)).
  now split.
Qed.

End DerivationFacts.

(** X20. The ratios are applied only when exactly one total is known: when
    both totals are strictly positive at the point where one would be
    derived from the other, and when neither is, the derived totals are the
    known totals unchanged. *)
Theorem totals_kept_when_both_or_none_known
    (JSON : Results.Parse) (ss : gmap string string)
    (rawEval : option Results.WorkflowEvaluation) (o m : Q) :
  Results.knownTotals JSON ss rawEval = JS.Ok (JS.Num o, JS.Num m) ->
  ((0 < o)%Q /\ (0 < m)%Q) \/ ((o <= 0)%Q /\ (m <= 0)%Q) ->
  Results.derivedTotals JSON ss rawEval = JS.Ok (JS.Num o, JS.Num m).
Proof.
  intros Hknown Hcase. rewrite (derivedTotals_known _ _ _ _ Hknown).
  destruct Hcase as [[Ho Hm] | [Ho Hm]].
  - destruct (fill_both_known rawEval o m Ho Hm) as [-> ->].
    now destruct (Results.getTruthy ss "offergo-ingest-parsed").
  - destruct (fill_none_known rawEval o m Ho Hm) as [-> ->].
    now destruct (Results.getTruthy ss "offergo-ingest-parsed").
Qed.

Lemma totals_kept_when_both_or_none_known_witness :
  Results.derivedTotals Examples.tagParse ∅ (Some Samples.evalBothFigures)
  = JS.Ok (JS.Num 150000, JS.Num 140000).
Proof.
  apply (totals_kept_when_both_or_none_known Examples.tagParse ∅
           (Some Samples.evalBothFigures) 150000 140000).
  - vm_compute. reflexivity.
  - left. split; reflexivity.
Defined.





(** X23. An evaluation stored without its summary: when ingestion fields
    are stored too, the failure is swallowed and the page shows no
    comparison; when they are not, the TypeError is raised outside any
    handler and escapes the effect that runs when the page mounts. *)
Theorem missing_summary_is_swallowed_only_inside_try
    (JSON : Results.Parse) (rnd : nat -> Q) (ss : gmap string string)
    (e : Results.WorkflowEvaluation) :
  Results.loadWorkflowEval JSON ss = Some e ->
  Submission.one_paragraph_summary e = None ->
  (forall raw : string,
     Results.getTruthy ss "offergo-ingest-parsed" = Some raw ->
     Results.deriveOfferVsMarket JSON ss (Some e) = JS.Ok None) /\
  (Results.getTruthy ss "offergo-ingest-parsed" = None ->
   Results.deriveOfferVsMarket JSON ss (Some e) = JS.Throw JS.TypeError /\
   forall d : Results.AnalysisData,
     Results.generateDemoData JSON rnd ss = JS.Ok d ->
     Results.mountEffect JSON rnd ss = JS.Throw JS.TypeError).
Proof.
  intros Heval Hsummary.
  assert (Hoffer : Results.extractOfferTotal (Some e) = JS.Throw JS.TypeError).
  { unfold Results.extractOfferTotal. now rewrite Hsummary. }
  split.
  - intros raw Hraw. unfold Results.deriveOfferVsMarket, Results.derivedTotals.
    rewrite Hraw. destruct (Results.JSON_parse _ raw) as [parsed |]; [| reflexivity].
    cbn [JS.bind]. unfold Results.knownFromIngest.
    destruct (Results.extractMarketTotal (Some e)); [| reflexivity].
    cbn [JS.bind]. now rewrite Hoffer.
  - intros Hnone.
    assert (Hderive : Results.deriveOfferVsMarket JSON ss (Some e)
                      = JS.Throw JS.TypeError).
    { unfold Results.deriveOfferVsMarket, Results.derivedTotals.
      rewrite Hnone. unfold Results.knownFromText. now rewrite Hoffer. }
    split; [assumption |].
    intros d Hd. unfold Results.mountEffect. rewrite Hd. cbn [JS.bind].
    destruct (Results.loadSubmission JSON ss). now rewrite Heval, Hderive.
Qed.

Lemma missing_summary_is_swallowed_only_inside_try_witness :
  Results.mountEffect
    {| Results.parse_analysis := Results.parse_analysis Examples.tagParse;
       Results.parse_submission := Results.parse_submission Examples.tagParse;
       Results.parse_eval := fun _ => Some Samples.evalNoSummary;
       Results.parse_parsed := Results.parse_parsed Examples.tagParse |}
    Examples.noRandom {[ "offergo-workflow-eval" := "{evaluation}" ]}
  = JS.Throw JS.TypeError.
Proof.
  eapply (proj2 (missing_summary_is_swallowed_only_inside_try _ Examples.noRandom
                   {[ "offergo-workflow-eval" := "{evaluation}" ]}
                   Samples.evalNoSummary _ eq_refl)).
  - vm_compute. reflexivity.
  - vm_compute. reflexivity.
  Unshelve. vm_compute. reflexivity.
Defined.

(** ** From a completed submission to the results page *)

Section HandoverFacts.
Import JS Submission.

Lemma getTruthy_lookup (ss : gmap string string) (key raw : string) :
  ss !! key = Some raw -> raw <> "" -> Results.getTruthy ss key = Some raw.
Proof.
  intros H Hne. unfold Results.getTruthy. rewrite H.
  destruct (String.eqb_spec raw ""); [contradiction | reflexivity].
Qed.

Lemma truthyId_truthy (o : option Q) (q : Q) :
  truthyId o = Some q -> truthy (Num q) = true.
Proof.
  unfold truthyId. destruct o as [x |]; [| discriminate].
  destruct (Qeq_bool x 0) eqn:Hx; [discriminate |].
  intros [= <-]. cbn. now rewrite Hx.
Qed.

(** The four texts a completed submission leaves in the session. *)
Lemma completed_session
    (api : Backend) (JSON : Stringify) (offers : list UploadedOffer)
    (pr : Priorities) (ss : gmap string string) (cur : UploadedOffer)
    (ingestResp : Response IngestResponse) (ij : IngestResponse) (offerId : Q)
    (evalResp : Response WorkflowEvaluation) (ev : WorkflowEvaluation)
    (analysis : ResultsAnalysisData) :
  List.find isCurrent offers = Some cur ->
  endsWith (lower (name (file cur))) ".pdf" = true ->
  ingest_pdf api (file cur) pr = Ok ingestResp ->
  ok ingestResp = true ->
  json ingestResp = Ok ij ->
  truthyId (offer_id ij) = Some offerId ->
  evaluate api offerId = Ok evalResp ->
  ok evalResp = true ->
  json evalResp = Ok ev ->
  mapEvalToAnalysis pr ev (name (file cur)) = Ok analysis ->
  let done := handleSubmit api JSON offers pr ss in
  navigate done = Some "/results" /\
  toast done = None /\
  session done !! "offergo-submission"
    = Some (stringify_submission JSON (SubmitCases.snapshotOf offers pr offerId)) /\
  session done !! "offergo-demo-analysis" = Some (stringify_analysis JSON analysis) /\
  session done !! "offergo-workflow-eval" = Some (stringify_eval JSON ev) /\
  session done !! "offergo-ingest-parsed"
    = Some (stringify_parsed JSON
              (match parsed ij with Some p => p | None => emptyParsed end)).
Proof.
  intros Hfind Hpdf Hing Hok Hij Hid Hev Hok' Hevj Hmap. cbv zeta.
  destruct (find_current_some _ _ Hfind) as [Hlen Hex].
  unfold handleSubmit. rewrite Hlen, Hex, Hfind, Hpdf. cbn [negb].
  unfold submitCurrent, andThen, await, throw, ret, setItem.
  rewrite Hing, Hok, Hij, Hid, Hev, Hok', Hevj. cbn [negb]. rewrite Hmap.
  destruct (market_snapshot api offerId) as [mr |];
    [destruct (ok mr); [destruct (json mr) |] |];
    cbn [toast navigate session];
    repeat match goal with |- _ /\ _ => split end;
    try reflexivity; now simplify_map_eq.
Qed.

End HandoverFacts.

(** X24. From a completed submission to the results page: when the texts
    the submission wrote read back as the values written, the page mounts
    without an exception on the session the submission left, it shows the
    report the normalizer computed, the priorities and the evaluation of
    that submission, and it holds the offer id the ingest call returned, so
    the chat has its offer context. *)
Theorem completed_submission_opens_results
    (api : Submission.Backend) (JSON : Submission.Stringify)
    (READ : Results.Parse) (rnd : nat -> Q)
    (offers : list Submission.UploadedOffer) (pr : Submission.Priorities)
    (ss : gmap string string) (cur : Submission.UploadedOffer)
    (ingestResp : Submission.Response Submission.IngestResponse)
    (ij : Submission.IngestResponse) (offerId : Q)
    (evalResp : Submission.Response Submission.WorkflowEvaluation)
    (ev : Submission.WorkflowEvaluation)
    (analysis : Submission.ResultsAnalysisData) :
  List.find Submission.isCurrent offers = Some cur ->
  Submission.endsWith (JS.lower (Submission.name (Submission.file cur))) ".pdf" = true ->
  Submission.ingest_pdf api (Submission.file cur) pr = JS.Ok ingestResp ->
  Submission.ok ingestResp = true ->
  Submission.json ingestResp = JS.Ok ij ->
  Submission.truthyId (Submission.offer_id ij) = Some offerId ->
  Submission.evaluate api offerId = JS.Ok evalResp ->
  Submission.ok evalResp = true ->
  Submission.json evalResp = JS.Ok ev ->
  Submission.mapEvalToAnalysis pr ev (Submission.name (Submission.file cur))
    = JS.Ok analysis ->
  let snapshot := SubmitCases.snapshotOf offers pr offerId in
  let fields :=
    match Submission.parsed ij with
    | Some p => p
    | None => Submission.emptyParsed
    end in
  Submission.stringify_submission JSON snapshot <> "" ->
  Submission.stringify_analysis JSON analysis <> "" ->
  Submission.stringify_eval JSON ev <> "" ->
  Submission.stringify_parsed JSON fields <> "" ->
  Results.parse_submission READ (Submission.stringify_submission JSON snapshot)
    = Some snapshot ->
  Results.parse_analysis READ (Submission.stringify_analysis JSON analysis)
    = Some analysis ->
  Results.parse_eval READ (Submission.stringify_eval JSON ev) = Some ev ->
  Results.parse_parsed READ (Submission.stringify_parsed JSON fields) = Some fields ->
  exists st : Results.State,
    Results.mountEffect READ rnd
      (Submission.session (Submission.handleSubmit api JSON offers pr ss)) = JS.Ok st /\
    Results.data st = Some analysis /\
    Results.priorities st = Some pr /\
    Results.workflowEval st = Some ev /\
    Results.backendOfferId st = Some (JS.Num offerId) /\
    Results.offerIdOf st = Some (JS.Num offerId).
Proof.
  intros Hfind Hpdf Hing Hok Hij Hid Hev Hok' Hevj Hmap. cbv zeta.
  intros Ns Na Ne Np Rs Ra Re Rp.
  destruct (completed_session api JSON offers pr ss cur ingestResp ij offerId
              evalResp ev analysis Hfind Hpdf Hing Hok Hij Hid Hev Hok' Hevj Hmap)
    as (_ & _ & Ls & La & Le & Lp).
  set (ss' := Submission.session (Submission.handleSubmit api JSON offers pr ss)) in *.
  pose proof (getTruthy_lookup _ _ _ Ls Ns) as Ts.
  pose proof (getTruthy_lookup _ _ _ La Na) as Ta.
  pose proof (getTruthy_lookup _ _ _ Le Ne) as Te.
  pose proof (getTruthy_lookup _ _ _ Lp Np) as Tp.
  assert (Hdata : Results.generateDemoData READ rnd ss' = JS.Ok analysis).
  { unfold Results.generateDemoData. rewrite Ta. unfold Results.JSON_parse.
    now rewrite Ra. }
  assert (Hsub : Results.loadSubmission READ ss' = (Some pr, Some (JS.Num offerId))).
  { unfold Results.loadSubmission. rewrite Ts. unfold Results.JSON_parse.
    now rewrite Rs. }
  assert (Heval : Results.loadWorkflowEval READ ss' = Some ev).
  { unfold Results.loadWorkflowEval. rewrite Te. unfold Results.JSON_parse.
    now rewrite Re. }
  assert (Hcmp : exists c, Results.deriveOfferVsMarket READ ss' (Some ev) = JS.Ok c).
  { unfold Results.deriveOfferVsMarket. rewrite Tp.
    destruct (Results.derivedTotals READ ss' (Some ev)); now eexists. }
  destruct Hcmp as [c Hc].
  eexists. unfold Results.mountEffect.
  rewrite Hdata. cbn [JS.bind]. rewrite Hsub, Heval, Hc. cbn [JS.bind].
  split; [reflexivity |].
  cbn [Results.data Results.priorities Results.workflowEval Results.backendOfferId].
  repeat match goal with |- _ /\ _ => split end; try reflexivity.
  unfold Results.offerIdOf. cbn [Results.backendOfferId].
  now rewrite (truthyId_truthy _ _ Hid).
Qed.

Lemma completed_submission_opens_results_witness :
  exists st : Results.State,
    Results.mountEffect Samples.readRun Examples.noRandom
      (Submission.session
         (Submission.handleSubmit (Examples.backendReturning Examples.evalAccept)
            Examples.tagOnly [Examples.offerPdf] Examples.prioritiesFinancial ∅))
      = JS.Ok st /\
    Results.data st = Some Samples.reportOfRun /\
    Results.priorities st = Some Examples.prioritiesFinancial /\
    Results.workflowEval st = Some Examples.evalAccept /\
    Results.backendOfferId st = Some (JS.Num 7) /\
    Results.offerIdOf st = Some (JS.Num 7).
Proof.
  eapply (completed_submission_opens_results
            (Examples.backendReturning Examples.evalAccept) Examples.tagOnly
            Samples.readRun Examples.noRandom [Examples.offerPdf]
            Examples.prioritiesFinancial ∅ Examples.offerPdf _ _ 7%Q _
            Examples.evalAccept Samples.reportOfRun);
    try reflexivity; discriminate.
Defined.

(** ** The chat, whatever the backend answers *)

Section ChatOutcomeFacts.
Import JS Results.

Variable chatEndpoint :
  number -> string -> result (Submission.Response OfferChatResponse).
Variable engineMessage : exn -> string.

Lemma sendMessage_nonblank (st : State) :
  trim (input st) <> "" ->
  sendMessage chatEndpoint engineMessage st =
    [AppendChat {| role := "user"; content := trim (input st) |};
     SetInput "";
     SetTyping true]
    ++ fst (askBackend chatEndpoint st (trim (input st)))
    ++ match snd (askBackend chatEndpoint st (trim (input st))) with
       | Ok _ => []
       | Throw error =>
           [AppendChat {| role := "ai";
                          content := "I couldn't reach Nemotron chat right now. "
                                     +:+ messageOf engineMessage error |};
            ShowToast {| Submission.title := "Nemotron chat unavailable";
                         Submission.description :=
                           Submission.Plain (messageOf engineMessage error) |}]
       end
    ++ [SetTyping false].
Proof.
  intros Htext. unfold sendMessage.
  destruct (String.eqb_spec (trim (input st)) ""); [contradiction |].
  now destruct (askBackend chatEndpoint st (trim (input st))).
Qed.

End ChatOutcomeFacts.



(** X26. With a stored offer id, the outcome of the request decides the
    assistant entry: an answer of the backend is appended as it is and no
    notification is shown; an HTTP error status, a request that fails, or a
    body that does not parse gives the entry "I couldn't reach Nemotron chat
    right now." followed by the error text (the body of the error response,
    or the message of the exception), and the notification carries that
    same text. In each case the request was sent once. *)
Theorem chat_reply_follows_the_response
    (chatEndpoint :
       JS.number -> string -> JS.result (Submission.Response Results.OfferChatResponse))
    (engineMessage : JS.exn -> string) (st : Results.State) (offerId : JS.number) :
  Results.trim (Results.input st) <> "" ->
  Results.offerIdOf st = Some offerId ->
  let text := Results.trim (Results.input st) in
  let trace := Results.sendMessage chatEndpoint engineMessage st in
  let opening :=
    [ Results.AppendChat {| Results.role := "user"; Results.content := text |};
      Results.SetInput "";
      Results.SetTyping true;
      Results.Fetch offerId text ] in
  let failure (msg : string) :=
    opening ++
    [ Results.AppendChat
        {| Results.role := "ai";
           Results.content := "I couldn't reach Nemotron chat right now. " +:+ msg |};
      Results.ShowToast
        {| Submission.title := "Nemotron chat unavailable";
           Submission.description := Submission.Plain msg |};
      Results.SetTyping false ] in
  match chatEndpoint offerId text with
  | JS.Throw e => trace = failure (Results.messageOf engineMessage e)
  | JS.Ok resp =>
      if Submission.ok resp then
        match Submission.json resp with
        | JS.Ok payload =>
            trace = opening ++
              [ Results.AppendChat
                  {| Results.role := "ai"; Results.content := Results.answer payload |};
                Results.SetTyping false ]
        | JS.Throw e => trace = failure (Results.messageOf engineMessage e)
        end
      else trace = failure (Submission.text resp)
  end.
Proof.
  intros Htext Hid. cbv zeta.
  rewrite (sendMessage_nonblank chatEndpoint engineMessage st Htext).
  unfold Results.askBackend. rewrite Hid.
  destruct (chatEndpoint offerId (Results.trim (Results.input st))) as [resp | e];
    [destruct (Submission.ok resp);
       [destruct (Submission.json resp) as [payload | e] |] |];
    reflexivity.
Qed.

Lemma chat_reply_follows_the_response_witness :
  Results.sendMessage Samples.answering Examples.failedToFetch
    (Samples.asking " Is the bonus guaranteed? ")
  = [ Results.AppendChat
        {| Results.role := "user"; Results.content := "Is the bonus guaranteed?" |};
      Results.SetInput "";
      Results.SetTyping true;
      Results.Fetch (JS.lit 7) "Is the bonus guaranteed?";
      Results.AppendChat
        {| Results.role := "ai"; Results.content := "Yes, after one year." |};
      Results.SetTyping false ] /\
  Results.sendMessage Samples.refusing Examples.failedToFetch
    (Samples.asking " Is the bonus guaranteed? ")
  = [ Results.AppendChat
        {| Results.role := "user"; Results.content := "Is the bonus guaranteed?" |};
      Results.SetInput "";
      Results.SetTyping true;
      Results.Fetch (JS.lit 7) "Is the bonus guaranteed?";
      Results.AppendChat
        {| Results.role := "ai";
           Results.content := "I couldn't reach Nemotron chat right now. offer not found" |};
      Results.ShowToast
        {| Submission.title := "Nemotron chat unavailable";
           Submission.description := Submission.Plain "offer not found" |};
      Results.SetTyping false ].
Proof.
  assert (Hne : Results.trim (Results.input (Samples.asking " Is the bonus guaranteed? "))
                <> "") by (vm_compute; discriminate).
  split.
  - exact (chat_reply_follows_the_response Samples.answering Examples.failedToFetch
             (Samples.asking " Is the bonus guaranteed? ") (JS.lit 7) Hne eq_refl).
  - exact (chat_reply_follows_the_response Samples.refusing Examples.failedToFetch
             (Samples.asking " Is the bonus guaranteed? ") (JS.lit 7) Hne eq_refl).
Defined.

(** ** The bars of the comparison panel *)

Section BarFacts.
Import JS Results.

Lemma round_of_share (v M : Q) :
  (0 < v)%Q -> (v <= M)%Q ->
  (0 <= round_half_up (v / M * inject_Z 100) <= 100)%Z /\
  (v == M -> round_half_up (v / M * inject_Z 100) = 100%Z).
Proof.
  intros Hv HvM.
  assert (HM : (0 < M)%Q) by (eapply Qlt_le_trans; eassumption).
  assert (Hlo : (0 <= v / M)%Q).
  { apply Qle_shift_div_l; [assumption |]. rewrite Qmult_0_l. now apply Qlt_le_weak. }
  assert (Hhi : (v / M <= 1)%Q).
  { apply Qle_shift_div_r; [assumption |]. now rewrite Qmult_1_l. }
  unfold round_half_up. split; [split |].
  - change 0%Z with (Qfloor 0). apply Qfloor_resp_le.
    apply Qle_trans with (0 * inject_Z 100 + 0)%Q; [now compute |].
    apply Qplus_le_compat; [| now compute].
    apply Qmult_le_compat_r; [assumption | now compute].
  - change 100%Z with (Qfloor (1 * inject_Z 100 + (1 # 2))). apply Qfloor_resp_le.
    apply Qplus_le_compat; [| apply Qle_refl].
    apply Qmult_le_compat_r; [assumption | now compute].
  - intros Heq.
    assert (H1 : v / M == 1).
    { rewrite Heq. apply Qmult_inv_r. intros H0. rewrite H0 in HM. now compute in HM. }
    change 100%Z with (Qfloor (1 * inject_Z 100 + (1 # 2))).
    now rewrite H1.
Qed.

Lemma width_of_share (v M : Q) :
  (0 < v)%Q -> (v <= M)%Q ->
  exists w : Z,
    Math_max (lit 8) (Math_round (Num v / Num M * lit 100)) = lit w /\
    (8 <= w <= 100)%Z /\ (v == M -> w = 100%Z).
Proof.
  intros Hv HvM. destruct (round_of_share v M Hv HvM) as [[Hlo Hhi] Heq].
  exists (Z.max 8 (round_half_up (v / M * inject_Z 100))).
  split; [| split; [lia |]].
  - cbn [div mul lift2 lit Math_round]. unfold Math_max, lit.
    rewrite Qle_bool_inject.
    destruct (Z.leb_spec 8 (round_half_up (v / M * inject_Z 100)));
      do 2 f_equal; lia.
  - intros H. rewrite (Heq H). reflexivity.
Qed.

End BarFacts.

(** X27. The bars of the comparison panel. For a pair of totals the page
    shows (both strictly positive), both widths are whole percentages
    between 8 and 100, the bar of the larger total is 100 % wide, and so at
    least one bar always fills the row. *)
Theorem bar_widths_of_a_comparison
    (totals : JS.number * JS.number) (p : Results.OfferVsMarket) :
  Results.comparisonOf totals = Some p ->
  exists offerWidth marketWidth : Z,
    ResultsView.barWidths p = (JS.lit offerWidth, JS.lit marketWidth) /\
    (8 <= offerWidth <= 100)%Z /\
    (8 <= marketWidth <= 100)%Z /\
    (JS.ge (Results.offerTotal p) (Results.marketTotal p) = true ->
       offerWidth = 100%Z) /\
    (JS.ge (Results.marketTotal p) (Results.offerTotal p) = true ->
       marketWidth = 100%Z) /\
    (offerWidth = 100%Z \/ marketWidth = 100%Z).
Proof.
  intros H. apply comparisonOf_some in H as (o & m & _ & Ho & Hm & ->).
  unfold ResultsView.barWidths, ResultsView.widthPct.
  cbn [Results.offerTotal Results.marketTotal JS.Math_max JS.ge].
  destruct (Qle_bool o m) eqn:Hom.
  - apply Qle_bool_iff in Hom.
    apply gt_zero_Num in Hm as Hm'. rewrite Hm'.
    destruct (width_of_share o m Ho Hom) as (a & -> & Ha & Ha').
    destruct (width_of_share m m Hm (Qle_refl m)) as (b & -> & Hb & Hb').
    exists a, b. repeat match goal with |- _ /\ _ => split end;
      try reflexivity; try lia.
    + intros Hge. apply Qle_bool_iff in Hge. apply Ha'. now apply Qle_antisym.
    + intros _. now apply Hb'.
    + right. now apply Hb'.
  - assert (Hmo : (m <= o)%Q).
    { apply Qlt_le_weak, Qnot_le_lt. intros Hle.
      apply Qle_bool_iff in Hle. congruence. }
    apply gt_zero_Num in Ho as Ho'. rewrite Ho'.
    destruct (width_of_share o o Ho (Qle_refl o)) as (a & -> & Ha & Ha').
    destruct (width_of_share m o Hm Hmo) as (b & -> & Hb & Hb').
    exists a, b. repeat match goal with |- _ /\ _ => split end;
      try reflexivity; try lia.
    + intros _. now apply Ha'.
    + left. now apply Ha'.
Qed.

Lemma bar_widths_of_a_comparison_witness :
  exists offerWidth marketWidth : Z,
    ResultsView.barWidths
      {| Results.offerTotal := JS.lit 150000; Results.marketTotal := JS.lit 180000 |}
    = (JS.lit offerWidth, JS.lit marketWidth) /\
    (8 <= offerWidth <= 100)%Z /\
    (8 <= marketWidth <= 100)%Z /\
    (offerWidth = 100%Z \/ marketWidth = 100%Z).
Proof.
  destruct (bar_widths_of_a_comparison (JS.lit 150000, JS.lit 180000)
              {| Results.offerTotal := JS.lit 150000;
                 Results.marketTotal := JS.lit 180000 |} eq_refl)
    as (a & b & H & Ha & Hb & _ & _ & Hfull).
  now exists a, b.
Defined.

(** ** Colours and grades *)

Section ColourFacts.
Import JS.

Lemma band_clash (a b : Z) (q : Q) :
  (a <= b)%Z ->
  Qle_bool (inject_Z b) q = true -> Qle_bool (inject_Z a) q = false -> False.
Proof.
  intros Hab Hb Ha. apply Qle_bool_iff in Hb.
  assert (H : Qle_bool (inject_Z a) q = true).
  { apply Qle_bool_iff. apply Qle_trans with (inject_Z b); [| assumption].
    now rewrite <- Zle_Qle. }
  congruence.
Qed.

End ColourFacts.

(** X28. The colour of a score and its grade agree: a score shown in
    emerald has grade A, A- or B+, a score shown in sky has grade B+, B, C
    or D, and a score shown in amber (below 60, or not a number) always has
    grade D; the text colour and the bar colour are always of the same
    band. So the grades A and A- are never shown in sky or amber. *)
Theorem grade_and_colour_bands (score : JS.number) :
  (ResultsView.gradeColor score = "text-emerald-400" /\
   ResultsView.barColor score = "bg-emerald-500" /\
   In (Submission.toGrade score) ["A"; "A-"; "B+"]) \/
  (ResultsView.gradeColor score = "text-sky-400" /\
   ResultsView.barColor score = "bg-sky-500" /\
   In (Submission.toGrade score) ["B+"; "B"; "C"; "D"]) \/
  (ResultsView.gradeColor score = "text-amber-400" /\
   ResultsView.barColor score = "bg-amber-500" /\
   Submission.toGrade score = "D").
Proof.
  destruct score as [| q].
  - right; right. now repeat split.
  - unfold ResultsView.gradeColor, ResultsView.barColor, Submission.toGrade.
    cbn [JS.ge JS.lit].
    destruct (Qle_bool (inject_Z 80) q) eqn:H80;
      destruct (Qle_bool (inject_Z 60) q) eqn:H60;
      destruct (Qle_bool (inject_Z 93) q) eqn:H93;
      destruct (Qle_bool (inject_Z 85) q) eqn:H85;
      destruct (Qle_bool (inject_Z 78) q) eqn:H78;
      destruct (Qle_bool (inject_Z 70) q) eqn:H70;
      destruct (Qle_bool (inject_Z 62) q) eqn:H62;
      try match goal with
          | H1 : Qle_bool (inject_Z ?b) q = true,
            H2 : Qle_bool (inject_Z ?a) q = false |- _ =>
              exfalso; apply (band_clash a b q); [lia | exact H1 | exact H2]
          end;
      first [ left; repeat split; now (cbn; auto 10)
            | right; left; repeat split; now (cbn; auto 10)
            | right; right; repeat split; reflexivity ].
Qed.

(** ** The canned comparison rows *)

Section DemoRowFacts.
Import JS Results.

Lemma lookup_map {A B : Type} (f : A -> B) (l : list A) (i : nat) (y : B) :
  List.map f l !! i = Some y -> exists x : A, l !! i = Some x /\ y = f x.
Proof.
  revert i. induction l as [| a l IH]; intros [| i] H; cbn in H; try discriminate.
  - injection H as <-. now exists a.
  - now apply IH.
Qed.

Lemma random_step (r : Q) (range base hi : Z) :
  (0 <= r)%Q -> (r < 1)%Q -> (0 < range)%Z -> hi = (base + range - 1)%Z ->
  Range.within base hi (lit base + Math_floor (Num r * lit range))%js.
Proof.
  intros Hlo Hhi Hrange ->.
  assert (H0 : (0 <= Qfloor (r * inject_Z range))%Z).
  { change 0%Z with (Qfloor 0). apply Qfloor_resp_le.
    apply Qmult_le_0_compat; [assumption |].
    change 0%Q with (inject_Z 0). rewrite <- Zle_Qle. lia. }
  assert (H1 : (Qfloor (r * inject_Z range) < range)%Z).
  { rewrite Zlt_Qlt. eapply Qle_lt_trans; [apply Qfloor_le |].
    rewrite <- (Qmult_1_l (inject_Z range)) at 2.
    apply Qmult_lt_compat_r; [| assumption].
    change 0%Q with (inject_Z 0). rewrite <- Zlt_Qlt. lia. }
  exists (base * 1 + Qfloor (r * inject_Z range) * 1)%Z. split; [reflexivity | lia].
Qed.

End DemoRowFacts.

(** X29. The canned report for a submission of several offers, when no
    analysis is stored: with [Math.random] in [0, 1), the comparison has one
    row per stored offer, named after the file without its extension; the
    first row repeats the report's own scores (87, 92, 81, 68) and every
    other row has whole scores with overall 72..83, financial 65..84,
    career 60..84 and risk 55..84, so no other offer reaches the overall
    score of the first. *)
Theorem demo_rows_within_ranges
    (JSON : Results.Parse) (Math_random : nat -> Q) (ss : gmap string string)
    (raw : string) (snap : Submission.SubmissionSnapshot)
    (os : list Submission.StoredOffer) :
  (forall k : nat, (0 <= Math_random k)%Q /\ (Math_random k < 1)%Q) ->
  Results.getTruthy ss "offergo-demo-analysis" = None ->
  Results.getTruthy ss "offergo-submission" = Some raw ->
  Results.parse_submission JSON raw = Some snap ->
  Submission.ss_offers snap = Some os ->
  (1 < length os)%nat ->
  exists d : Results.AnalysisData,
    Results.generateDemoData JSON Math_random ss = JS.Ok d /\
    Submission.overallScore d = JS.lit 87 /\
    length (Submission.comparisonData d) = length os /\
    forall (i : nat) (row : Submission.OfferComparison),
      Submission.comparisonData d !! i = Some row ->
      (exists o : Submission.StoredOffer,
         os !! i = Some o /\
         Submission.oc_name row = Submission.stripOfferExt (Submission.fileName o)) /\
      match i with
      | O =>
          Submission.oc_overall row = Submission.overallScore d /\
          Submission.oc_financial row
            = Submission.cs_financial (Submission.categoryScores d) /\
          Submission.oc_career row = Submission.cs_career (Submission.categoryScores d) /\
          Submission.oc_risk row = Submission.cs_risk (Submission.categoryScores d)
      | S _ =>
          Range.within 72 83 (Submission.oc_overall row) /\
          Range.within 65 84 (Submission.oc_financial row) /\
          Range.within 60 84 (Submission.oc_career row) /\
          Range.within 55 84 (Submission.oc_risk row)
      end.
Proof.
  intros Hrnd Hdemo Hsub Hparse Hoffers Hlen.
  unfold Results.generateDemoData. rewrite Hdemo, Hsub.
  unfold Results.JSON_parse. rewrite Hparse. cbn [JS.bind]. rewrite Hoffers.
  apply Nat.ltb_lt in Hlen as Hlt. rewrite Hlt.
  eexists. split; [reflexivity |].
  cbn [Results.demoBase Submission.overallScore Submission.comparisonData
       Submission.categoryScores Submission.cs_financial Submission.cs_career
       Submission.cs_risk].
  split; [reflexivity |]. split.
  - now rewrite length_imap, List.length_map.
  - intros i row Hrow.
    apply list_lookup_imap_Some in Hrow as (nm & Hnm & ->).
    apply lookup_map in Hnm as (o & Ho & ->).
    split; [now exists o |].
    destruct i as [| j]; [now repeat split |].
    cbn [Results.demoRow Nat.eqb Submission.oc_overall Submission.oc_financial
         Submission.oc_career Submission.oc_risk].
    repeat match goal with |- _ /\ _ => split end;
      apply random_step; try apply Hrnd; lia.
Qed.

Lemma demo_rows_within_ranges_witness :
  exists d : Results.AnalysisData,
    Results.generateDemoData Samples.readTwo Samples.oneHalf
      {[ "offergo-submission" := "{submission}" ]} = JS.Ok d /\
    List.map Submission.oc_name (Submission.comparisonData d) = ["Offer"; "other"] /\
    List.map Submission.oc_overall (Submission.comparisonData d)
      = [JS.lit 87; JS.lit 78].
Proof.
  assert (Hdemo : Results.getTruthy
                    ({[ "offergo-submission" := "{submission}" ]} : gmap string string)
                    "offergo-demo-analysis" = None) by (vm_compute; reflexivity).
  assert (Hsub : Results.getTruthy
                   ({[ "offergo-submission" := "{submission}" ]} : gmap string string)
                   "offergo-submission" = Some "{submission}")
    by (vm_compute; reflexivity).
  assert (Hrnd : forall k : nat,
             (0 <= Samples.oneHalf k)%Q /\ (Samples.oneHalf k < 1)%Q).
  { intros k. split; [discriminate | reflexivity]. }
  destruct (demo_rows_within_ranges Samples.readTwo Samples.oneHalf
              {[ "offergo-submission" := "{submission}" ]} "{submission}"
              Samples.twoOffers
              [ {| Submission.so_id := "a"; Submission.fileName := "Offer.PDF";
                   Submission.so_isCurrent := true |};
                {| Submission.so_id := "b"; Submission.fileName := "other.pdf";
                   Submission.so_isCurrent := false |} ]
              Hrnd Hdemo Hsub eq_refl eq_refl (le_n 2))
    as (d & Hd & _).
  exists d. split; [exact Hd |].
  assert (Hrun : Results.generateDemoData Samples.readTwo Samples.oneHalf
                   {[ "offergo-submission" := "{submission}" ]}
                 = JS.Ok (Results.demoBase
                            (imap (Results.demoRow Samples.oneHalf) ["Offer"; "other"])))
    by (vm_compute; reflexivity).
  rewrite Hrun in Hd. injection Hd as <-. split; vm_compute; reflexivity.
Defined.
